(** * Streaming conversation orchestration of the coaching chat service

    A shallow embedding of the text-chat turn of [app/llm/llm.py]
    ([LlmClient.llm_text_begin_message], [LlmClient.llm_text_response],
    [LlmClient._handle_function_call]), of the tool registry of
    [app/llm/tools/llm_tools.py], of the producer and consumer loops of
    [app/api/sse.py] and of the keepalive task of [app/utils/api_utils.py].

    Asynchronous generators are modelled by a writer-and-error monad [Gen]:
    a run is the ordered list of its observable actions (events yielded,
    external calls issued) together with the way it stopped.  Every external
    call (prompt assembly, model stream, Redis, message store, tool handler,
    token counter) takes its outcome from an explicit environment record.

    Conventions: a character is a code point below 256; time stamps are read
    from the wall clock in the source and are left out of [Event]. *)

From Stdlib Require Import String Ascii List Bool Arith ZArith Lia.
Import ListNotations.
Local Open Scope string_scope.
Local Open Scope list_scope.

(** ** Text helpers *)

Definition dq : ascii := "034"%char.

(** [dquote s] is [s] with every apostrophe turned into a double quote; it
    only serves to write JSON documents legibly in examples. *)
Fixpoint dquote (s : string) : string :=
  match s with
  | EmptyString => EmptyString
  | String c r => String (if Ascii.eqb c "'"%char then dq else c) (dquote r)
  end.

(** [str(x)] is falsy exactly when empty. *)
Definition str_truthy (s : string) : bool :=
  match s with EmptyString => false | String _ _ => true end.

(** [x or empty] for an optional string. *)
Definition or_empty (o : option string) : string :=
  match o with Some s => s | None => EmptyString end.

(** The characters of a string, one string per character: what extending a
    Python list with a [str] appends. *)
Fixpoint chars (s : string) : list string :=
  match s with
  | EmptyString => []
  | String c r => String c EmptyString :: chars r
  end.

Fixpoint strip_prefix (p s : string) : option string :=
  match p with
  | EmptyString => Some s
  | String a p' =>
      match s with
      | EmptyString => None
      | String b s' => if Ascii.eqb a b then strip_prefix p' s' else None
      end
  end.

(** ** The aside pattern

    The regular expression of the source is, writing Q for the double quote,
    [Qyour_responseQ:\s*Q([^Q]+)Q]. *)

Module Re.

(** [\s] on [str] patterns: Unicode white space, restricted to code points
    below 256. *)
Definition is_space (c : ascii) : bool :=
  let n := nat_of_ascii c in
  (((9 <=? n) && (n <=? 13)) || ((28 <=? n) && (n <=? 32))
   || (n =? 133) || (n =? 160))%nat.

Fixpoint skip_spaces (s : string) : string :=
  match s with
  | String c r => if is_space c then skip_spaces r else s
  | EmptyString => s
  end.

(** Longest run of characters other than the double quote, and what follows. *)
Fixpoint span_not_dq (s : string) : string * string :=
  match s with
  | String c r =>
      if Ascii.eqb c dq then (EmptyString, s)
      else let '(g, t) := span_not_dq r in (String c g, t)
  | EmptyString => (EmptyString, EmptyString)
  end.

Definition key : string := dquote "'your_response':".

(** One match attempt at the head of [s]: the captured group and the text
    after the match.  No step of the pattern can give characters back to a
    later step (white space is never a quote, the group never holds one), so
    the greedy run is the only candidate. *)
Definition match_here (s : string) : option (string * string) :=
  match strip_prefix key s with
  | None => None
  | Some s1 =>
      match skip_spaces s1 with
      | String c s2 =>
          if Ascii.eqb c dq then
            match span_not_dq s2 with
            | (String g0 g, String _ s3) => Some (String g0 g, s3)
            | _ => None
            end
          else None
      | EmptyString => None
      end
  end.

(** [re.findall]: leftmost matches, scanned left to right without overlap.
    [skip] counts the characters of the last match still to be passed. *)
Fixpoint findall_from (skip : nat) (s : string) : list string :=
  match s with
  | EmptyString => []
  | String _ r =>
      match skip with
      | S k => findall_from k r
      | O =>
          match match_here s with
          | Some (g, rest) =>
              g :: findall_from (String.length s - String.length rest - 1) r
          | None => findall_from 0 r
          end
      end
  end.

Definition findall (s : string) : list string := findall_from 0 s.

End Re.

(** ** JSON values, as [json.loads] returns them *)

Set Warnings "-register-all".

Inductive json : Type :=
| JNull
| JBool (b : bool)
| JNumber (lexeme : string)
| JString (s : string)
| JArray (l : list json)
| JObject (items : list (string * json)).

(** A [dict] literal or a decoded object: keys in insertion order, no key
    twice. *)
Definition dict (V : Type) : Type := list (string * V).

Fixpoint dict_get {V : Type} (d : dict V) (k : string) : option V :=
  match d with
  | [] => None
  | (k', v) :: d' => if String.eqb k' k then Some v else dict_get d' k
  end.

Fixpoint dict_set {V : Type} (d : dict V) (k : string) (v : V) : dict V :=
  match d with
  | [] => [(k, v)]
  | (k', v') :: d' =>
      if String.eqb k' k then (k', v) :: d' else (k', v') :: dict_set d' k v
  end.

(** A reference decoder for the concrete scenarios: [json.loads] on
    documents whose characters and escapes stay below code point 256.  The
    turn itself is stated for any decoder. *)
Module Json.

Definition is_ws (c : ascii) : bool :=
  let n := nat_of_ascii c in
  ((n =? 32) || (n =? 9) || (n =? 10) || (n =? 13))%nat.

Fixpoint skip_ws (s : string) : string :=
  match s with
  | String c r => if is_ws c then skip_ws r else s
  | EmptyString => s
  end.

Definition is_digit (c : ascii) : bool :=
  let n := nat_of_ascii c in ((48 <=? n) && (n <=? 57))%nat.

Fixpoint span_digits (s : string) : string * string :=
  match s with
  | String c r =>
      if is_digit c then let '(d, t) := span_digits r in (String c d, t)
      else (EmptyString, s)
  | EmptyString => (EmptyString, EmptyString)
  end.

Definition hex_value (c : ascii) : option nat :=
  let n := nat_of_ascii c in
  if ((48 <=? n) && (n <=? 57))%nat then Some (n - 48)
  else if ((65 <=? n) && (n <=? 70))%nat then Some (n - 55)
  else if ((97 <=? n) && (n <=? 102))%nat then Some (n - 87)
  else None.

(** The body of a string literal after its opening quote. *)
Fixpoint string_body (s : string) : option (string * string) :=
  match s with
  | EmptyString => None
  | String c r =>
      if Ascii.eqb c dq then Some (EmptyString, r)
      else if Ascii.eqb c "\"%char then
        match r with
        | String e r' =>
            let plain (x : ascii) :=
              match string_body r' with
              | Some (t, u) => Some (String x t, u)
              | None => None
              end in
            if Ascii.eqb e dq then plain dq
            else if Ascii.eqb e "\"%char then plain "\"%char
            else if Ascii.eqb e "/"%char then plain "/"%char
            else if Ascii.eqb e "b"%char then plain "008"%char
            else if Ascii.eqb e "f"%char then plain "012"%char
            else if Ascii.eqb e "n"%char then plain "010"%char
            else if Ascii.eqb e "r"%char then plain "013"%char
            else if Ascii.eqb e "t"%char then plain "009"%char
            else if Ascii.eqb e "u"%char then
              match r' with
              | String h1 (String h2 (String h3 (String h4 r''))) =>
                  match hex_value h1, hex_value h2, hex_value h3, hex_value h4,
                        string_body r'' with
                  | Some 0, Some 0, Some a, Some b, Some (t, u) =>
                      Some (String (ascii_of_nat (16 * a + b)) t, u)
                  | _, _, _, _, _ => None
                  end
              | _ => None
              end
            else None
        | EmptyString => None
        end
      else if (nat_of_ascii c <? 32)%nat then None
      else
        match string_body r with
        | Some (t, u) => Some (String c t, u)
        | None => None
        end
  end.

(** A number literal at the head of [s]: its lexeme and the rest. *)
Definition number (s : string) : option (string * string) :=
  let '(sign, s1) :=
    match s with
    | String c r => if Ascii.eqb c "-"%char then ("-", r) else (EmptyString, s)
    | EmptyString => (EmptyString, s)
    end in
  let int_part :=
    match s1 with
    | String c r =>
        if Ascii.eqb c "0"%char then Some ("0", r)
        else if is_digit c then Some (span_digits s1)
        else None
    | EmptyString => None
    end in
  match int_part with
  | None => None
  | Some (i, s2) =>
      let '(frac, s3) :=
        match s2 with
        | String c r =>
            if Ascii.eqb c "."%char then
              match span_digits r with
              | (String d0 d, t) => (String c (String d0 d), t)
              | _ => (EmptyString, s2)
              end
            else (EmptyString, s2)
        | EmptyString => (EmptyString, s2)
        end in
      let '(exp, s4) :=
        match s3 with
        | String c r =>
            if Ascii.eqb c "e"%char || Ascii.eqb c "E"%char then
              let '(sg, r1) :=
                match r with
                | String x r' =>
                    if Ascii.eqb x "-"%char || Ascii.eqb x "+"%char
                    then (String x EmptyString, r') else (EmptyString, r)
                | EmptyString => (EmptyString, r)
                end in
              match span_digits r1 with
              | (String d0 d, t) => (String c (sg ++ String d0 d)%string, t)
              | _ => (EmptyString, s3)
              end
            else (EmptyString, s3)
        | EmptyString => (EmptyString, s3)
        end in
      Some ((sign ++ i ++ frac ++ exp)%string, s4)
  end.

Definition literal (s : string) : option (json * string) :=
  match strip_prefix "null" s with
  | Some r => Some (JNull, r)
  | None =>
  match strip_prefix "true" s with
  | Some r => Some (JBool true, r)
  | None =>
  match strip_prefix "false" s with
  | Some r => Some (JBool false, r)
  | None =>
  match strip_prefix "NaN" s with
  | Some r => Some (JNumber "NaN", r)
  | None =>
  match strip_prefix "Infinity" s with
  | Some r => Some (JNumber "Infinity", r)
  | None =>
  match strip_prefix "-Infinity" s with
  | Some r => Some (JNumber "-Infinity", r)
  | None =>
  match number s with
  | Some (n, r) => Some (JNumber n, r)
  | None => None
  end end end end end end end.

(** A value at the head of [s] (no leading white space), and the members of
    an object or the elements of an array after the first one. *)
Fixpoint value (fuel : nat) (s : string) : option (json * string) :=
  match fuel with
  | O => None
  | S f =>
      match s with
      | EmptyString => None
      | String c r =>
          if Ascii.eqb c dq then
            match string_body r with
            | Some (t, u) => Some (JString t, u)
            | None => None
            end
          else if Ascii.eqb c "{"%char then
            match skip_ws r with
            | String c' r' =>
                if Ascii.eqb c' "}"%char then Some (JObject [], r')
                else members f (skip_ws r) []
            | EmptyString => None
            end
          else if Ascii.eqb c "["%char then
            match skip_ws r with
            | String c' r' =>
                if Ascii.eqb c' "]"%char then Some (JArray [], r')
                else elements f (skip_ws r) []
            | EmptyString => None
            end
          else literal s
      end
  end
with members (fuel : nat) (s : string) (acc : dict json)
  : option (json * string) :=
  match fuel with
  | O => None
  | S f =>
      match s with
      | String c r =>
          if Ascii.eqb c dq then
            match string_body r with
            | Some (k, u) =>
                match skip_ws u with
                | String c1 u1 =>
                    if Ascii.eqb c1 ":"%char then
                      match value f (skip_ws u1) with
                      | Some (v, u2) =>
                          let acc' := dict_set acc k v in
                          match skip_ws u2 with
                          | String c2 u3 =>
                              if Ascii.eqb c2 ","%char
                              then members f (skip_ws u3) acc'
                              else if Ascii.eqb c2 "}"%char
                              then Some (JObject acc', u3)
                              else None
                          | EmptyString => None
                          end
                      | None => None
                      end
                    else None
                | EmptyString => None
                end
            | None => None
            end
          else None
      | EmptyString => None
      end
  end
with elements (fuel : nat) (s : string) (acc : list json)
  : option (json * string) :=
  match fuel with
  | O => None
  | S f =>
      match value f s with
      | Some (v, u) =>
          match skip_ws u with
          | String c u1 =>
              if Ascii.eqb c ","%char
              then elements f (skip_ws u1) (acc ++ [v])
              else if Ascii.eqb c "]"%char
              then Some (JArray (acc ++ [v]), u1)
              else None
          | EmptyString => None
          end
      | None => None
      end
  end.

(** [json.loads]: one value between optional white space, nothing after. *)
Definition loads (s : string) : option json :=
  match value (S (String.length s)) (skip_ws s) with
  | Some (v, r) =>
      match skip_ws r with
      | EmptyString => Some v
      | String _ _ => None
      end
  | None => None
  end.

End Json.

(** ** Exceptions *)

(** The body of an [openai.BadRequestError] when it is a mapping: the code
    reads its keys [code] and [message]. *)
Record ErrorBody : Type := {
  body_code : option string;
  body_message : option string
}.

(** [e.body]: the decoded error object when the service answered with one,
    else the raw text of the answer, [None], or a JSON value of another
    kind, none of which has a [get] method. *)
Inductive Body : Type :=
| Mapping (m : ErrorBody)
| NotMapping.

Coercion Mapping : ErrorBody >-> Body.

Inductive exn : Type :=
| BadRequestError (status_code : Z) (body : Body)
| PyError (cls : string).

(** ** The generator monad *)

(** The answer carried by an event: the local [response] is a [str], or the
    list returned by [re.findall] once the aside pattern has matched. *)
Inductive Response : Type :=
| RStr (s : string)
| RList (l : list string).

Record Event : Type := {
  coach_id : string;
  answer : Response;
  user_id : string;
  status : string;
  message_id : option string;
  is_final : bool;
  session_id : option string;
  correlation_id : option string
}.

Definition Args : Type := dict json.

Inductive Action : Type :=
| Yield (e : Event)
| PreparePrompt
| ChatCreate
| StoreRedis (role : string) (content : Response)
| SaveChatMessage (message : Response)
| CreateTask (func : string) (arguments : Args)
| AwaitTool (func : string) (arguments : Args)
| StoreFunctionMessage (name : string) (content : string).

(** How a run stops: it returns, it raises, or it stays suspended on an
    external call that the environment does not answer. *)
Inductive Stop (A : Type) : Type :=
| Returned (a : A)
| Raised (e : exn)
| Suspended.
Arguments Returned {A} a.
Arguments Raised {A} e.
Arguments Suspended {A}.

Definition Gen (A : Type) : Type := list Action * Stop A.

Definition ret {A : Type} (a : A) : Gen A := ([], Returned a).
Definition raise {A : Type} (e : exn) : Gen A := ([], Raised e).
Definition suspended {A : Type} : Gen A := ([], Suspended).
Definition tell (a : Action) : Gen unit := ([a], Returned tt).

Definition bind {A B : Type} (m : Gen A) (f : A -> Gen B) : Gen B :=
  match m with
  | (tr, Returned a) => let '(tr', r) := f a in (tr ++ tr', r)
  | (tr, Raised e) => (tr, Raised e)
  | (tr, Suspended) => (tr, Suspended)
  end.

(** [try: m  except ... as e: h e].  An exception raised by the handler
    itself leaves the statement. *)
Definition try_except {A : Type} (m : Gen A) (h : exn -> Gen A) : Gen A :=
  match m with
  | (tr, Raised e) => let '(tr', r) := h e in (tr ++ tr', r)
  | _ => m
  end.

Declare Scope gen_scope.
Delimit Scope gen_scope with gen.
Notation "x <- m ;; k" := (bind m (fun x => k))
  (at level 61, m at next level, right associativity) : gen_scope.
Notation "m ;;; k" := (bind m (fun _ => k))
  (at level 61, right associativity) : gen_scope.
Local Open Scope gen_scope.

(** An external call whose only result is that it may raise. *)
Definition call (a : Action) (outcome : option exn) : Gen unit :=
  tell a ;;; match outcome with Some e => raise e | None => ret tt end.

(** An external call that returns a value or raises. *)
Definition call_value {A : Type} (a : Action) (outcome : A + exn) : Gen A :=
  tell a ;;; match outcome with inl v => ret v | inr e => raise e end.

Definition trace {A : Type} (m : Gen A) : list Action := fst m.
Definition stop {A : Type} (m : Gen A) : Stop A := snd m.

(** The events a run yields, in order. *)
Fixpoint events_of (tr : list Action) : list Event :=
  match tr with
  | [] => []
  | Yield e :: tr' => e :: events_of tr'
  | _ :: tr' => events_of tr'
  end.

Definition events {A : Type} (m : Gen A) : list Event := events_of (trace m).

(** ** The tool registry ([Tools.__init__]) *)

Record ToolEntry : Type := {
  function : string;
  is_sync : bool
}.

(** [Tools.functions]; a handler is named by the method it is bound to. *)
Definition functions : dict ToolEntry :=
  [ ("Action_items", {| function := "action_items"; is_sync := true |});
    ("Find_content", {| function := "find_content"; is_sync := true |});
    ("Role_To_Skill", {| function := "role_to_skill"; is_sync := true |});
    ("Prepare_Plan", {| function := "prepare_plan"; is_sync := false |}) ].

(** The parameters of a handler after [self]: those without a default value
    and those with one.  No handler takes [**kwargs]. *)
Record Signature : Type := {
  required : list string;
  defaulted : list string
}.

(** The signatures of the registered handlers ([llm_tools.py]). *)
Definition parameters (handler : string) : Signature :=
  if String.eqb handler "action_items" then
    {| required := ["Activity"];
       defaulted := ["session_id"; "correlation_id"; "callback"] |}
  else if String.eqb handler "find_content" then
    {| required := ["search_word"];
       defaulted := ["mode"; "duration"; "boost_popular"; "boost_recent";
                     "session_id"; "correlation_id"; "callback"] |}
  else if String.eqb handler "role_to_skill" then
    {| required := ["role_name"];
       defaulted := ["session_id"; "correlation_id"; "callback"] |}
  else if String.eqb handler "prepare_plan" then
    {| required := ["plan_title"; "plan_description"; "plan_duration";
                    "skills_to_learn"; "skills_to_upgrade"];
       defaulted := ["session_id"; "correlation_id"; "callback"; "websocket"] |}
  else {| required := []; defaulted := [] |}.

Definition among (k : string) (ks : list string) : bool :=
  existsb (String.eqb k) ks.

(** Whether the call [function(session_id=..., correlation_id=...,
    **arguments)] binds: no key of [arguments] repeats one of the two
    keywords written out, every key names a parameter, and every parameter
    without a default is given.  Python raises [TypeError] otherwise, when
    the call is evaluated and before the handler runs. *)
Definition binds (sg : Signature) (arguments : Args) : bool :=
  let given := map fst arguments in
  negb (among "session_id" given) && negb (among "correlation_id" given)
  && forallb (fun k => among k (required sg ++ defaulted sg)) given
  && forallb (fun k => among k given) (required sg).

(** ** Stream fragments *)

(** [delta.tool_calls[0]]: [id], [function.name], [function.arguments]. *)
Record ToolCallDelta : Type := {
  tc_id : option string;
  tc_name : option string;
  tc_arguments : option string
}.

(** [choices[0].delta]; an absent or empty [tool_calls] is the empty list. *)
Record Delta : Type := {
  tool_calls : list ToolCallDelta;
  content : option string
}.

Inductive Chunk : Type :=
| NoChoices
| Choice (delta : option Delta).

(** ** One turn of [LlmClient] *)

Record LlmClient : Type := {
  self_coach_id : string;
  self_user_id : string;
  self_call_id : string;
  self_conversation_id : string
}.

(** The outcomes of the external calls of one generation pass, in the order
    the code issues them.  [llm_text_begin_message] reads all fields but
    [store_user], [tool] and [store_function]. *)
Record Pass : Type := {
  store_user : option exn;        (* _store_response_in_redis(type=user) *)
  prepare_prompt : option exn;    (* preprocessor.prepare_prompt *)
  prompt_tokens : option exn;     (* num_tokens_from_messages(prompt) *)
  create : option exn;            (* chat.completions.create *)
  chunks : list Chunk;            (* what the stream delivers *)
  stream_end : option exn;        (* raised by the stream once drained *)
  store_assistant : option exn;   (* _store_response_in_redis(type=assistant) *)
  save_chat : string + exn;       (* save_chat_message -> message id *)
  response_tokens : option exn;   (* num_tokens_from_string(response) *)
  tool : (string * bool) + exn;   (* await function(...) -> (content, callback),
                                     or what the call or the handler raises *)
  store_function : option exn     (* redis_manager.store_chat(function message) *)
}.

Record FuncCall : Type := {
  id : string;
  func_name : string
}.

(** The locals the streaming loop of [llm_text_response] updates; an empty
    [func_call] dict is [None]. *)
Record Locals : Type := {
  func_call : option FuncCall;
  func_arguments : string;
  response : Response
}.

(** [func_call = {}], [func_arguments] and [response] empty. *)
Definition initial_locals : Locals :=
  {| func_call := None;
     func_arguments := EmptyString;
     response := RStr EmptyString |}.

(** The same outcomes with another model stream. *)
Definition with_stream (p : Pass) (cs : list Chunk) (se : option exn) : Pass :=
  {| store_user := store_user p;
     prepare_prompt := prepare_prompt p;
     prompt_tokens := prompt_tokens p;
     create := create p;
     chunks := cs;
     stream_end := se;
     store_assistant := store_assistant p;
     save_chat := save_chat p;
     response_tokens := response_tokens p;
     tool := tool p;
     store_function := store_function p |}.

Definition response_truthy (r : Response) : bool :=
  match r with
  | RStr s => str_truthy s
  | RList [] => false
  | RList (_ :: _) => true
  end.

(** [response += content]: string concatenation, or in-place extension of
    the list with the characters of [content]. *)
Definition response_add (r : Response) (c : string) : Response :=
  match r with
  | RStr s => RStr (s ++ c)
  | RList l => RList (l ++ chars c)
  end.

(** [response if isinstance(response, str) else response[0]], evaluated on a
    truthy [response]. *)
Definition response_text (r : Response) : Response :=
  match r with
  | RStr s => RStr s
  | RList (m :: _) => RStr m
  | RList [] => r
  end.

(** The answer of the content-filter clause of [llm_text_response]:
    [e.body.get(message)] when the body has the key, else a fixed text. *)
Definition filtered_apology : string :=
  "I'm sorry, your query hab been filtered by azure content policy. Please try again.".

Definition rejection_answer (body : ErrorBody) : Response :=
  RStr match body_message body with
       | Some m => m
       | None => filtered_apology
       end.

Section Turn.

Variable self : LlmClient.

(** [json.loads] of the standard library. *)
Variable json_loads : string -> option json.

Definition _create_yield_response
    (response : Response) (status : string) (message_id : option string)
  : Event :=
  {| coach_id := self_coach_id self;
     answer := response;
     user_id := self_user_id self;
     status := status;
     message_id := message_id;
     is_final := if String.eqb status "done" then true else false;
     session_id := None;
     correlation_id := None |}.

Definition yield (e : Event) : Gen unit := tell (Yield e).

(** A call whose result is only interpolated into a log line. *)
Definition logged (outcome : option exn) : Gen unit :=
  match outcome with Some e => raise e | None => ret tt end.

(** What one chunk does to the tool-call locals: [None] is [break]. *)
Definition tool_step (d : Delta) (st : Locals) : option Locals :=
  match tool_calls d with
  | [] => Some st
  | tc :: _ =>
      if str_truthy (or_empty (tc_id tc)) then
        match func_call st with
        | Some _ => None
        | None =>
            Some {| func_call := Some {| id := or_empty (tc_id tc);
                                         func_name := or_empty (tc_name tc) |};
                    func_arguments := func_arguments st;
                    response := response st |}
        end
      else
        let func_arguments' :=
          (func_arguments st ++ or_empty (tc_arguments tc))%string in
        let matches := Re.findall func_arguments' in
        Some {| func_call := func_call st;
                func_arguments := func_arguments';
                response := match matches with
                            | [] => response st
                            | _ :: _ => RList matches
                            end |}
  end.

(** The text part of one chunk. *)
Definition content_step (d : Delta) (st : Locals) : Gen Locals :=
  match content d with
  | None => ret st
  | Some c =>
      let st' := {| func_call := func_call st;
                    func_arguments := func_arguments st;
                    response := response_add (response st) c |} in
      yield (_create_yield_response (response st') "in-progress" None) ;;;
      ret st'
  end.

(** [async for chunk in stream: ...] of [llm_text_response]. *)
Fixpoint stream_loop (stream : list Chunk) (stream_end : option exn)
    (st : Locals) : Gen Locals :=
  match stream with
  | [] => match stream_end with Some e => raise e | None => ret st end
  | NoChoices :: rest => stream_loop rest stream_end st
  | Choice None :: rest => stream_loop rest stream_end st
  | Choice (Some d) :: rest =>
      match tool_step d st with
      | None => ret st
      | Some st1 =>
          st2 <- content_step d st1 ;;
          stream_loop rest stream_end st2
      end
  end.

(** [{k: v for k, v in json.loads(func_arguments).items()
      if k != your_response}]. *)
Definition tool_arguments (func_arguments : string) : Gen Args :=
  match json_loads func_arguments with
  | None => raise (PyError "JSONDecodeError")
  | Some (JObject items) =>
      ret (filter (fun kv => negb (String.eqb (fst kv) "your_response")) items)
  | Some _ => raise (PyError "AttributeError")
  end.

(** [_handle_function_call].  [continuation] is the nested
    [self.llm_text_response(user_query=None, ...)] of the callback branch.
    In the fire-and-forget branch the call of the handler is evaluated to
    its coroutine before [asyncio.create_task] receives it, which is when
    keywords that do not bind raise. *)
Definition _handle_function_call (p : Pass) (continuation : Gen unit)
    (fc : FuncCall) (func_arguments : string)
    (session_id correlation_id : string) (async_tools : bool)
    (response : Response) : Gen unit :=
  try_except
    (match dict_get functions (func_name fc) with
     | None => raise (PyError "AttributeError")
     | Some entry =>
         if str_truthy (function entry) then
           arguments <- tool_arguments func_arguments ;;
           if async_tools || negb (is_sync entry) then
             (if binds (parameters (function entry)) arguments then ret tt
              else raise (PyError "TypeError")) ;;;
             tell (CreateTask (function entry) arguments) ;;;
             yield (_create_yield_response response "done" None)
           else
             r <- call_value (AwaitTool (function entry) arguments) (tool p) ;;
             let '(tool_response, callback) := r in
             call (StoreFunctionMessage (func_name fc) tool_response)
                  (store_function p) ;;;
             if (callback : bool) then continuation
             else yield (_create_yield_response response "done" None)
         else ret tt
     end)
    (fun e => raise e).

Definition content_filter (status_code : Z) (body : ErrorBody) : bool :=
  (status_code =? 400)%Z &&
  match body_code body with
  | Some c => String.eqb c "content_filter"
  | None => false
  end.

(** The two [except] clauses of [llm_text_response].  The first reads
    [e.body.get] once the status is 400; on a body without that method the
    read raises inside the clause, where no other clause catches it. *)
Definition text_response_handler (e : exn) : Gen unit :=
  match e with
  | BadRequestError status_code (Mapping body) =>
      if content_filter status_code body then
        yield (_create_yield_response (rejection_answer body) "done" None)
      else ret tt
  | BadRequestError status_code NotMapping =>
      if (status_code =? 400)%Z then raise (PyError "AttributeError")
      else ret tt
  | PyError _ =>
      yield (_create_yield_response (RStr "Error Occurred") "done" None)
  end.

(** The [try] block of [llm_text_response]; [continuation] stands for the
    nested call that [_handle_function_call] makes on a callback. *)
Definition text_response_body (p : Pass) (continuation : Gen unit)
    (user_query : option string) (session_id correlation_id : string)
    (async_tools : bool) : Gen unit :=
  (if str_truthy (or_empty user_query)
   then call (StoreRedis "user" (RStr (or_empty user_query))) (store_user p)
   else ret tt) ;;;
  call PreparePrompt (prepare_prompt p) ;;;
  logged (prompt_tokens p) ;;;
  call ChatCreate (create p) ;;;
  st <- stream_loop (chunks p) (stream_end p) initial_locals ;;
  response <- (if response_truthy (response st)
               then let r := response_text (response st) in
                    call (StoreRedis "assistant" r) (store_assistant p) ;;;
                    ret r
               else ret (response st)) ;;
  match func_call st with
  | Some fc =>
      _handle_function_call p continuation fc (func_arguments st)
        session_id correlation_id async_tools response
  | None =>
      message_id <- call_value (SaveChatMessage response) (save_chat p) ;;
      yield (_create_yield_response response "done" (Some message_id)) ;;;
      logged (response_tokens p)
  end.

(** [llm_text_response].  Each generation pass takes its outcomes from the
    head of [passes]; with none left the generator stays suspended.  The
    nested call passes no [async_tools], which defaults to [False]. *)
Fixpoint llm_text_response (passes : list Pass) (user_query : option string)
    (session_id correlation_id : string) (async_tools : bool) : Gen unit :=
  match passes with
  | [] => suspended
  | p :: rest =>
      try_except
        (text_response_body p
           (llm_text_response rest None session_id correlation_id false)
           user_query session_id correlation_id async_tools)
        text_response_handler
  end.

(** *** The begin message *)

(** Reading a local that no assignment has bound yet. *)
Definition read_local {A : Type} (v : option A) : Gen A :=
  match v with
  | Some a => ret a
  | None => raise (PyError "UnboundLocalError")
  end.

(** [try: m  except ...: h e] followed by [k] on the value of [m], where [k]
    carries its own guard. *)
Definition try_then {A : Type} (m : Gen A) (h : exn -> Gen unit)
    (k : A -> Gen unit) : Gen unit :=
  match m with
  | (tr, Returned a) => let '(tr', r) := k a in (tr ++ tr', r)
  | (tr, Raised e) => let '(tr', r) := h e in (tr ++ tr', r)
  | (tr, Suspended) => (tr, Suspended)
  end.

(** [async for chunk in stream: ...] of [llm_text_begin_message], which
    indexes [choices[0].delta.content] without a guard. *)
Fixpoint begin_stream_loop (stream : list Chunk) (stream_end : option exn)
    (response : string) : Gen string :=
  match stream with
  | [] => match stream_end with Some e => raise e | None => ret response end
  | NoChoices :: _ => raise (PyError "IndexError")
  | Choice None :: _ => raise (PyError "AttributeError")
  | Choice (Some d) :: rest =>
      match content d with
      | None => begin_stream_loop rest stream_end response
      | Some c =>
          let response' := (response ++ c)%string in
          yield (_create_yield_response (RStr response') "in-progress" None) ;;;
          begin_stream_loop rest stream_end response'
      end
  end.

(** The two [except] clauses of [llm_text_begin_message]; both pass the
    locals [message_id] and [end_time_stamp] to [_create_yield_response]. *)
Definition begin_message_handler
    (message_id : option string) (end_time_stamp : option unit) (e : exn)
  : Gen unit :=
  match e with
  | BadRequestError status_code (Mapping body) =>
      if content_filter status_code body then
        m <- read_local message_id ;;
        _ <- read_local end_time_stamp ;;
        yield (_create_yield_response
                 (RStr "I'm sorry, your query contains inappropriate content. Please try again.")
                 "done" (Some m))
      else ret tt
  | BadRequestError status_code NotMapping =>
      if (status_code =? 400)%Z then raise (PyError "AttributeError")
      else ret tt
  | PyError _ =>
      m <- read_local message_id ;;
      _ <- read_local end_time_stamp ;;
      yield (_create_yield_response (RStr "Error Occurred") "done" (Some m))
  end.

(** [llm_text_begin_message].  [message_id] and [end_time_stamp] are bound
    by the two assignments that follow the stream loop; the [try] block is
    written in two halves, each guarded by the handlers with the locals
    bound so far. *)
Definition llm_text_begin_message (p : Pass) : Gen unit :=
  try_then
    (call PreparePrompt (prepare_prompt p) ;;;
     logged (prompt_tokens p) ;;;
     call ChatCreate (create p) ;;;
     response <- begin_stream_loop (chunks p) (stream_end p) EmptyString ;;
     message_id <- call_value (SaveChatMessage (RStr response)) (save_chat p) ;;
     ret (response, message_id))
    (begin_message_handler None None)
    (fun '(response, message_id) =>
       try_except
         (yield (_create_yield_response (RStr response) "done"
                   (Some message_id)) ;;;
          logged (response_tokens p) ;;;
          call (StoreRedis "assistant" (RStr response)) (store_assistant p))
         (begin_message_handler (Some message_id) (Some tt))).

End Turn.

(** ** The delivery channel ([app/api/sse.py]) *)

Inductive QueueItem : Type :=
| PingPong
| Message (e : Event).

(** [message[session_id] = ...; message[correlation_id] = ...]. *)
Definition stamp (session_id correlationId : string) (e : Event) : Event :=
  {| coach_id := coach_id e;
     answer := answer e;
     user_id := user_id e;
     status := status e;
     message_id := message_id e;
     is_final := is_final e;
     session_id := Some session_id;
     correlation_id := Some correlationId |}.

(** What a producer loop puts on the queue for the events of one generator:
    the event is serialised when it is yielded, before the generator runs on. *)
Definition put_all {A : Type} (session_id correlationId : string)
    (m : Gen A) : list QueueItem :=
  map (fun e => Message (stamp session_id correlationId e)) (events m).

(** [_enqueue_begin_messages]. *)
Definition _enqueue_begin_messages (message_generator : Gen unit)
    (session_id correlationId : string) : list QueueItem :=
  put_all session_id correlationId message_generator.

(** One round of the [while True] loop of [_enqueue_chat_messages]: the
    answer of [request.is_disconnected()] and the generation passes the
    round may use. *)
Record Round : Type := {
  is_disconnected : bool;
  passes : list Pass
}.

(** [_enqueue_chat_messages].  The loop runs until a poll reports the
    disconnect; a generator that raises or stays suspended ends the task. *)
Fixpoint _enqueue_chat_messages (self : LlmClient)
    (json_loads : string -> option json) (rounds : list Round)
    (prompt : option string) (correlationId session_id : string)
  : list QueueItem :=
  match rounds with
  | [] => []
  | r :: rest =>
      if is_disconnected r then []
      else if str_truthy (or_empty prompt) then
        let m := llm_text_response self json_loads (passes r) prompt
                   session_id correlationId false in
        put_all session_id correlationId m ++
        match stop m with
        | Returned _ =>
            _enqueue_chat_messages self json_loads rest prompt correlationId
              session_id
        | _ => []
        end
      else
        _enqueue_chat_messages self json_loads rest prompt correlationId
          session_id
  end.

(** The consumer loop of [event_generator]: what it forwards to the client
    from the items the queue delivers, in order. *)
Fixpoint event_generator (queue : list QueueItem) : list QueueItem :=
  match queue with
  | [] => []
  | PingPong :: rest => PingPong :: event_generator rest
  | Message e :: rest =>
      Message e :: (if is_final e then [] else event_generator rest)
  end.

Definition final_item (q : QueueItem) : bool :=
  match q with
  | PingPong => false
  | Message e => is_final e
  end.

Definition count_final (es : list Event) : nat :=
  List.length (filter is_final es).

(** ** The keepalive task ([send_ping_pong_messages]) *)

Module Keepalive.

(** Seconds slept between two looks at the stop event. *)
Definition interval : nat := 5.

(** The task on a logical clock counting seconds: [is_set t] is the state
    of [stop_event] at time [t], [now] the current time.  The result lists
    the times at which a heartbeat is put on the queue and, when the loop
    ends within [fuel] rounds, the time at which it ends. *)
Fixpoint send_ping_pong_messages (fuel : nat) (is_set : nat -> bool)
    (now : nat) : list nat * option nat :=
  match fuel with
  | O => ([], None)
  | S k =>
      if is_set now then ([], Some now)
      else
        let now' := now + interval in
        let '(pings, ended) := send_ping_pong_messages k is_set now' in
        if is_set now' then (pings, ended) else (now' :: pings, ended)
  end.

End Keepalive.

(** ** Fragments of a stream *)

(** A tool-call-start fragment: the first tool call of the chunk carries a
    non-empty id. *)
Definition tool_call_start (c : Chunk) : option ToolCallDelta :=
  match c with
  | Choice (Some d) =>
      match tool_calls d with
      | tc :: _ => if str_truthy (or_empty (tc_id tc)) then Some tc else None
      | [] => None
      end
  | _ => None
  end.

Definition no_start (c : Chunk) : bool :=
  match tool_call_start c with Some _ => false | None => true end.

(** An argument-delta fragment: no id, a piece of the argument text. *)
Definition argument_delta (piece : string) : Chunk :=
  Choice (Some {| tool_calls := [ {| tc_id := None;
                                     tc_name := None;
                                     tc_arguments := Some piece |} ];
                  content := None |}).

Fixpoint join (parts : list string) : string :=
  match parts with
  | [] => EmptyString
  | p :: ps => (p ++ join ps)%string
  end.

(** ** Example data *)

Definition demo_self : LlmClient :=
  {| self_coach_id := "coach-7";
     self_user_id := "user-42";
     self_call_id := "sid-1";
     self_conversation_id := "conv-1" |}.

(** A text delta. *)
Definition text_delta (c : string) : Chunk :=
  Choice (Some {| tool_calls := []; content := Some c |}).

(** A tool-call-start fragment. *)
Definition tool_start (call_id name : string) : Chunk :=
  Choice (Some {| tool_calls := [ {| tc_id := Some call_id;
                                     tc_name := Some name;
                                     tc_arguments := Some EmptyString |} ];
                  content := None |}).

(** A pass in which every external call succeeds. *)
Definition quiet_pass (cs : list Chunk) (result : string * bool) : Pass :=
  {| store_user := None;
     prepare_prompt := None;
     prompt_tokens := None;
     create := None;
     chunks := cs;
     stream_end := None;
     store_assistant := None;
     save_chat := inl "msg-1";
     response_tokens := None;
     tool := inl result;
     store_function := None |}.

(** Scenario B of the specification: the arguments of [Find_content] in
    three pieces. *)
Definition find_content_pieces : list string :=
  [ dquote "{'search_word':'ex";
    dquote "cel','your_response':'Sure, ";
    dquote "let me look'}" ].

(** A stream with two tool-call starts. *)
Definition two_starts_pre : list Chunk := [ text_delta "Sure. " ].
Definition two_starts_first : Chunk := tool_start "call_1" "Find_content".
Definition two_starts_mid : list Chunk := map argument_delta find_content_pieces.
Definition two_starts_second : Chunk := tool_start "call_2" "Prepare_Plan".
Definition two_starts_post : list Chunk := [ argument_delta "{}" ].

Definition two_starts_pass : Pass :=
  quiet_pass
    (two_starts_pre ++ two_starts_first :: two_starts_mid
       ++ two_starts_second :: two_starts_post)
    ("Title: Excel basics", false).

Definition start_delta (call_id name : string) : ToolCallDelta :=
  {| tc_id := Some call_id;
     tc_name := Some name;
     tc_arguments := Some EmptyString |}.

(** ** Observations on a run *)



Definition is_await_tool (a : Action) : bool :=
  match a with AwaitTool _ _ => true | _ => false end.

Definition is_create_task (a : Action) : bool :=
  match a with CreateTask _ _ => true | _ => false end.

(** The local [response] once the statement after the loop has replaced a
    list by its first element. *)
Definition final_response (st : Locals) : Response :=
  if response_truthy (response st) then response_text (response st)
  else response st.

(** The calls a pass issues before the loop and between the loop and the
    dispatch, when they succeed. *)
Definition prologue (user_query : option string) : list Action :=
  (if str_truthy (or_empty user_query)
   then [StoreRedis "user" (RStr (or_empty user_query))] else [])
  ++ [PreparePrompt; ChatCreate].

Definition epilogue (st : Locals) : list Action :=
  if response_truthy (response st)
  then [StoreRedis "assistant" (final_response st)] else [].

(** The pass reaches the end of its streaming loop with locals [st], every
    call on the way having succeeded. *)
Definition streams_to (self : LlmClient) (p : Pass)
    (user_query : option string) (st : Locals) : Prop :=
  (str_truthy (or_empty user_query) = true -> store_user p = None) /\
  prepare_prompt p = None /\
  prompt_tokens p = None /\
  create p = None /\
  stop (stream_loop self (chunks p) (stream_end p) initial_locals)
  = Returned st /\
  (response_truthy (response st) = true -> store_assistant p = None).

(** What follows the loop in [llm_text_response]. *)
Definition after_stream (self : LlmClient) (json_loads : string -> option json)
    (p : Pass) (continuation : Gen unit) (st : Locals)
    (session_id correlation_id : string) (async_tools : bool) : Gen unit :=
  match func_call st with
  | Some fc =>
      _handle_function_call self json_loads p continuation fc
        (func_arguments st) session_id correlation_id async_tools
        (final_response st)
  | None =>
      bind (call_value (SaveChatMessage (final_response st)) (save_chat p))
        (fun message_id =>
           bind (yield (_create_yield_response self (final_response st)
                          "done" (Some message_id)))
             (fun _ => logged (response_tokens p)))
  end.

(** What the client reads of a queue item: the answer and the final flag. *)
Definition summary (q : QueueItem) : option (Response * bool) :=
  match q with
  | PingPong => None
  | Message e => Some (answer e, is_final e)
  end.

Definition event_summary (e : Event) : Response * bool :=
  (answer e, is_final e).

(** ** Failure scenarios *)

(** The rejection raised by the content filter of the model service. *)
Definition content_filter_error (message : option string) : exn :=
  BadRequestError 400 {| body_code := Some "content_filter";
                         body_message := message |}.

(** The same outcomes with another answer of [chat.completions.create]. *)
Definition with_create (p : Pass) (outcome : option exn) : Pass :=
  {| store_user := store_user p;
     prepare_prompt := prepare_prompt p;
     prompt_tokens := prompt_tokens p;
     create := outcome;
     chunks := chunks p;
     stream_end := stream_end p;
     store_assistant := store_assistant p;
     save_chat := save_chat p;
     response_tokens := response_tokens p;
     tool := tool p;
     store_function := store_function p |}.

(** The same outcomes with another answer of the token counter that runs
    after the final event. *)
Definition with_response_tokens (p : Pass) (outcome : option exn) : Pass :=
  {| store_user := store_user p;
     prepare_prompt := prepare_prompt p;
     prompt_tokens := prompt_tokens p;
     create := create p;
     chunks := chunks p;
     stream_end := stream_end p;
     store_assistant := store_assistant p;
     save_chat := save_chat p;
     response_tokens := outcome;
     tool := tool p;
     store_function := store_function p |}.

(** A begin message whose prompt the content filter rejects. *)
Definition rejected_begin_pass : Pass :=
  with_create (quiet_pass [] (EmptyString, false))
    (Some (content_filter_error (Some "The prompt was filtered."))).

(** A begin message whose stream breaks after one text delta. *)
Definition broken_begin_pass : Pass :=
  with_stream (quiet_pass [] (EmptyString, false))
    [ text_delta "Good morning" ] (Some (PyError "APIConnectionError")).

(** A text turn whose answer the token counter refuses: [tiktoken] raises
    [ValueError] on the text of a special token. *)
Definition special_token_pass : Pass :=
  with_response_tokens
    (quiet_pass [ text_delta "<|endoftext|>" ] (EmptyString, false))
    (Some (PyError "ValueError")).

(** A turn in which the model calls a tool that the registry lacks. *)
Definition unknown_tool_pass : Pass :=
  quiet_pass
    [ text_delta "Let me check.";
      tool_start "call_1" "Send_Email";
      argument_delta "{}" ]
    (EmptyString, false).

(** The decoded arguments without the aside. *)
Definition without_aside (items : dict json) : Args :=
  filter (fun kv => negb (String.eqb (fst kv) "your_response")) items.

(** What the loop maintains between the argument buffer and [response]:
    once the aside pattern matches the buffer, [response] is a list headed
    by the first match. *)
Definition aside_held (st : Locals) : Prop :=
  match Re.findall (func_arguments st) with
  | [] => True
  | m :: _ => exists l, response st = RList (m :: l)
  end.

Definition in_progress (e : Event) : bool := negb (is_final e).

(** ** Tool scenarios *)

(** Scenario D of the specification: [Prepare_Plan] runs fire-and-forget.
    Here the model gives two of the five parameters that have no default. *)
Definition plan_pieces : list string :=
  [ dquote "{'plan_title':'Excel in 30 days','plan_duration':30,";
    dquote "'your_response':'On it, building your plan.'}" ].

Definition plan_pass : Pass :=
  quiet_pass (tool_start "call_1" "Prepare_Plan" :: map argument_delta plan_pieces)
    ("Personlaized Plan was created for you", false).

Definition plan_locals : Locals :=
  {| func_call := Some {| id := "call_1"; func_name := "Prepare_Plan" |};
     func_arguments := join plan_pieces;
     response := RList ["On it, building your plan."] |}.

(** The same call with every parameter of [prepare_plan] that has no
    default. *)
Definition full_plan_pieces : list string :=
  [ dquote "{'plan_title':'Excel in 30 days','plan_description':'Daily practice',";
    dquote "'plan_duration':'30 days','skills_to_learn':['Excel'],";
    dquote "'skills_to_upgrade':[],'your_response':'On it, building your plan.'}" ].

Definition full_plan_items : dict json :=
  [ ("plan_title", JString "Excel in 30 days");
    ("plan_description", JString "Daily practice");
    ("plan_duration", JString "30 days");
    ("skills_to_learn", JArray [JString "Excel"]);
    ("skills_to_upgrade", JArray []);
    ("your_response", JString "On it, building your plan.") ].

Definition full_plan_pass : Pass :=
  quiet_pass
    (tool_start "call_1" "Prepare_Plan" :: map argument_delta full_plan_pieces)
    ("Personlaized Plan was created for you", false).

Definition full_plan_locals : Locals :=
  {| func_call := Some {| id := "call_1"; func_name := "Prepare_Plan" |};
     func_arguments := join full_plan_pieces;
     response := RList ["On it, building your plan."] |}.

(** The same call again, the model having put a space before the colon
    that follows the key of the aside. *)
Definition spaced_plan_pieces : list string :=
  [ dquote "{'plan_title':'Excel in 30 days','plan_description':'Daily practice',";
    dquote "'plan_duration':'30 days','skills_to_learn':['Excel'],";
    dquote "'skills_to_upgrade':[],'your_response' : 'On it, building your plan.'}" ].

Definition spaced_plan_pass : Pass :=
  quiet_pass
    (tool_start "call_1" "Prepare_Plan" :: map argument_delta spaced_plan_pieces)
    ("Personlaized Plan was created for you", false).

(** Scenario B of the specification: [Find_content] runs synchronously and
    returns its content with the callback flag off. *)
Definition scenario_b_pass : Pass :=
  quiet_pass
    (tool_start "call_1" "Find_content" :: map argument_delta find_content_pieces)
    ("Title: Excel basics", false).

Definition scenario_b_locals : Locals :=
  {| func_call := Some {| id := "call_1"; func_name := "Find_content" |};
     func_arguments := join find_content_pieces;
     response := RList ["Sure, let me look"] |}.

(** A call to [Find_content] whose argument text stops short. *)
Definition malformed_pass : Pass :=
  quiet_pass
    [ text_delta "One moment.";
      tool_start "call_1" "Find_content";
      argument_delta (dquote "{'search_word': 'excel'") ]
    ("Title: Excel basics", false).

Definition malformed_locals : Locals :=
  {| func_call := Some {| id := "call_1"; func_name := "Find_content" |};
     func_arguments := dquote "{'search_word': 'excel'";
     response := RStr "One moment." |}.


(** The events in progress of a pass that the model rejects: none when
    [create] raises, those of the loop when the stream raises. *)
Definition events_before_rejection (self : LlmClient) (p : Pass)
  : list Event :=
  match create p with
  | Some _ => []
  | None => events (stream_loop self (chunks p) (stream_end p) initial_locals)
  end.

(** ** Further scenarios *)

(** The running concatenations of the text deltas of a stream, starting
    from the buffer [acc]. *)
Fixpoint prefixes (acc : string) (parts : list string) : list string :=
  match parts with
  | [] => []
  | c :: rest => (acc ++ c)%string :: prefixes (acc ++ c)%string rest
  end.

(** Scenario A of the specification: two text deltas and nothing else. *)
Definition scenario_a_pass : Pass :=
  quiet_pass (map text_delta ["Hello"; " there"]) (EmptyString, false).

(** A request that the model service refuses for a reason other than the
    content filter. *)
Definition context_length_error : exn :=
  BadRequestError 400 {| body_code := Some "context_length_exceeded";
                         body_message := Some "The prompt is too long." |}.

Definition too_long_pass : Pass :=
  with_create (quiet_pass [] (EmptyString, false)) (Some context_length_error).

(** The same outcomes with another result of the awaited tool. *)
Definition with_tool (p : Pass) (outcome : (string * bool) + exn) : Pass :=
  {| store_user := store_user p;
     prepare_prompt := prepare_prompt p;
     prompt_tokens := prompt_tokens p;
     create := create p;
     chunks := chunks p;
     stream_end := stream_end p;
     store_assistant := store_assistant p;
     save_chat := save_chat p;
     response_tokens := response_tokens p;
     tool := outcome;
     store_function := store_function p |}.

(** Scenario C of the specification: [Find_content] returns with the
    callback flag on, and a second pass words the answer. *)
Definition scenario_c_first : Pass :=
  with_tool scenario_b_pass (inl ("Title: Excel basics", true)).

Definition scenario_c_second : Pass :=
  quiet_pass [ text_delta "I found Excel basics for you." ]
    (EmptyString, false).

(** [Find_content] fails while it runs. *)
Definition failing_tool_pass : Pass :=
  with_tool scenario_b_pass (inr (PyError "HTTPStatusError")).

Definition non_final (q : QueueItem) : bool := negb (final_item q).

(** What the streaming loop yields. *)
Definition loop_event (e : Event) : Prop :=
  status e = "in-progress" /\ is_final e = false /\ message_id e = None.

(** A text without any double quote. *)
Fixpoint no_dq (g : string) : bool :=
  match g with
  | EmptyString => true
  | String c r => negb (Ascii.eqb c dq) && no_dq r
  end.

(** ** Message lists ([app/utils/api_utils.py]) *)

Module Messages.

(** A chat message: a dictionary of strings with the keys [role],
    [content] and [timestamp].  [None] below stands for the [KeyError] of
    [m[content]] on a message without that key. *)
Definition Message : Type := dict string.

(** [{msg[content] for msg in messages}]. *)
Fixpoint contents (messages : list Message) : option (list string) :=
  match messages with
  | [] => Some []
  | msg :: rest =>
      match dict_get msg "content" with
      | None => None
      | Some c =>
          match contents rest with
          | None => None
          | Some cs => Some (c :: cs)
          end
      end
  end.

Definition mem (c : string) (cs : list string) : bool :=
  existsb (String.eqb c) cs.

(** [[m for m in messages if m[content] not in {msg[content] for msg in
    others}]]: the set is built anew for each [m]. *)
Fixpoint not_among (messages others : list Message)
  : option (list Message) :=
  match messages with
  | [] => Some []
  | m :: rest =>
      match dict_get m "content" with
      | None => None
      | Some c =>
          match contents others with
          | None => None
          | Some cs =>
              match not_among rest others with
              | None => None
              | Some kept => Some (if mem c cs then kept else m :: kept)
              end
          end
      end
  end.

(** Whether [m] has a content that is not among [cs]. *)
Definition unshared (cs : list string) (m : Message) : bool :=
  match dict_get m "content" with
  | Some c => negb (mem c cs)
  | None => false
  end.

(** [remove_common_messages]. *)
Definition remove_common_messages (original_message stored_message : list Message)
  : option (list Message * list Message) :=
  match not_among original_message stored_message with
  | None => None
  | Some unique_messages =>
      match not_among stored_message original_message with
      | None => None
      | Some unique_messages_to_delete =>
          Some (unique_messages, unique_messages_to_delete)
      end
  end.

Definition message (role content : string) : Message :=
  [ ("role", role); ("content", content) ].

End Messages.

(** ** Transcripts ([extract_user_message_from_transcript]) *)

Module Transcript.

(** [Utterance] is declared in [app/request_and_response/custom_types.py],
    which is not among the sources at hand; the function reads its [role]
    and [content] only. *)
Record Utterance : Type := {
  role : string;
  content : string
}.

(** The first loop: an utterance of the agent becomes an assistant
    message, any other a user message. *)
Definition to_message (utterance : Utterance) : string * string :=
  (if String.eqb (role utterance) "agent" then "assistant" else "user",
   content utterance).

(** The second loop, over the messages from the last to the first:
    [break] on an assistant message, append the content of a user one. *)
Fixpoint collect (reversed : list (string * string)) (user_messages : string)
  : string :=
  match reversed with
  | [] => user_messages
  | (r, c) :: rest =>
      if String.eqb r "assistant" then user_messages
      else collect rest
             (if String.eqb r "user" then (user_messages ++ c)%string
              else user_messages)
  end.

Definition extract_user_message_from_transcript
    (transcript : list Utterance) : string :=
  collect (rev (map to_message transcript)) EmptyString.

Definition from_user (utterance : Utterance) : bool :=
  negb (String.eqb (role utterance) "agent").

End Transcript.

(** ** Paths into decoded JSON ([app/utils/default.py]) *)

Module PathLookup.

(** [str.lower] on code points below 256: the letters A to Z and the
    capital letters of Latin-1, the multiplication sign apart. *)
Definition lower_char (c : ascii) : ascii :=
  let n := nat_of_ascii c in
  if (((65 <=? n) && (n <=? 90))
      || ((192 <=? n) && (n <=? 222) && negb (n =? 215)))%nat
  then ascii_of_nat (n + 32) else c.

Fixpoint lower (s : string) : string :=
  match s with
  | EmptyString => EmptyString
  | String c r => String (lower_char c) (lower r)
  end.

(** A step of a path: a key or an index. *)
Inductive Step : Type :=
| Key (k : string)
| Index (i : Z).

(** [next((k for k in d.keys() if k.lower() == key.lower()), None)]. *)
Fixpoint matching_key (items : dict json) (key : string) : option string :=
  match items with
  | [] => None
  | (k, _) :: rest =>
      if String.eqb (lower k) (lower key) then Some k
      else matching_key rest key
  end.

(** [get_value_by_path].  [JNull] is the [None] that the function returns
    for a step it cannot take; an index applied to an object is looked up
    as a key, which a decoded object never has, and the [KeyError] is
    raised again by the [except] clause. *)
Fixpoint get_value_by_path (data : json) (path : list Step) : json + exn :=
  match path with
  | [] => inl data
  | key :: rest =>
      match data with
      | JObject items =>
          match key with
          | Key k =>
              match matching_key items k with
              | Some found =>
                  match dict_get items found with
                  | Some v => get_value_by_path v rest
                  | None => inr (PyError "KeyError")
                  end
              | None => inl JNull
              end
          | Index _ => inr (PyError "KeyError")
          end
      | JArray l =>
          match key with
          | Index i =>
              if ((0 <=? i) && (i <? Z.of_nat (List.length l)))%Z
              then get_value_by_path (nth (Z.to_nat i) l JNull) rest
              else inl JNull
          | Key _ => inl JNull
          end
      | _ => inl JNull
      end
  end.

(** An item of the content search, as [find_content] reads it. *)
Definition search_item : json :=
  JObject [ ("ReferenceType", JString "Article");
            ("Reference", JObject [ ("Title", JString "Excel basics");
                                    ("Tags", JArray [JString "excel";
                                                     JString "office"]) ]) ].

End PathLookup.

(** ** The two halves of the begin message *)

(** The statements of [llm_text_begin_message] up to the assignment of
    [message_id]. *)
Definition begin_message_first_half (self : LlmClient) (p : Pass)
  : Gen (string * string) :=
  bind (call PreparePrompt (prepare_prompt p)) (fun _ =>
  bind (logged (prompt_tokens p)) (fun _ =>
  bind (call ChatCreate (create p)) (fun _ =>
  bind (begin_stream_loop self (chunks p) (stream_end p) EmptyString)
    (fun response =>
  bind (call_value (SaveChatMessage (RStr response)) (save_chat p))
    (fun message_id => ret (response, message_id)))))).

(** An exception for which an [except] clause of the begin message builds
    an event: any exception but a [BadRequestError] that is not a
    content-filter rejection. *)
Definition answered (e : exn) : bool :=
  match e with
  | BadRequestError status_code (Mapping body) => content_filter status_code body
  | BadRequestError _ NotMapping => false
  | PyError _ => true
  end.

(** The same outcomes with another result of the Redis write that follows
    the final event of the begin message. *)
Definition with_store_assistant (p : Pass) (outcome : option exn) : Pass :=
  {| store_user := store_user p;
     prepare_prompt := prepare_prompt p;
     prompt_tokens := prompt_tokens p;
     create := create p;
     chunks := chunks p;
     stream_end := stream_end p;
     store_assistant := outcome;
     save_chat := save_chat p;
     response_tokens := response_tokens p;
     tool := tool p;
     store_function := store_function p |}.

(** A begin message whose stream opens with a chunk without choices. *)
Definition empty_choices_pass : Pass :=
  quiet_pass [ NoChoices; text_delta "Good morning" ] (EmptyString, false).

(** A begin message that streams well while Redis is down. *)
Definition redis_down_pass : Pass :=
  with_store_assistant
    (quiet_pass [ text_delta "Good morning" ] (EmptyString, false))
    (Some (PyError "ConnectionError")).

(** ** The chat history in Redis ([app/db/redis_manager.py]) *)

(** A reference encoder for the concrete scenarios: [json.dumps] with its
    default separators and [ensure_ascii], numbers being written with
    their lexeme. *)
Module JsonText.

Definition hex_digit (n : nat) : ascii :=
  ascii_of_nat (if (n <? 10)%nat then 48 + n else 87 + n).

Definition escape_char (c : ascii) : string :=
  let n := nat_of_ascii c in
  if Ascii.eqb c dq then String "\"%char (String dq EmptyString)
  else if Ascii.eqb c "\"%char then "\\"
  else if (n =? 10)%nat then "\n"
  else if (n =? 13)%nat then "\r"
  else if (n =? 9)%nat then "\t"
  else if (n =? 8)%nat then "\b"
  else if (n =? 12)%nat then "\f"
  else if ((n <? 32) || (126 <? n))%nat then
    ("\u00" ++ String (hex_digit (n / 16))
                 (String (hex_digit (n mod 16)) EmptyString))%string
  else String c EmptyString.

Fixpoint escape (s : string) : string :=
  match s with
  | EmptyString => EmptyString
  | String c r => (escape_char c ++ escape r)%string
  end.

Definition quoted (s : string) : string :=
  (String dq (escape s) ++ String dq EmptyString)%string.

Fixpoint dumps (v : json) : string :=
  match v with
  | JNull => "null"
  | JBool true => "true"
  | JBool false => "false"
  | JNumber lexeme => lexeme
  | JString s => quoted s
  | JArray l =>
      ("[" ++ (fix elements (l : list json) : string :=
                 match l with
                 | [] => EmptyString
                 | [x] => dumps x
                 | x :: r => (dumps x ++ ", " ++ elements r)%string
                 end) l ++ "]")%string
  | JObject items =>
      ("{" ++ (fix members (l : list (string * json)) : string :=
                 match l with
                 | [] => EmptyString
                 | [(k, x)] => (quoted k ++ ": " ++ dumps x)%string
                 | (k, x) :: r =>
                     (quoted k ++ ": " ++ dumps x ++ ", " ++ members r)%string
                 end) items ++ "}")%string
  end.

End JsonText.

Module Redis.

(** A key of the store: its value and its time to live in seconds. *)
Record Entry : Type := {
  value : string;
  ttl : option N
}.

Definition Store : Type := dict Entry.

(** [redis_client.get]. *)
Definition get (store : Store) (key : string) : option string :=
  match dict_get store key with
  | Some entry => Some (value entry)
  | None => None
  end.

(** [redis_client.set]: the value replaces the old one and the key loses
    its time to live. *)
Definition set (store : Store) (key data : string) : Store :=
  dict_set store key {| value := data; ttl := None |}.

(** [redis_client.expire]. *)
Definition expire (store : Store) (key : string) (time : N) : Store :=
  match dict_get store key with
  | Some entry => dict_set store key {| value := value entry; ttl := Some time |}
  | None => store
  end.

Section Chat.

(** [json.dumps] and [json.loads], and the truth value of a decoded
    number. *)
Variable dumps : json -> string.
Variable loads : string -> option json.
Variable number_truthy : string -> bool.

(** The truth value of a decoded document. *)
Definition truthy (v : json) : bool :=
  match v with
  | JNull => false
  | JBool b => b
  | JNumber lexeme => number_truthy lexeme
  | JString s => str_truthy s
  | JArray l => match l with [] => false | _ :: _ => true end
  | JObject items => match items with [] => false | _ :: _ => true end
  end.

(** [RedisManager.retrieve_chat]: the decoded history, or an empty [dict]
    when the key is absent or empty. *)
Definition retrieve_chat (store : Store) (conversation_id : string)
  : json + exn :=
  match get store conversation_id with
  | Some chat_data_json =>
      if str_truthy chat_data_json then
        match loads chat_data_json with
        | Some chat_data => inl chat_data
        | None => inr (PyError "JSONDecodeError")
        end
      else inl (JObject [])
  | None => inl (JObject [])
  end.

(** [RedisManager.store_chat]: a truthy history is extended in place, which
    only a list allows; anything falsy is replaced by the messages. *)
Definition store_chat (store : Store) (messages : list json)
    (conversation_id : string) (expire_time : N) : Store + exn :=
  match retrieve_chat store conversation_id with
  | inr e => inr e
  | inl chat_data =>
      let extended :=
        if truthy chat_data then
          match chat_data with
          | JArray l => inl (JArray (l ++ messages))
          | _ => inr (PyError "AttributeError")
          end
        else inl (JArray messages) in
      match extended with
      | inr e => inr e
      | inl chat_data' =>
          let store' := set store conversation_id (dumps chat_data') in
          inl (if (expire_time =? 0)%N then store'
               else expire store' conversation_id expire_time)
      end
  end.

(** The history as a list: the messages of a stored list, none otherwise. *)
Definition history (chat_data : json) : list json :=
  match chat_data with
  | JArray l => l
  | _ => []
  end.

(** The document survives the trip through its text. *)
Definition round_trips (v : json) : Prop :=
  str_truthy (dumps v) = true /\ loads (dumps v) = Some v.

End Chat.

(** [self.redis_manager.store_chat(messages=message, ...)] with its default
    time to live of twelve hours. *)
Definition twelve_hours : N := 12 * 60 * 60.

Definition chat_message (role content : string) : json :=
  JObject [ ("role", JString role); ("content", JString content) ].

(** A store that holds the session data of one session and the history of
    one conversation. *)
Definition sample_store : Store :=
  [ ("session_data_sid-1",
     {| value := JsonText.dumps (JObject [("prompt", JString "hi")]);
        ttl := None |});
    ("conv-1",
     {| value := JsonText.dumps (JArray [chat_message "user" "hi"]);
        ttl := Some 600%N |}) ].

End Redis.

(** ** Structured answers of the model ([app/utils/api_utils.py]) *)

Module Parsers.

(** The text before and after the first occurrence of [needle]. *)
Fixpoint find (needle hay : string) : option (string * string) :=
  match strip_prefix needle hay with
  | Some after => Some (EmptyString, after)
  | None =>
      match hay with
      | EmptyString => None
      | String c r =>
          match find needle r with
          | Some (before, after) => Some (String c before, after)
          | None => None
          end
      end
  end.

Definition fence : string := "```".

(** [re.findall] of a fence tagged json, then the shortest text, then a
    fence, with [re.DOTALL]; the first match, as [matches[0]] reads it. *)
Definition fenced_json (content : string) : option string :=
  match find (fence ++ "json")%string content with
  | Some (_, after) =>
      match find fence after with
      | Some (body, _) => Some body
      | None => None
      end
  | None => None
  end.

Section Retry.

Variable json_loads : string -> option json.

(** One pass of the [try] block on the answer of the completion request:
    its content, or the exception it raised. *)
Definition attempt (answer : string + exn) : json + exn :=
  match answer with
  | inr e => inr e
  | inl content =>
      match fenced_json content with
      | None => inr (PyError "IndexError")
      | Some body =>
          match json_loads body with
          | Some parsed_content => inl parsed_content
          | None => inr (PyError "JSONDecodeError")
          end
      end
  end.

(** [for attempt in range(3 + 1): try: ... break  except: if attempt == 3:
    raise], then [return parsed_content].  [answers n] is what the model
    service gives to the request of attempt [n]; the result comes with the
    number of requests made. *)
Fixpoint retry (answers : nat -> string + exn) (attempts : list nat)
  : (json + exn) * nat :=
  match attempts with
  | [] => (inr (PyError "UnboundLocalError"), 0%nat)
  | n :: rest =>
      match attempt (answers n) with
      | inl parsed_content => (inl parsed_content, 1%nat)
      | inr e =>
          if (n =? 3)%nat then (inr e, 1%nat)
          else let '(r, calls) := retry answers rest in (r, S calls)
      end
  end.

(** [coach_prompt_suggestion]; [bio_parser], [validate_bio_parser],
    [resume_parse] and [validate_resume_parse] run the same loop on other
    prompts. *)
Definition coach_prompt_suggestion (answers : nat -> string + exn)
  : (json + exn) * nat :=
  retry answers (seq 0 (3 + 1)).

End Retry.

(** A service that is down for the first two requests, then answers with
    prose around a fenced document. *)
Definition flaky_answers (n : nat) : string + exn :=
  if (n <? 2)%nat then inr (PyError "APITimeoutError")
  else inl ("Here it is: ```json" ++ dquote "{'tone': 'warm'}"
            ++ "``` Anything else?")%string.

(** A service that answers without any fenced document. *)
Definition prose_answers (n : nat) : string + exn :=
  if (n <? 3)%nat then inl "I cannot do that."
  else inr (PyError "RateLimitError").

End Parsers.

(** ** Errors whose body cannot be read *)

(** A [BadRequestError] of status 400 whose body is no mapping: the first
    [except] clause raises when it reads the code of such a body. *)
Definition unreadable (e : exn) : bool :=
  match e with
  | BadRequestError status_code NotMapping => (status_code =? 400)%Z
  | _ => false
  end.

Definition readable (outcome : option exn) : bool :=
  match outcome with
  | Some e => negb (unreadable e)
  | None => true
  end.

Definition readable_value {A : Type} (outcome : A + exn) : bool :=
  match outcome with
  | inr e => negb (unreadable e)
  | inl _ => true
  end.

(** No external call of the pass fails with such an error. *)
Definition readable_pass (p : Pass) : bool :=
  readable (store_user p) && readable (prepare_prompt p)
  && readable (prompt_tokens p) && readable (create p)
  && readable (stream_end p) && readable (store_assistant p)
  && readable_value (save_chat p) && readable (response_tokens p)
  && readable_value (tool p) && readable (store_function p).

(** A run that raises, if at all, an exception the clauses can handle. *)
Definition raises_only_readable {A : Type} (m : Gen A) : Prop :=
  forall e, stop m = Raised e -> unreadable e = false.

(** A request refused with status 400 by a gateway that answers in plain
    text. *)
Definition plain_text_error : exn := BadRequestError 400 NotMapping.

Definition plain_text_pass : Pass :=
  with_create (quiet_pass [] (EmptyString, false)) (Some plain_text_error).

(** What the generic clause of the enclosing turn adds to a nested run, and
    how the enclosing turn stops. *)
Definition recovery (self : LlmClient) (nested : Gen unit) : list Action :=
  match stop nested with
  | Raised _ =>
      [Yield (_create_yield_response self (RStr "Error Occurred") "done" None)]
  | _ => []
  end.

Definition recovered (nested : Gen unit) : Stop unit :=
  match stop nested with
  | Raised _ => Returned tt
  | r => r
  end.


(** * Properties *)

(** ** Laws of the generator monad *)

Section GenLaws.

Context {A B C : Type}.

Lemma bind_ret_l (a : A) (f : A -> Gen B) : bind (ret a) f = f a.
Proof. unfold bind, ret. destruct (f a); reflexivity. Qed.

Lemma bind_assoc (m : Gen A) (f : A -> Gen B) (g : B -> Gen C) :
  bind (bind m f) g = bind m (fun x => bind (f x) g).
Proof.
  destruct m as [tr [a | e | ]]; simpl; try reflexivity.
  destruct (f a) as [tr1 [b | e | ]]; simpl; try reflexivity.
  destruct (g b) as [tr2 r]. rewrite app_assoc. reflexivity.
Qed.

(** Two continuations that agree on the value a run returns give the same
    run. *)
Lemma bind_ext_returned (m : Gen A) (f g : A -> Gen B) :
  (forall a, stop m = Returned a -> f a = g a) -> bind m f = bind m g.
Proof.
  destruct m as [tr [a | e | ]]; simpl; intros H; try reflexivity.
  rewrite (H a eq_refl). reflexivity.
Qed.

End GenLaws.

Lemma events_of_app (t1 t2 : list Action) :
  events_of (t1 ++ t2) = events_of t1 ++ events_of t2.
Proof.
  induction t1 as [| a t1 IH]; simpl; [reflexivity |].
  destruct a; simpl; rewrite IH; reflexivity.
Qed.

Lemma events_bind {A B : Type} (m : Gen A) (f : A -> Gen B) (a : A) :
  stop m = Returned a -> events (bind m f) = events m ++ events (f a).
Proof.
  destruct m as [tr [x | e | ]]; simpl; intros H; inversion H; subst.
  unfold events, trace. simpl. destruct (f a) as [tr' r]. simpl.
  apply events_of_app.
Qed.

(** ** The streaming loop *)

Section StreamLoop.

Variable self : LlmClient.

Lemma string_app_assoc (a b c : string) :
  ((a ++ b) ++ c = a ++ (b ++ c))%string.
Proof. induction a as [| x a IH]; simpl; [reflexivity | now rewrite IH]. Qed.

Lemma string_app_empty_r (a : string) : (a ++ EmptyString)%string = a.
Proof. induction a as [| x a IH]; simpl; [reflexivity | now rewrite IH]. Qed.

(** Argument deltas neither yield nor stop the loop; they append. *)
Lemma stream_loop_argument_deltas (parts : list string) (st : Locals) :
  exists st',
    stream_loop self (map argument_delta parts) None st = ret st' /\
    func_call st' = func_call st /\
    func_arguments st' = (func_arguments st ++ join parts)%string.
Proof.
  revert st. induction parts as [| p ps IH]; intros st.
  - exists st. simpl. rewrite string_app_empty_r. auto.
  - destruct (IH {| func_call := func_call st;
                     func_arguments := (func_arguments st ++ p)%string;
                     response :=
                       match Re.findall (func_arguments st ++ p) with
                       | [] => response st
                       | _ :: _ => RList (Re.findall (func_arguments st ++ p))
                       end |}) as (st' & Hrun & Hfc & Hargs).
    exists st'. simpl map. cbn [stream_loop argument_delta].
    unfold tool_step. cbn [tool_calls tc_id or_empty str_truthy tc_arguments].
    unfold content_step. cbn [content]. rewrite bind_ret_l.
    split; [exact Hrun |]. split.
    + rewrite Hfc. reflexivity.
    + rewrite Hargs. cbn [func_arguments join]. apply string_app_assoc.
Qed.

(** A fragment that is not a tool-call start never stops the loop and
    leaves [func_call] as it is. *)
Lemma tool_step_no_start (d : Delta) (st : Locals) :
  no_start (Choice (Some d)) = true ->
  exists st', tool_step d st = Some st' /\ func_call st' = func_call st.
Proof.
  unfold no_start, tool_call_start, tool_step.
  destruct (tool_calls d) as [| tc tcs]; [eauto |].
  destruct (str_truthy (or_empty (tc_id tc))); [discriminate |].
  intros _. eexists. split; [reflexivity | reflexivity].
Qed.

Lemma content_step_returns (d : Delta) (st : Locals) :
  exists st', stop (content_step self d st) = Returned st' /\
              func_call st' = func_call st.
Proof.
  unfold content_step. destruct (content d); simpl; eauto.
Qed.

Lemma stream_loop_no_start_func_call (l : list Chunk) (st st' : Locals) :
  forallb no_start l = true ->
  stop (stream_loop self l None st) = Returned st' ->
  func_call st' = func_call st.
Proof.
  revert st. induction l as [| c l IH]; intros st Hl Hrun.
  - simpl in Hrun. inversion Hrun. reflexivity.
  - simpl in Hl. apply andb_prop in Hl as [Hc Hl].
    destruct c as [| [d |]]; cbn [stream_loop] in Hrun; try (now apply IH).
    destruct (tool_step_no_start d st Hc) as (st1 & Hstep & Hfc1).
    rewrite Hstep in Hrun.
    destruct (content_step_returns d st1) as (st2 & Hc2 & Hfc2).
    destruct (content_step self d st1) as [tr [x | e | ]] eqn:Hcs;
      simpl in Hc2; inversion Hc2; subst.
    simpl in Hrun.
    destruct (stream_loop self l None st2) as [tr' r] eqn:Hloop.
    simpl in Hrun. subst r.
    rewrite (IH st2 Hl); [congruence |]. rewrite Hloop. reflexivity.
Qed.

(** The loop over [l1 ++ l2] is the loop over [l1] followed by the loop
    over [l2], as long as [l1] holds no tool-call start. *)
Lemma stream_loop_app (l1 l2 : list Chunk) (stream_end : option exn)
    (st : Locals) :
  forallb no_start l1 = true ->
  stream_loop self (l1 ++ l2) stream_end st =
  bind (stream_loop self l1 None st)
       (fun st' => stream_loop self l2 stream_end st').
Proof.
  revert st. induction l1 as [| c l1 IH]; intros st Hl.
  - cbn [app stream_loop]. rewrite bind_ret_l. reflexivity.
  - simpl in Hl. apply andb_prop in Hl as [Hc Hl].
    destruct c as [| [d |]]; cbn [stream_loop app]; try (now apply IH).
    destruct (tool_step_no_start d st Hc) as (st1 & Hstep & _).
    rewrite Hstep. rewrite bind_assoc.
    apply bind_ext_returned. intros st2 _. apply IH. exact Hl.
Qed.

Lemma stop_bind {A B : Type} (m : Gen A) (f : A -> Gen B) (a : A) :
  stop m = Returned a -> stop (bind m f) = stop (f a).
Proof.
  destruct m as [tr [x | e | ]]; simpl; intros H; inversion H; subst.
  destruct (f a); reflexivity.
Qed.

Lemma stream_loop_no_start_returns (l : list Chunk) (st : Locals) :
  forallb no_start l = true ->
  exists st', stop (stream_loop self l None st) = Returned st'.
Proof.
  revert st. induction l as [| c l IH]; intros st Hl.
  - simpl. eauto.
  - simpl in Hl. apply andb_prop in Hl as [Hc Hl].
    destruct c as [| [d |]]; cbn [stream_loop]; try (now apply IH).
    destruct (tool_step_no_start d st Hc) as (st1 & Hstep & _).
    rewrite Hstep.
    destruct (content_step_returns d st1) as (st2 & Hc2 & _).
    rewrite (stop_bind _ _ _ Hc2). apply IH. exact Hl.
Qed.

(** A second tool-call start ends the loop where it stands. *)
Lemma stream_loop_second_start (c : Chunk) (tc : ToolCallDelta)
    (post : list Chunk) (stream_end : option exn) (st : Locals)
    (fc : FuncCall) :
  tool_call_start c = Some tc -> func_call st = Some fc ->
  stream_loop self (c :: post) stream_end st = ret st.
Proof.
  intros Hc Hfc. unfold tool_call_start in Hc.
  destruct c as [| [d |]]; try discriminate.
  cbn [stream_loop]. unfold tool_step.
  destruct (tool_calls d) as [| tc' tcs]; [discriminate |].
  destruct (str_truthy (or_empty (tc_id tc'))); [| discriminate].
  rewrite Hfc. reflexivity.
Qed.

(** The first tool-call start opens the call. *)
Lemma stream_loop_first_start (c : Chunk) (tc : ToolCallDelta)
    (l : list Chunk) (stream_end : option exn) (st : Locals) :
  tool_call_start c = Some tc -> func_call st = None ->
  exists d,
    c = Choice (Some d) /\
    stream_loop self (c :: l) stream_end st =
    bind (content_step self d
            {| func_call := Some {| id := or_empty (tc_id tc);
                                    func_name := or_empty (tc_name tc) |};
               func_arguments := func_arguments st;
               response := response st |})
         (fun st2 => stream_loop self l stream_end st2).
Proof.
  intros Hc Hfc. unfold tool_call_start in Hc.
  destruct c as [| [d |]]; try discriminate.
  exists d. split; [reflexivity |].
  cbn [stream_loop]. unfold tool_step.
  destruct (tool_calls d) as [| tc' tcs]; [discriminate |].
  destruct (str_truthy (or_empty (tc_id tc'))); [| discriminate].
  inversion Hc; subst. rewrite Hfc. reflexivity.
Qed.

(** With two tool-call starts in the stream the loop stops at the second:
    it behaves as on the stream cut just before it. *)
Lemma stream_loop_two_starts (pre mid post : list Chunk) (s1 s2 : Chunk)
    (tc1 tc2 : ToolCallDelta) (stream_end : option exn) (st : Locals) :
  forallb no_start pre = true -> tool_call_start s1 = Some tc1 ->
  forallb no_start mid = true -> tool_call_start s2 = Some tc2 ->
  func_call st = None ->
  stream_loop self (pre ++ s1 :: mid ++ s2 :: post) stream_end st =
  stream_loop self (pre ++ s1 :: mid) None st.
Proof.
  intros Hpre Hs1 Hmid Hs2 Hfc.
  rewrite !stream_loop_app by exact Hpre.
  apply bind_ext_returned. intros st' Hst'.
  pose proof (stream_loop_no_start_func_call pre st st' Hpre Hst') as Hfc'.
  rewrite Hfc in Hfc'.
  destruct (stream_loop_first_start s1 tc1 (mid ++ s2 :: post) stream_end st'
              Hs1 Hfc') as (d & Hd & Hrun).
  destruct (stream_loop_first_start s1 tc1 mid None st' Hs1 Hfc')
    as (d' & Hd' & Hrun').
  rewrite Hd in Hd'. inversion Hd'; subst d'.
  rewrite Hrun, Hrun'.
  apply bind_ext_returned. intros st2 Hst2.
  destruct (content_step_returns d
              {| func_call := Some {| id := or_empty (tc_id tc1);
                                      func_name := or_empty (tc_name tc1) |};
                 func_arguments := func_arguments st';
                 response := response st' |}) as (st2' & Hst2' & Hfc2).
  rewrite Hst2 in Hst2'. inversion Hst2'; subst st2'. cbn [func_call] in Hfc2.
  rewrite stream_loop_app by exact Hmid.
  rewrite <- (app_nil_r mid) at 2.
  rewrite stream_loop_app by exact Hmid.
  apply bind_ext_returned. intros st3 Hst3.
  pose proof (stream_loop_no_start_func_call mid st2 st3 Hmid Hst3) as Hfc3.
  rewrite Hfc2 in Hfc3.
  rewrite (stream_loop_second_start s2 tc2 post stream_end st3 _ Hs2 Hfc3).
  reflexivity.
Qed.

(** The call left open by such a stream is the first one. *)
Lemma stream_loop_two_starts_func_call (pre mid : list Chunk) (s1 : Chunk)
    (tc1 : ToolCallDelta) (st : Locals) :
  forallb no_start pre = true -> tool_call_start s1 = Some tc1 ->
  forallb no_start mid = true -> func_call st = None ->
  exists st',
    stop (stream_loop self (pre ++ s1 :: mid) None st) = Returned st' /\
    func_call st' = Some {| id := or_empty (tc_id tc1);
                            func_name := or_empty (tc_name tc1) |}.
Proof.
  intros Hpre Hs1 Hmid Hfc.
  rewrite stream_loop_app by exact Hpre.
  destruct (stream_loop_no_start_returns pre st Hpre) as (st1 & Hst1).
  pose proof (stream_loop_no_start_func_call pre st st1 Hpre Hst1) as Hfc1.
  rewrite Hfc in Hfc1.
  rewrite (stop_bind _ _ _ Hst1).
  destruct (stream_loop_first_start s1 tc1 mid None st1 Hs1 Hfc1)
    as (d & _ & Hrun).
  rewrite Hrun.
  destruct (content_step_returns d
              {| func_call := Some {| id := or_empty (tc_id tc1);
                                      func_name := or_empty (tc_name tc1) |};
                 func_arguments := func_arguments st1;
                 response := response st1 |}) as (st2 & Hst2 & Hfc2).
  rewrite (stop_bind _ _ _ Hst2).
  destruct (stream_loop_no_start_returns mid st2 Hmid) as (st3 & Hst3).
  exists st3. split; [exact Hst3 |].
  rewrite (stream_loop_no_start_func_call mid st2 st3 Hmid Hst3).
  exact Hfc2.
Qed.

End StreamLoop.

(** ** Tool-call assembly *)

(** C7.  However the argument text of a tool call is cut into
    argument-delta fragments, the loop accumulates their concatenation in
    arrival order: the buffer, the decoded document and the arguments
    passed to the tool are those obtained when the whole text arrives in a
    single fragment. *)
Theorem argument_chunking_independent
    (self : LlmClient) (json_loads : string -> option json)
    (parts : list string) (st : Locals) :
  exists stN st1,
    stream_loop self (map argument_delta parts) None st = ret stN /\
    stream_loop self [argument_delta (join parts)] None st = ret st1 /\
    func_arguments stN = (func_arguments st ++ join parts)%string /\
    func_arguments stN = func_arguments st1 /\
    func_call stN = func_call st1 /\
    json_loads (func_arguments stN) = json_loads (func_arguments st1) /\
    tool_arguments json_loads (func_arguments stN) =
    tool_arguments json_loads (func_arguments st1).
Proof.
  destruct (stream_loop_argument_deltas self parts st)
    as (stN & HrunN & HfcN & HargsN).
  destruct (stream_loop_argument_deltas self [join parts] st)
    as (st1 & Hrun1 & Hfc1 & Hargs1).
  cbn [join] in Hargs1. rewrite string_app_empty_r in Hargs1.
  exists stN, st1.
  assert (Heq : func_arguments stN = func_arguments st1) by congruence.
  repeat split; try assumption; try congruence.
Qed.

(** C6.  When the stream of a pass holds two tool-call-start fragments,
    the loop stops at the second one: the open call is the first, and the
    loop, hence the whole turn, runs exactly as on the stream cut just
    before the second start, so that nothing from there on is buffered or
    dispatched. *)
Theorem first_tool_call_wins
    (self : LlmClient) (json_loads : string -> option json)
    (p : Pass) (rest : list Pass) (pre mid post : list Chunk)
    (s1 s2 : Chunk) (tc1 tc2 : ToolCallDelta)
    (user_query : option string) (session_id correlation_id : string)
    (async_tools : bool) :
  chunks p = pre ++ s1 :: mid ++ s2 :: post ->
  forallb no_start pre = true -> tool_call_start s1 = Some tc1 ->
  forallb no_start mid = true -> tool_call_start s2 = Some tc2 ->
  (exists st,
      stop (stream_loop self (chunks p) (stream_end p) initial_locals)
      = Returned st /\
      func_call st = Some {| id := or_empty (tc_id tc1);
                             func_name := or_empty (tc_name tc1) |}) /\
  stream_loop self (chunks p) (stream_end p) initial_locals =
  stream_loop self (pre ++ s1 :: mid) None initial_locals /\
  llm_text_response self json_loads (p :: rest) user_query session_id
    correlation_id async_tools =
  llm_text_response self json_loads
    (with_stream p (pre ++ s1 :: mid) None :: rest) user_query session_id
    correlation_id async_tools.
Proof.
  intros Hchunks Hpre Hs1 Hmid Hs2.
  assert (Hloop :
    stream_loop self (chunks p) (stream_end p) initial_locals =
    stream_loop self (pre ++ s1 :: mid) None initial_locals).
  { rewrite Hchunks.
    apply (stream_loop_two_starts self pre mid post s1 s2 tc1 tc2);
      auto. }
  split; [| split].
  - rewrite Hloop.
    apply (stream_loop_two_starts_func_call self pre mid s1 tc1); auto.
  - exact Hloop.
  - cbn [llm_text_response]. unfold text_response_body.
    cbn [with_stream store_user prepare_prompt prompt_tokens create chunks
         stream_end store_assistant save_chat response_tokens tool
         store_function].
    rewrite Hloop. reflexivity.
Qed.

Lemma first_tool_call_wins_witness :
  (chunks two_starts_pass =
     two_starts_pre ++ two_starts_first :: two_starts_mid
       ++ two_starts_second :: two_starts_post /\
   forallb no_start two_starts_pre = true /\
   tool_call_start two_starts_first
   = Some (start_delta "call_1" "Find_content") /\
   forallb no_start two_starts_mid = true /\
   tool_call_start two_starts_second
   = Some (start_delta "call_2" "Prepare_Plan")) /\
  llm_text_response demo_self Json.loads [two_starts_pass]
    (Some "find excel") "sid-1" "corr-1" false =
  llm_text_response demo_self Json.loads
    [with_stream two_starts_pass
       (two_starts_pre ++ two_starts_first :: two_starts_mid) None]
    (Some "find excel") "sid-1" "corr-1" false.
Proof.
  split.
  - repeat split; reflexivity.
  - apply (first_tool_call_wins demo_self Json.loads two_starts_pass []
             two_starts_pre two_starts_mid two_starts_post
             two_starts_first two_starts_second
             (start_delta "call_1" "Find_content")
             (start_delta "call_2" "Prepare_Plan"));
      reflexivity.
Defined.

(** ** The turn after its streaming loop *)

Section TurnLemmas.

Variable self : LlmClient.
Variable json_loads : string -> option json.

Lemma try_except_prefix {A : Type} (tr : list Action) (k : Gen A)
    (h : exn -> Gen A) :
  try_except (tr ++ trace k, stop k) h =
  (tr ++ trace (try_except k h), stop (try_except k h)).
Proof.
  destruct k as [trk [a | e | ]]; simpl; try reflexivity.
  destruct (h e) as [trh r]. simpl. rewrite app_assoc. reflexivity.
Qed.

(** A pass whose calls succeed up to the end of the loop runs the loop,
    then what follows it under the two [except] clauses. *)
Lemma llm_text_response_after_stream (p : Pass) (rest : list Pass)
    (user_query : option string) (session_id correlation_id : string)
    (async_tools : bool) (st : Locals) :
  streams_to self p user_query st ->
  llm_text_response self json_loads (p :: rest) user_query session_id
    correlation_id async_tools =
  let k := try_except
             (after_stream self json_loads p
                (llm_text_response self json_loads rest None session_id
                   correlation_id false)
                st session_id correlation_id async_tools)
             (text_response_handler self) in
  (prologue user_query
     ++ trace (stream_loop self (chunks p) (stream_end p) initial_locals)
     ++ epilogue st ++ trace k,
   stop k).
Proof.
  intros (Hu & Hp & Ht & Hc & Hs & Ha).
  cbn [llm_text_response]. unfold text_response_body.
  rewrite Hp, Ht, Hc.
  destruct (stream_loop self (chunks p) (stream_end p) initial_locals)
    as [trl [stl | e | ]]; simpl in Hs; inversion Hs; subst stl.
  cbv zeta. rewrite !app_assoc.
  rewrite <- try_except_prefix.
  f_equal.
  unfold prologue, epilogue, after_stream, final_response.
  unfold call, logged, tell. cbn [bind ret].
  destruct (str_truthy (or_empty user_query));
    [rewrite Hu by reflexivity |];
    (destruct (response_truthy (response st));
      [rewrite Ha by reflexivity |]);
    cbv iota beta; cbn [bind ret];
    (destruct (func_call st) as [fc |];
     [ destruct (_handle_function_call self json_loads p _ fc _ _ _ _ _)
         as [trk r]
     | destruct (save_chat p) as [mid | e];
       try destruct (response_tokens p) ]);
    simpl; rewrite <- ?app_assoc; reflexivity.
Qed.

End TurnLemmas.

(** ** Terminal events on the failure paths *)

Lemma heartbeats_never_final (n : nat) :
  existsb final_item (event_generator (repeat PingPong n)) = false.
Proof. induction n as [| n IH]; simpl; [reflexivity | exact IH]. Qed.

(** C1.  The claim fails on the begin-message turn: when the content
    filter rejects the prompt, or when the stream breaks, the [except] clause
    reads [message_id] before any assignment, the generator ends with an
    unbound-local error, no event is put on the queue and the client is
    forwarded heartbeats only, never an event with [is_final]. *)
Theorem begin_message_failure_has_no_final_event :
  llm_text_begin_message demo_self rejected_begin_pass
  = ([PreparePrompt; ChatCreate], Raised (PyError "UnboundLocalError")) /\
  _enqueue_begin_messages
    (llm_text_begin_message demo_self rejected_begin_pass) "sid-1" "corr-1"
  = [] /\
  stop (llm_text_begin_message demo_self broken_begin_pass)
  = Raised (PyError "UnboundLocalError") /\
  map summary
    (_enqueue_begin_messages
       (llm_text_begin_message demo_self broken_begin_pass) "sid-1" "corr-1")
  = [Some (RStr "Good morning", false)] /\
  forall n : nat,
    existsb final_item (event_generator (repeat PingPong n)) = false.
Proof.
  repeat split; try reflexivity. exact heartbeats_never_final.
Qed.

(** C2.  The claim fails when the token count that follows the final
    [yield] of [llm_text_response] raises: the statement lies inside the
    [try], the generic clause yields a second event with [is_final], and the
    producer loop puts both on the queue. *)
Theorem token_count_failure_pushes_two_finals :
  map summary
    (_enqueue_chat_messages demo_self Json.loads
       [ {| is_disconnected := false; passes := [special_token_pass] |};
         {| is_disconnected := true; passes := [] |} ]
       (Some "repeat the end marker") "corr-1" "sid-1")
  = [ Some (RStr "<|endoftext|>", false);
      Some (RStr "<|endoftext|>", true);
      Some (RStr "Error Occurred", true) ] /\
  count_final
    (events (llm_text_response demo_self Json.loads [special_token_pass]
               (Some "repeat the end marker") "sid-1" "corr-1" false))
  = 2.
Proof. split; reflexivity. Qed.

(** C4.  The claim fails on a tool name that the registry lacks: the
    chained lookup raises on the missing entry, the generic clause of
    [llm_text_response] catches it, and the final event carries the fixed
    error text instead of the text buffer. *)
Theorem unknown_tool_surfaces_error :
  map event_summary
    (events (llm_text_response demo_self Json.loads [unknown_tool_pass]
               (Some "mail this to my manager") "sid-1" "corr-1" false))
  = [ (RStr "Let me check.", false); (RStr "Error Occurred", true) ] /\
  dict_get functions "Send_Email" = None /\
  stop (_handle_function_call demo_self Json.loads unknown_tool_pass
          suspended {| id := "call_1"; func_name := "Send_Email" |} "{}"
          "sid-1" "corr-1" false (RStr "Let me check."))
  = Raised (PyError "AttributeError").
Proof. repeat split; reflexivity. Qed.

(** ** What the streaming loop yields and keeps *)

Section LoopInvariants.

Variable self : LlmClient.

(** The loop only yields, and only events in progress. *)
Lemma stream_loop_yields (l : list Chunk) (stream_end : option exn)
    (st : Locals) :
  exists evs,
    trace (stream_loop self l stream_end st) = map Yield evs /\
    forallb in_progress evs = true.
Proof.
  revert st. induction l as [| c l IH]; intros st.
  - exists []. simpl. destruct stream_end; auto.
  - destruct c as [| [d |]]; cbn [stream_loop]; try apply IH.
    destruct (tool_step d st) as [st1 |]; [| exists []; auto].
    unfold content_step. destruct (content d) as [c |].
    + cbn [bind yield tell ret].
      match goal with |- context [stream_loop self l stream_end ?s] =>
        destruct (IH s) as (evs & Htr & Hin);
        destruct (stream_loop self l stream_end s) as [tr r] end.
      simpl in Htr. subst tr.
      eexists (_ :: evs). simpl. split; [reflexivity | exact Hin].
    + rewrite bind_ret_l. apply IH.
Qed.

Lemma events_of_yields (evs : list Event) : events_of (map Yield evs) = evs.
Proof. induction evs; simpl; congruence. Qed.

Lemma aside_held_tool_step (d : Delta) (st st' : Locals) :
  aside_held st -> tool_step d st = Some st' -> aside_held st'.
Proof.
  unfold tool_step, aside_held. intros Hinv Hstep.
  destruct (tool_calls d) as [| tc tcs]; [inversion Hstep; subst; exact Hinv |].
  destruct (str_truthy (or_empty (tc_id tc))).
  - destruct (func_call st); inversion Hstep; subst. exact Hinv.
  - inversion Hstep; subst. cbn [func_arguments response].
    destruct (Re.findall (func_arguments st ++ or_empty (tc_arguments tc)))
      as [| m ms]; [exact I | eauto].
Qed.

Lemma aside_held_content_step (d : Delta) (st st' : Locals) :
  aside_held st -> stop (content_step self d st) = Returned st' ->
  aside_held st'.
Proof.
  unfold content_step, aside_held. intros Hinv Hstep.
  destruct (content d) as [c |]; simpl in Hstep; inversion Hstep; subst;
    [| exact Hinv].
  cbn [func_arguments response].
  destruct (Re.findall (func_arguments st)) as [| m ms]; [exact I |].
  destruct Hinv as (l & Hl). rewrite Hl. simpl. eauto.
Qed.

Lemma aside_held_stream_loop (l : list Chunk) (stream_end : option exn)
    (st st' : Locals) :
  aside_held st ->
  stop (stream_loop self l stream_end st) = Returned st' -> aside_held st'.
Proof.
  revert st. induction l as [| c l IH]; intros st Hinv Hrun.
  - simpl in Hrun. destruct stream_end; inversion Hrun; subst. exact Hinv.
  - destruct c as [| [d |]]; cbn [stream_loop] in Hrun; try (now eapply IH; eauto).
    destruct (tool_step d st) as [st1 |] eqn:Hstep.
    + destruct (content_step_returns self d st1) as (st2 & Hst2 & _).
      rewrite (stop_bind _ _ _ Hst2) in Hrun.
      eapply IH; [| exact Hrun].
      eapply aside_held_content_step; [| exact Hst2].
      eapply aside_held_tool_step; eauto.
    + simpl in Hrun. inversion Hrun; subst. exact Hinv.
Qed.

(** After the loop, a buffer that the aside pattern matches makes the first
    match the answer. *)
Lemma final_response_aside (st : Locals) (m : string) (ms : list string) :
  aside_held st -> Re.findall (func_arguments st) = m :: ms ->
  final_response st = RStr m.
Proof.
  unfold aside_held. intros Hinv Hm. rewrite Hm in Hinv.
  destruct Hinv as (l & Hl). unfold final_response. rewrite Hl. reflexivity.
Qed.

End LoopInvariants.

Lemma registry_function_truthy (name : string) (entry : ToolEntry) :
  dict_get functions name = Some entry -> str_truthy (function entry) = true.
Proof.
  unfold functions. cbn [dict_get].
  repeat match goal with
         | |- (if ?b then _ else _) = _ -> _ => destruct b
         end;
    intros H; inversion H; reflexivity.
Qed.

(** ** Dispatch of an assembled tool call *)

Section Dispatch.

Variable self : LlmClient.
Variable json_loads : string -> option json.

Lemma no_await_in_yields (evs : list Event) :
  existsb is_await_tool (map Yield evs) = false.
Proof. induction evs; simpl; auto. Qed.

Lemma no_task_in_yields (evs : list Event) :
  existsb is_create_task (map Yield evs) = false.
Proof. induction evs; simpl; auto. Qed.

Lemma no_await_in_prologue (user_query : option string) :
  existsb is_await_tool (prologue user_query) = false.
Proof. unfold prologue. destruct (str_truthy _); reflexivity. Qed.

Lemma no_task_in_prologue (user_query : option string) :
  existsb is_create_task (prologue user_query) = false.
Proof. unfold prologue. destruct (str_truthy _); reflexivity. Qed.

Lemma no_await_in_epilogue (st : Locals) :
  existsb is_await_tool (epilogue st) = false.
Proof. unfold epilogue. destruct (response_truthy _); reflexivity. Qed.

Lemma no_task_in_epilogue (st : Locals) :
  existsb is_create_task (epilogue st) = false.
Proof. unfold epilogue. destruct (response_truthy _); reflexivity. Qed.

Lemma events_of_prologue (user_query : option string) :
  events_of (prologue user_query) = [].
Proof. unfold prologue. destruct (str_truthy _); reflexivity. Qed.

Lemma events_of_epilogue (st : Locals) : events_of (epilogue st) = [].
Proof. unfold epilogue. destruct (response_truthy _); reflexivity. Qed.


(** The fire-and-forget branch: the task is created and the final event
    follows at once. *)
Lemma after_stream_fire_and_forget (p : Pass) (continuation : Gen unit)
    (st : Locals) (session_id correlation_id : string) (async_tools : bool)
    (fc : FuncCall) (entry : ToolEntry) (items : dict json) :
  func_call st = Some fc ->
  dict_get functions (func_name fc) = Some entry ->
  async_tools || negb (is_sync entry) = true ->
  json_loads (func_arguments st) = Some (JObject items) ->
  binds (parameters (function entry)) (without_aside items) = true ->
  try_except
    (after_stream self json_loads p continuation st session_id
       correlation_id async_tools)
    (text_response_handler self)
  = ([ CreateTask (function entry) (without_aside items);
       Yield (_create_yield_response self (final_response st) "done" None) ],
     Returned tt).
Proof.
  intros Hfc Hget Hmode Hjson Hbinds.
  unfold after_stream, _handle_function_call, tool_arguments.
  rewrite Hfc, Hget, (registry_function_truthy _ _ Hget), Hjson.
  rewrite bind_ret_l, Hmode.
  unfold without_aside in Hbinds. rewrite Hbinds. reflexivity.
Qed.

End Dispatch.

(** C10.  When the assembled call names a registered tool that runs
    fire-and-forget (the caller asked for asynchronous tools, or the entry is
    not synchronous) and the decoded arguments minus the aside bind to the
    parameters of the handler, the handler is handed to
    [asyncio.create_task] with those arguments and is never awaited; the
    only event of the dispatch is the final one, yielded right after the
    task is created and whatever the handler later does, and its answer is
    the local [response]: the first text captured by the aside pattern
    whenever the pattern matches the argument buffer. *)
Theorem fire_and_forget_final_is_immediate
    (self : LlmClient) (json_loads : string -> option json)
    (p : Pass) (rest : list Pass) (user_query : option string)
    (session_id correlation_id : string) (async_tools : bool)
    (st : Locals) (fc : FuncCall) (entry : ToolEntry) (items : dict json) :
  streams_to self p user_query st ->
  func_call st = Some fc ->
  dict_get functions (func_name fc) = Some entry ->
  async_tools || negb (is_sync entry) = true ->
  json_loads (func_arguments st) = Some (JObject items) ->
  binds (parameters (function entry)) (without_aside items) = true ->
  let run := llm_text_response self json_loads (p :: rest) user_query
               session_id correlation_id async_tools in
  let final := _create_yield_response self (final_response st) "done" None in
  trace run =
    prologue user_query
    ++ trace (stream_loop self (chunks p) (stream_end p) initial_locals)
    ++ epilogue st
    ++ [CreateTask (function entry) (without_aside items); Yield final] /\
  stop run = Returned tt /\
  existsb is_await_tool (trace run) = false /\
  events run =
    events (stream_loop self (chunks p) (stream_end p) initial_locals)
    ++ [final] /\
  is_final final = true /\
  count_final (events run) = 1 /\
  (forall m ms,
      Re.findall (func_arguments st) = m :: ms -> answer final = RStr m).
Proof.
  intros Hs Hfc Hget Hmode Hjson Hbinds run final.
  assert (Hrun : run =
    (prologue user_query
     ++ trace (stream_loop self (chunks p) (stream_end p) initial_locals)
     ++ epilogue st
     ++ [CreateTask (function entry) (without_aside items); Yield final],
     Returned tt)).
  { unfold run.
    rewrite (llm_text_response_after_stream self json_loads p rest
               user_query session_id correlation_id async_tools st Hs).
    cbv zeta.
    rewrite (after_stream_fire_and_forget self json_loads p _ st session_id
               correlation_id async_tools fc entry items Hfc Hget Hmode Hjson
               Hbinds).
    reflexivity. }
  destruct (stream_loop_yields self (chunks p) (stream_end p) initial_locals)
    as (evs & Htr & Hin).
  assert (Hev : events run = evs ++ [final]).
  { rewrite Hrun. unfold events. cbn [trace fst].
    rewrite !events_of_app, events_of_prologue, events_of_epilogue, Htr,
      events_of_yields. reflexivity. }
  split; [rewrite Hrun; reflexivity |].
  split; [rewrite Hrun; reflexivity |].
  split.
  { rewrite Hrun. cbn [trace fst].
    rewrite !existsb_app, no_await_in_prologue, no_await_in_epilogue, Htr,
      no_await_in_yields. reflexivity. }
  split.
  { rewrite Hev. unfold events. rewrite Htr, events_of_yields. reflexivity. }
  split; [reflexivity |].
  split.
  { rewrite Hev. unfold count_final. rewrite filter_app, length_app.
    assert (Hnone : filter is_final evs = []).
    { clear - Hin. induction evs as [| e evs IH]; simpl in *; [reflexivity |].
      apply andb_prop in Hin as [He Hin]. unfold in_progress in He.
      destruct (is_final e); [discriminate | auto]. }
    rewrite Hnone. reflexivity. }
  intros m ms Hm. cbn [final answer _create_yield_response].
  destruct Hs as (_ & _ & _ & _ & Hloop & _).
  apply (final_response_aside st m ms); [| exact Hm].
  apply (aside_held_stream_loop self (chunks p) (stream_end p) initial_locals);
    [exact I | exact Hloop].
Qed.

Lemma fire_and_forget_final_is_immediate_witness :
  (streams_to demo_self full_plan_pass (Some "plan my month") full_plan_locals /\
   func_call full_plan_locals
   = Some {| id := "call_1"; func_name := "Prepare_Plan" |} /\
   dict_get functions "Prepare_Plan"
   = Some {| function := "prepare_plan"; is_sync := false |} /\
   Json.loads (func_arguments full_plan_locals)
   = Some (JObject full_plan_items) /\
   binds (parameters "prepare_plan") (without_aside full_plan_items) = true) /\
  map event_summary
    (events (llm_text_response demo_self Json.loads [full_plan_pass]
               (Some "plan my month") "sid-1" "corr-1" false))
  = [ (RStr "On it, building your plan.", true) ].
Proof.
  assert (Hs : streams_to demo_self full_plan_pass (Some "plan my month")
                 full_plan_locals)
    by (repeat split; intros; reflexivity).
  split; [repeat split; intros; reflexivity |].
  destruct (fire_and_forget_final_is_immediate demo_self Json.loads
              full_plan_pass [] (Some "plan my month") "sid-1" "corr-1" false
              full_plan_locals
              {| id := "call_1"; func_name := "Prepare_Plan" |}
              {| function := "prepare_plan"; is_sync := false |}
              full_plan_items
              Hs eq_refl eq_refl eq_refl eq_refl eq_refl)
    as (_ & _ & _ & Hev & _).
  rewrite Hev. reflexivity.
Defined.

(** The claim as the specification words it fails twice.  With two of the
    five parameters of [prepare_plan] that have no default, the call of the
    handler raises before any task is created and the turn ends with the
    fixed error text.  With every parameter given and a space before the
    colon of the aside, the task is created, the decoded arguments hold the
    aside, and the final answer is the empty text. *)
Lemma fire_and_forget_counterexample :
  dict_get functions "Prepare_Plan"
  = Some {| function := "prepare_plan"; is_sync := false |} /\
  (let run := llm_text_response demo_self Json.loads [plan_pass]
                (Some "plan my month") "sid-1" "corr-1" false in
   map event_summary (events run) = [ (RStr "Error Occurred", true) ] /\
   existsb is_create_task (trace run) = false) /\
  (let run := llm_text_response demo_self Json.loads [spaced_plan_pass]
                (Some "plan my month") "sid-1" "corr-1" false in
   Json.loads (join spaced_plan_pieces) = Some (JObject full_plan_items) /\
   dict_get full_plan_items "your_response"
   = Some (JString "On it, building your plan.") /\
   existsb is_create_task (trace run) = true /\
   map event_summary (events run) = [ (RStr EmptyString, true) ]).
Proof.
  split; [reflexivity |].
  split; [split; vm_compute; reflexivity |].
  repeat split; vm_compute; reflexivity.
Qed.

(** ** Synchronous tools and malformed arguments *)

Section SyncDispatch.

Variable self : LlmClient.
Variable json_loads : string -> option json.

Lemma no_final_in_progress (evs : list Event) :
  forallb in_progress evs = true -> filter is_final evs = [].
Proof.
  induction evs as [| e evs IH]; simpl; intros Hin; [reflexivity |].
  apply andb_prop in Hin as [He Hin]. unfold in_progress in He.
  destruct (is_final e); [discriminate | auto].
Qed.

Lemma count_final_last (evs : list Event) (e : Event) :
  forallb in_progress evs = true -> is_final e = true ->
  count_final (evs ++ [e]) = 1.
Proof.
  intros Hin He. unfold count_final.
  rewrite filter_app, length_app, (no_final_in_progress evs Hin).
  simpl. rewrite He. reflexivity.
Qed.

(** The synchronous branch with the callback flag off: the handler is
    awaited, its content is stored as a function message, and the final
    event is built from [response]. *)
Lemma after_stream_sync_no_callback (p : Pass) (continuation : Gen unit)
    (st : Locals) (session_id correlation_id : string)
    (fc : FuncCall) (entry : ToolEntry) (items : dict json)
    (tool_content : string) :
  func_call st = Some fc ->
  dict_get functions (func_name fc) = Some entry ->
  is_sync entry = true ->
  json_loads (func_arguments st) = Some (JObject items) ->
  tool p = inl (tool_content, false) ->
  store_function p = None ->
  try_except
    (after_stream self json_loads p continuation st session_id
       correlation_id false)
    (text_response_handler self)
  = ([ AwaitTool (function entry) (without_aside items);
       StoreFunctionMessage (func_name fc) tool_content;
       Yield (_create_yield_response self (final_response st) "done" None) ],
     Returned tt).
Proof.
  intros Hfc Hget Hsync Hjson Htool Hstore.
  unfold after_stream, _handle_function_call, tool_arguments.
  rewrite Hfc, Hget, (registry_function_truthy _ _ Hget), Hjson.
  rewrite bind_ret_l, Hsync, Htool, Hstore. reflexivity.
Qed.

(** Arguments that do not decode: [json.loads] raises, the handler
    re-raises, and the generic clause yields the fixed error text. *)
Lemma after_stream_malformed (p : Pass) (continuation : Gen unit)
    (st : Locals) (session_id correlation_id : string) (async_tools : bool)
    (fc : FuncCall) (entry : ToolEntry) :
  func_call st = Some fc ->
  dict_get functions (func_name fc) = Some entry ->
  json_loads (func_arguments st) = None ->
  try_except
    (after_stream self json_loads p continuation st session_id
       correlation_id async_tools)
    (text_response_handler self)
  = ([ Yield (_create_yield_response self (RStr "Error Occurred") "done"
                None) ],
     Returned tt).
Proof.
  intros Hfc Hget Hjson.
  unfold after_stream, _handle_function_call, tool_arguments.
  rewrite Hfc, Hget, (registry_function_truthy _ _ Hget), Hjson.
  reflexivity.
Qed.

End SyncDispatch.

(** C3, as the code has it.  When a registered synchronous tool is awaited
    and returns its content with the callback flag off, the turn ends with
    exactly one final event, yielded after the content has been stored as a
    function message; the answer of that event is the local [response] (the
    first text captured by the aside pattern when it matches the argument
    buffer, else the text buffer) and does not depend on the content the
    tool returned. *)
Theorem sync_tool_final_answer_is_response
    (self : LlmClient) (json_loads : string -> option json)
    (p : Pass) (rest : list Pass) (user_query : option string)
    (session_id correlation_id : string)
    (st : Locals) (fc : FuncCall) (entry : ToolEntry) (items : dict json)
    (tool_content : string) :
  streams_to self p user_query st ->
  func_call st = Some fc ->
  dict_get functions (func_name fc) = Some entry ->
  is_sync entry = true ->
  json_loads (func_arguments st) = Some (JObject items) ->
  tool p = inl (tool_content, false) ->
  store_function p = None ->
  let run := llm_text_response self json_loads (p :: rest) user_query
               session_id correlation_id false in
  let final := _create_yield_response self (final_response st) "done" None in
  trace run =
    prologue user_query
    ++ trace (stream_loop self (chunks p) (stream_end p) initial_locals)
    ++ epilogue st
    ++ [ AwaitTool (function entry) (without_aside items);
         StoreFunctionMessage (func_name fc) tool_content;
         Yield final ] /\
  stop run = Returned tt /\
  events run =
    events (stream_loop self (chunks p) (stream_end p) initial_locals)
    ++ [final] /\
  count_final (events run) = 1 /\
  answer final = final_response st /\
  (forall m ms,
      Re.findall (func_arguments st) = m :: ms -> answer final = RStr m).
Proof.
  intros Hs Hfc Hget Hsync Hjson Htool Hstore run final.
  assert (Hrun : run =
    (prologue user_query
     ++ trace (stream_loop self (chunks p) (stream_end p) initial_locals)
     ++ epilogue st
     ++ [ AwaitTool (function entry) (without_aside items);
          StoreFunctionMessage (func_name fc) tool_content;
          Yield final ],
     Returned tt)).
  { unfold run.
    rewrite (llm_text_response_after_stream self json_loads p rest
               user_query session_id correlation_id false st Hs).
    cbv zeta.
    rewrite (after_stream_sync_no_callback self json_loads p _ st session_id
               correlation_id fc entry items tool_content
               Hfc Hget Hsync Hjson Htool Hstore).
    reflexivity. }
  destruct (stream_loop_yields self (chunks p) (stream_end p) initial_locals)
    as (evs & Htr & Hin).
  assert (Hev : events run = evs ++ [final]).
  { rewrite Hrun. unfold events. cbn [trace fst].
    rewrite !events_of_app, events_of_prologue, events_of_epilogue, Htr,
      events_of_yields. reflexivity. }
  split; [rewrite Hrun; reflexivity |].
  split; [rewrite Hrun; reflexivity |].
  split.
  { rewrite Hev. unfold events. rewrite Htr, events_of_yields. reflexivity. }
  split; [rewrite Hev; apply count_final_last; [exact Hin | reflexivity] |].
  split; [reflexivity |].
  intros m ms Hm. cbn [final answer _create_yield_response].
  destruct Hs as (_ & _ & _ & _ & Hloop & _).
  apply (final_response_aside st m ms); [| exact Hm].
  apply (aside_held_stream_loop self (chunks p) (stream_end p) initial_locals);
    [exact I | exact Hloop].
Qed.

Lemma sync_tool_final_answer_is_response_witness :
  (streams_to demo_self scenario_b_pass (Some "find excel")
     scenario_b_locals /\
   dict_get functions "Find_content"
   = Some {| function := "find_content"; is_sync := true |} /\
   Json.loads (func_arguments scenario_b_locals)
   = Some (JObject [ ("search_word", JString "excel");
                     ("your_response", JString "Sure, let me look") ]) /\
   tool scenario_b_pass = inl ("Title: Excel basics", false) /\
   store_function scenario_b_pass = None) /\
  map event_summary
    (events (llm_text_response demo_self Json.loads [scenario_b_pass]
               (Some "find excel") "sid-1" "corr-1" false))
  = [ (RStr "Sure, let me look", true) ].
Proof.
  assert (Hs : streams_to demo_self scenario_b_pass (Some "find excel")
                 scenario_b_locals)
    by (repeat split; intros; reflexivity).
  split; [repeat split; intros; reflexivity |].
  destruct (sync_tool_final_answer_is_response demo_self Json.loads
              scenario_b_pass [] (Some "find excel") "sid-1" "corr-1"
              scenario_b_locals
              {| id := "call_1"; func_name := "Find_content" |}
              {| function := "find_content"; is_sync := true |}
              [ ("search_word", JString "excel");
                ("your_response", JString "Sure, let me look") ]
              "Title: Excel basics"
              Hs eq_refl eq_refl eq_refl eq_refl eq_refl eq_refl)
    as (_ & _ & Hev & _).
  rewrite Hev. reflexivity.
Defined.

(** C3 as stated fails on scenario B: the synchronous [Find_content]
    returns a non-empty content with the callback flag off, and the single
    final event carries the aside, not that content. *)
Lemma sync_tool_final_answer_counterexample :
  tool scenario_b_pass = inl ("Title: Excel basics", false) /\
  dict_get functions "Find_content"
  = Some {| function := "find_content"; is_sync := true |} /\
  map event_summary
    (events (llm_text_response demo_self Json.loads [scenario_b_pass]
               (Some "find excel") "sid-1" "corr-1" false))
  = [ (RStr "Sure, let me look", true) ] /\
  RStr "Sure, let me look" <> RStr "Title: Excel basics".
Proof.
  split; [reflexivity |]. split; [reflexivity |].
  split; [vm_compute; reflexivity |].
  intros H. inversion H.
Qed.

(** C5, as the code has it.  When the assembled call names a registered
    tool and its argument buffer does not decode, no tool is run and the
    decoding error reaches the generic clause of [llm_text_response]: the
    turn ends normally with exactly one final event, yielded after the
    events in progress, whose answer is the fixed error text. *)
Theorem malformed_arguments_end_in_error_event
    (self : LlmClient) (json_loads : string -> option json)
    (p : Pass) (rest : list Pass) (user_query : option string)
    (session_id correlation_id : string) (async_tools : bool)
    (st : Locals) (fc : FuncCall) (entry : ToolEntry) :
  streams_to self p user_query st ->
  func_call st = Some fc ->
  dict_get functions (func_name fc) = Some entry ->
  json_loads (func_arguments st) = None ->
  let run := llm_text_response self json_loads (p :: rest) user_query
               session_id correlation_id async_tools in
  let final := _create_yield_response self (RStr "Error Occurred") "done"
                 None in
  events run =
    events (stream_loop self (chunks p) (stream_end p) initial_locals)
    ++ [final] /\
  stop run = Returned tt /\
  count_final (events run) = 1 /\
  is_final final = true /\
  existsb is_await_tool (trace run) = false /\
  existsb is_create_task (trace run) = false.
Proof.
  intros Hs Hfc Hget Hjson run final.
  assert (Hrun : run =
    (prologue user_query
     ++ trace (stream_loop self (chunks p) (stream_end p) initial_locals)
     ++ epilogue st ++ [Yield final],
     Returned tt)).
  { unfold run.
    rewrite (llm_text_response_after_stream self json_loads p rest
               user_query session_id correlation_id async_tools st Hs).
    cbv zeta.
    rewrite (after_stream_malformed self json_loads p _ st session_id
               correlation_id async_tools fc entry Hfc Hget Hjson).
    reflexivity. }
  destruct (stream_loop_yields self (chunks p) (stream_end p) initial_locals)
    as (evs & Htr & Hin).
  assert (Hev : events run = evs ++ [final]).
  { rewrite Hrun. unfold events. cbn [trace fst].
    rewrite !events_of_app, events_of_prologue, events_of_epilogue, Htr,
      events_of_yields. reflexivity. }
  split.
  { rewrite Hev. unfold events. rewrite Htr, events_of_yields. reflexivity. }
  split; [rewrite Hrun; reflexivity |].
  split; [rewrite Hev; apply count_final_last; [exact Hin | reflexivity] |].
  split; [reflexivity |].
  split; rewrite Hrun; cbn [trace fst]; rewrite !existsb_app, Htr.
  - rewrite no_await_in_prologue, no_await_in_epilogue, no_await_in_yields.
    reflexivity.
  - rewrite no_task_in_prologue, no_task_in_epilogue, no_task_in_yields.
    reflexivity.
Qed.

Lemma malformed_arguments_end_in_error_event_witness :
  (streams_to demo_self malformed_pass (Some "find excel") malformed_locals /\
   dict_get functions "Find_content"
   = Some {| function := "find_content"; is_sync := true |} /\
   Json.loads (func_arguments malformed_locals) = None) /\
  map event_summary
    (events (llm_text_response demo_self Json.loads [malformed_pass]
               (Some "find excel") "sid-1" "corr-1" false))
  = [ (RStr "One moment.", false); (RStr "Error Occurred", true) ].
Proof.
  assert (Hs : streams_to demo_self malformed_pass (Some "find excel")
                 malformed_locals)
    by (repeat split; intros; reflexivity).
  split; [repeat split; intros; reflexivity |].
  destruct (malformed_arguments_end_in_error_event demo_self Json.loads
              malformed_pass [] (Some "find excel") "sid-1" "corr-1" false
              malformed_locals
              {| id := "call_1"; func_name := "Find_content" |}
              {| function := "find_content"; is_sync := true |}
              Hs eq_refl eq_refl eq_refl)
    as (Hev & _).
  rewrite Hev. reflexivity.
Defined.

(** C5 as stated fails on a call whose argument text stops short: the
    text buffer is not the answer of the final event, the fixed error text
    is. *)
Lemma malformed_arguments_counterexample :
  Json.loads (dquote "{'search_word': 'excel'") = None /\
  map event_summary
    (events (llm_text_response demo_self Json.loads [malformed_pass]
               (Some "find excel") "sid-1" "corr-1" false))
  = [ (RStr "One moment.", false); (RStr "Error Occurred", true) ] /\
  RStr "Error Occurred" <> RStr "One moment.".
Proof.
  split; [vm_compute; reflexivity |].
  split; [vm_compute; reflexivity |].
  intros H. inversion H.
Qed.

(** ** Content-filter rejection *)






(** ** Keepalive *)

Local Open Scope nat_scope.

Module KeepaliveFacts.

Import Keepalive.

Lemma schedule_shift (start n : nat) :
  map (fun i => start + interval * i) (seq 2 n) =
  map (fun i => start + interval + interval * i) (seq 1 n).
Proof.
  rewrite <- (seq_shift n 1), map_map.
  apply map_ext. intros i. unfold interval. lia.
Qed.

End KeepaliveFacts.

(** C8.  On a clock counting seconds, let the stop event be unset before
    time [T] and set from [T] on, and let the task start at [start] with
    enough rounds to reach [T].  The task puts one heartbeat on the queue at
    the end of each 5-second sleep that ends before [T], at the times
    [start + 5], ..., [start + 5 n], none at or after [T], and it ends at
    the first look at the event that falls at or after [T], which comes less
    than one interval after [T]. *)
Theorem keepalive_heartbeat_schedule
    (is_set : nat -> bool) (T : nat) (fuel start : nat) :
  (forall t, is_set t = true <-> T <= t) ->
  0 < fuel ->
  T + Keepalive.interval <= start + Keepalive.interval * fuel ->
  exists n,
    Keepalive.send_ping_pong_messages fuel is_set start =
    (map (fun i => start + Keepalive.interval * i) (seq 1 n),
     Some (if T <=? start then start
           else start + Keepalive.interval * S n)) /\
    (T <= start -> n = 0) /\
    (start < T ->
     start + Keepalive.interval * n < T /\
     T <= start + Keepalive.interval * S n /\
     start + Keepalive.interval * S n < T + Keepalive.interval).
Proof.
  intros Hset. revert start.
  induction fuel as [| k IH]; intros start Hpos Hfuel; [lia |].
  cbn [Keepalive.send_ping_pong_messages].
  destruct (is_set start) eqn:Hstart.
  - apply Hset in Hstart. exists 0.
    apply Nat.leb_le in Hstart as Hleb. rewrite Hleb.
    split; [reflexivity |]. split; [reflexivity | lia].
  - assert (Hlt : start < T).
    { destruct (Nat.lt_ge_cases start T) as [H | H]; [exact H |].
      apply Hset in H. congruence. }
    assert (Hleb : (T <=? start) = false) by (apply Nat.leb_gt; exact Hlt).
    rewrite Hleb.
    assert (Hk : 0 < k) by (unfold Keepalive.interval in *; lia).
    destruct (IH (start + Keepalive.interval) Hk) as (n' & Hrun & Hzero & Hin).
    { unfold Keepalive.interval in *. lia. }
    rewrite Hrun.
    destruct (is_set (start + Keepalive.interval)) eqn:Hnext.
    + apply Hset in Hnext. specialize (Hzero Hnext). subst n'.
      apply Nat.leb_le in Hnext as Hleb'. rewrite Hleb'.
      exists 0. cbn [seq map].
      split; [f_equal; f_equal; unfold Keepalive.interval; lia |].
      split; [lia |]. intros _. unfold Keepalive.interval in *. lia.
    + assert (Hlt' : start + Keepalive.interval < T).
      { destruct (Nat.lt_ge_cases (start + Keepalive.interval) T)
          as [H | H]; [exact H |].
        apply Hset in H. congruence. }
      assert (Hleb' : (T <=? start + Keepalive.interval) = false)
        by (apply Nat.leb_gt; exact Hlt').
      rewrite Hleb'. specialize (Hin Hlt').
      exists (S n'). split.
      * cbn [seq map]. rewrite KeepaliveFacts.schedule_shift.
        replace (start + Keepalive.interval * 1)
          with (start + Keepalive.interval)
          by (unfold Keepalive.interval; lia).
        replace (start + Keepalive.interval * S (S n'))
          with (start + Keepalive.interval + Keepalive.interval * S n')
          by (unfold Keepalive.interval; lia).
        reflexivity.
      * split; [lia |]. intros _. unfold Keepalive.interval in *. lia.
Qed.

Lemma keepalive_heartbeat_schedule_witness :
  ((forall t, (12 <=? t) = true <-> 12 <= t) /\
   0 < 4 /\
   12 + Keepalive.interval <= 0 + Keepalive.interval * 4) /\
  Keepalive.send_ping_pong_messages 4 (fun t => 12 <=? t) 0
  = ([5; 10], Some 15).
Proof.
  split.
  - split; [intros t; apply Nat.leb_le |].
    split; [lia | unfold Keepalive.interval; lia].
  - destruct (keepalive_heartbeat_schedule (fun t => 12 <=? t) 12 4 0
                (fun t => Nat.leb_le 12 t) (Nat.lt_0_succ 3))
      as (n & Hrun & _ & Hin).
    + unfold Keepalive.interval. lia.
    + assert (Hn : n = 2)
        by (unfold Keepalive.interval in Hin; lia).
      rewrite Hrun, Hn. reflexivity.
Defined.

(** * Further properties of the modelled code *)

Local Open Scope string_scope.
Local Open Scope list_scope.

(** ** The streaming loop and the plain text turn *)

Section LoopEvents.

Variable self : LlmClient.

Lemma stream_loop_loop_events (l : list Chunk) (stream_end : option exn)
    (st : Locals) :
  exists evs,
    trace (stream_loop self l stream_end st) = map Yield evs /\
    Forall loop_event evs.
Proof.
  revert st. induction l as [| c l IH]; intros st.
  - exists []. simpl. destruct stream_end; auto.
  - destruct c as [| [d |]]; cbn [stream_loop]; try apply IH.
    destruct (tool_step d st) as [st1 |]; [| exists []; auto].
    unfold content_step. destruct (content d) as [c |].
    + cbn [bind yield tell ret].
      match goal with |- context [stream_loop self l stream_end ?s] =>
        destruct (IH s) as (evs & Htr & Hall);
        destruct (stream_loop self l stream_end s) as [tr r] end.
      simpl in Htr. subst tr.
      eexists (_ :: evs). simpl. split; [reflexivity |].
      constructor; [| exact Hall]. repeat split.
    + rewrite bind_ret_l. apply IH.
Qed.

(** Text deltas alone: the buffer grows and each delta yields the buffer
    so far. *)
Lemma stream_loop_text_deltas (parts : list string) (buffer arguments : string) :
  stream_loop self (map text_delta parts) None
    {| func_call := None; func_arguments := arguments; response := RStr buffer |}
  = (map (fun t => Yield (_create_yield_response self (RStr t) "in-progress" None))
         (prefixes buffer parts),
     Returned {| func_call := None;
                 func_arguments := arguments;
                 response := RStr (buffer ++ join parts) |}).
Proof.
  revert buffer. induction parts as [| c parts IH]; intros buffer.
  - simpl. rewrite string_app_empty_r. reflexivity.
  - cbn [map text_delta stream_loop]. unfold tool_step. cbn [tool_calls].
    unfold content_step. cbn [content response_add response func_call
                              func_arguments bind yield tell ret].
    rewrite IH. cbn [prefixes join map app].
    rewrite string_app_assoc. reflexivity.
Qed.

End LoopEvents.

(** X1.  Whatever the stream delivers, the streaming loop of
    [llm_text_response] issues no external call and yields only events in
    progress: none of them is final or carries a message id. *)
Theorem streaming_loop_never_yields_final
    (self : LlmClient) (l : list Chunk) (stream_end : option exn)
    (st : Locals) :
  trace (stream_loop self l stream_end st)
  = map Yield (events (stream_loop self l stream_end st)) /\
  Forall (fun e => status e = "in-progress" /\ is_final e = false /\
                   message_id e = None)
         (events (stream_loop self l stream_end st)) /\
  count_final (events (stream_loop self l stream_end st)) = 0.
Proof.
  destruct (stream_loop_loop_events self l stream_end st) as (evs & Htr & Hall).
  unfold events. rewrite Htr, events_of_yields.
  split; [reflexivity |]. split; [exact Hall |].
  unfold count_final. clear Htr.
  induction Hall as [| e evs (_ & He & _) _ IH]; simpl; [reflexivity |].
  rewrite He. exact IH.
Qed.

(** X2.  A turn whose stream holds text deltas only, with every call
    succeeding: each delta yields an event in progress carrying the text
    accumulated so far, and the turn ends with one final event carrying the
    whole text and the id returned by [save_chat_message]. *)
Theorem text_only_turn_events
    (self : LlmClient) (json_loads : string -> option json)
    (p : Pass) (rest : list Pass) (parts : list string)
    (user_query : option string) (session_id correlation_id : string)
    (async_tools : bool) (mid : string) :
  chunks p = map text_delta parts ->
  stream_end p = None ->
  (str_truthy (or_empty user_query) = true -> store_user p = None) ->
  prepare_prompt p = None -> prompt_tokens p = None -> create p = None ->
  store_assistant p = None ->
  save_chat p = inl mid ->
  response_tokens p = None ->
  let run := llm_text_response self json_loads (p :: rest) user_query
               session_id correlation_id async_tools in
  events run =
    map (fun t => _create_yield_response self (RStr t) "in-progress" None)
        (prefixes EmptyString parts)
    ++ [_create_yield_response self (RStr (join parts)) "done" (Some mid)] /\
  stop run = Returned tt /\
  count_final (events run) = 1.
Proof.
  intros Hchunks Hend Hu Hp Ht Hc Ha Hsave Htok run.
  pose proof (stream_loop_text_deltas self parts EmptyString EmptyString)
    as Hloop.
  cbn [append] in Hloop.
  set (st := {| func_call := None; func_arguments := EmptyString;
                response := RStr (join parts) |}) in *.
  assert (Hs : streams_to self p user_query st).
  { unfold streams_to. rewrite Hchunks, Hend.
    unfold initial_locals. rewrite Hloop. repeat split; auto. }
  assert (Hfinal : final_response st = RStr (join parts)).
  { unfold final_response, st. cbn [response].
    destruct (response_truthy (RStr (join parts))); reflexivity. }
  assert (Hrun : run =
    (prologue user_query
     ++ trace (stream_loop self (chunks p) (stream_end p) initial_locals)
     ++ epilogue st
     ++ [ SaveChatMessage (RStr (join parts));
          Yield (_create_yield_response self (RStr (join parts)) "done"
                   (Some mid)) ],
     Returned tt)).
  { unfold run.
    rewrite (llm_text_response_after_stream self json_loads p rest
               user_query session_id correlation_id async_tools st Hs).
    cbv zeta. unfold after_stream. cbn [func_call st].
    rewrite Hfinal, Hsave, Htok. reflexivity. }
  assert (Hev : events run =
    map (fun t => _create_yield_response self (RStr t) "in-progress" None)
        (prefixes EmptyString parts)
    ++ [_create_yield_response self (RStr (join parts)) "done" (Some mid)]).
  { rewrite Hrun. unfold events. cbn [trace fst].
    rewrite Hchunks, Hend. unfold initial_locals. rewrite Hloop.
    rewrite !events_of_app, events_of_prologue, events_of_epilogue.
    cbn [trace fst].
    rewrite <- (map_map
                  (fun t => _create_yield_response self (RStr t) "in-progress"
                              None) Yield),
      events_of_yields.
    reflexivity. }
  split; [exact Hev |]. split; [rewrite Hrun; reflexivity |].
  rewrite Hev. apply count_final_last; [| reflexivity].
  clear. induction (prefixes EmptyString parts); simpl; auto.
Qed.

Lemma text_only_turn_events_witness :
  (chunks scenario_a_pass = map text_delta ["Hello"; " there"] /\
   stream_end scenario_a_pass = None /\
   store_user scenario_a_pass = None /\
   prepare_prompt scenario_a_pass = None /\
   prompt_tokens scenario_a_pass = None /\
   create scenario_a_pass = None /\
   store_assistant scenario_a_pass = None /\
   save_chat scenario_a_pass = inl "msg-1" /\
   response_tokens scenario_a_pass = None) /\
  map event_summary
    (events (llm_text_response demo_self Json.loads [scenario_a_pass]
               (Some "hi") "sid-1" "corr-1" false))
  = [ (RStr "Hello", false); (RStr "Hello there", false);
      (RStr "Hello there", true) ].
Proof.
  split; [repeat split; reflexivity |].
  destruct (text_only_turn_events demo_self Json.loads scenario_a_pass []
              ["Hello"; " there"] (Some "hi") "sid-1" "corr-1" false "msg-1"
              eq_refl eq_refl (fun _ => eq_refl) eq_refl eq_refl eq_refl
              eq_refl eq_refl eq_refl)
    as (Hev & _).
  rewrite Hev. reflexivity.
Defined.

(** ** Failure paths of the text turn *)

Section TextTurnFailures.

Variable self : LlmClient.
Variable json_loads : string -> option json.

(** The first [except] clause raises on a body it cannot read; on any
    other exception the clauses return. *)
Lemma text_response_handler_stop (e : exn) :
  stop (text_response_handler self e) =
  if unreadable e then Raised (PyError "AttributeError") else Returned tt.
Proof.
  destruct e as [status_code [body |] | cls]; simpl.
  - destruct (content_filter status_code body); reflexivity.
  - destruct (status_code =? 400)%Z; reflexivity.
  - reflexivity.
Qed.

(** Only that [AttributeError] leaves the generator. *)
Lemma llm_text_response_raises_attribute_error (passes : list Pass)
    (user_query : option string) (session_id correlation_id : string)
    (async_tools : bool) (e : exn) :
  stop (llm_text_response self json_loads passes user_query session_id
          correlation_id async_tools) = Raised e ->
  e = PyError "AttributeError".
Proof.
  destruct passes as [| p rest]; [discriminate |].
  cbn [llm_text_response].
  destruct (text_response_body self json_loads p _ user_query session_id
              correlation_id async_tools) as [tr [[] | e' | ]];
    simpl; try discriminate.
  pose proof (text_response_handler_stop e') as H.
  destruct (text_response_handler self e') as [tr' r]. simpl in *. subst r.
  destruct (unreadable e'); intros H; inversion H; reflexivity.
Qed.

(** *** Which exceptions reach the clauses *)

Lemma ror_ret {A : Type} (a : A) : raises_only_readable (ret a).
Proof. intros e H. discriminate. Qed.

Lemma ror_tell (a : Action) : raises_only_readable (tell a).
Proof. intros e H. discriminate. Qed.

Lemma ror_raise {A : Type} (cls : string) :
  raises_only_readable (@raise A (PyError cls)).
Proof. intros e H. inversion H. reflexivity. Qed.

Lemma ror_bind {A B : Type} (m : Gen A) (f : A -> Gen B) :
  raises_only_readable m -> (forall a, raises_only_readable (f a)) ->
  raises_only_readable (bind m f).
Proof.
  intros Hm Hf e. destruct m as [tr [a | e' | ]]; simpl.
  - specialize (Hf a). destruct (f a) as [tr' r]. exact (Hf e).
  - intros H. inversion H; subst e'. apply (Hm e). reflexivity.
  - discriminate.
Qed.

Lemma ror_outcome {A : Type} (outcome : option exn) (a : A) :
  readable outcome = true ->
  raises_only_readable
    (match outcome with Some e => raise e | None => ret a end).
Proof.
  intros H e. destruct outcome as [e' |]; simpl; [| discriminate].
  intros He. inversion He; subst e'. simpl in H.
  destruct (unreadable e); [discriminate | reflexivity].
Qed.

Lemma ror_call (a : Action) (outcome : option exn) :
  readable outcome = true -> raises_only_readable (call a outcome).
Proof.
  intros H. unfold call. apply ror_bind; [apply ror_tell |].
  intros _. apply ror_outcome. exact H.
Qed.

Lemma ror_logged (outcome : option exn) :
  readable outcome = true -> raises_only_readable (logged outcome).
Proof. intros H. unfold logged. apply ror_outcome. exact H. Qed.

Lemma ror_call_value {A : Type} (a : Action) (outcome : A + exn) :
  readable_value outcome = true ->
  raises_only_readable (call_value a outcome).
Proof.
  intros H. unfold call_value. apply ror_bind; [apply ror_tell |].
  intros _ e. destruct outcome as [v | e']; simpl; [discriminate |].
  intros He. inversion He; subst e'. simpl in H.
  destruct (unreadable e); [discriminate | reflexivity].
Qed.

Lemma ror_reraise {A : Type} (m : Gen A) :
  raises_only_readable m ->
  raises_only_readable (try_except m (fun e => raise e)).
Proof.
  intros Hm e. destruct m as [tr [a | e' | ]]; simpl; try discriminate.
  exact (Hm e).
Qed.

Lemma ror_stream_loop (l : list Chunk) (stream_end : option exn)
    (st : Locals) :
  readable stream_end = true ->
  raises_only_readable (stream_loop self l stream_end st).
Proof.
  intros H. revert st. induction l as [| c l IH]; intros st.
  - cbn [stream_loop]. apply ror_outcome. exact H.
  - destruct c as [| [d |]]; cbn [stream_loop]; try apply IH.
    destruct (tool_step d st) as [st1 |]; [| apply ror_ret].
    apply ror_bind; [| intros st2; apply IH].
    unfold content_step. destruct (content d) as [c |]; [| apply ror_ret].
    apply ror_bind; [apply ror_tell | intros _; apply ror_ret].
Qed.

Lemma ror_tool_arguments (func_arguments : string) :
  raises_only_readable (tool_arguments json_loads func_arguments).
Proof.
  unfold tool_arguments.
  destruct (json_loads func_arguments) as [[] |];
    first [apply ror_raise | apply ror_ret].
Qed.

Lemma ror_handle_function_call (p : Pass) (continuation : Gen unit)
    (fc : FuncCall) (func_arguments : string)
    (session_id correlation_id : string) (async_tools : bool)
    (response : Response) :
  readable_value (tool p) = true ->
  readable (store_function p) = true ->
  raises_only_readable continuation ->
  raises_only_readable
    (_handle_function_call self json_loads p continuation fc func_arguments
       session_id correlation_id async_tools response).
Proof.
  intros Htool Hstore Hcont. unfold _handle_function_call.
  apply ror_reraise.
  destruct (dict_get functions (func_name fc)) as [entry |];
    [| apply ror_raise].
  destruct (str_truthy (function entry)); [| apply ror_ret].
  apply ror_bind; [apply ror_tool_arguments |]. intros arguments.
  destruct (async_tools || negb (is_sync entry)).
  - apply ror_bind.
    + destruct (binds _ arguments); [apply ror_ret | apply ror_raise].
    + intros _. apply ror_bind; [apply ror_tell | intros _; apply ror_tell].
  - apply ror_bind; [apply ror_call_value; exact Htool |].
    intros [tool_response callback].
    apply ror_bind; [apply ror_call; exact Hstore |]. intros _.
    destruct callback; [exact Hcont | apply ror_tell].
Qed.

Lemma ror_text_response_body (p : Pass) (continuation : Gen unit)
    (user_query : option string) (session_id correlation_id : string)
    (async_tools : bool) :
  readable_pass p = true ->
  raises_only_readable continuation ->
  raises_only_readable
    (text_response_body self json_loads p continuation user_query
       session_id correlation_id async_tools).
Proof.
  unfold readable_pass. intros Hp Hcont.
  repeat (apply andb_prop in Hp as [Hp ?]).
  unfold text_response_body.
  apply ror_bind.
  { destruct (str_truthy (or_empty user_query));
      [apply ror_call; assumption | apply ror_ret]. }
  intros _. apply ror_bind; [apply ror_call; assumption |].
  intros _. apply ror_bind; [apply ror_logged; assumption |].
  intros _. apply ror_bind; [apply ror_call; assumption |].
  intros _. apply ror_bind; [apply ror_stream_loop; assumption |].
  intros st. apply ror_bind.
  { destruct (response_truthy (response st)); [| apply ror_ret].
    apply ror_bind; [apply ror_call; assumption | intros _; apply ror_ret]. }
  intros response.
  destruct (func_call st) as [fc |].
  - apply ror_handle_function_call; assumption.
  - apply ror_bind; [apply ror_call_value; assumption |].
    intros message_id. apply ror_bind; [apply ror_tell |].
    intros _. apply ror_logged. assumption.
Qed.

(** With readable errors only, no exception leaves the generator. *)
Lemma llm_text_response_readable (passes : list Pass)
    (user_query : option string) (session_id correlation_id : string)
    (async_tools : bool) (e : exn) :
  forallb readable_pass passes = true ->
  stop (llm_text_response self json_loads passes user_query session_id
          correlation_id async_tools) <> Raised e.
Proof.
  revert user_query async_tools e.
  induction passes as [| p rest IH]; intros user_query async_tools e Hp;
    [discriminate |].
  cbn [forallb] in Hp. apply andb_prop in Hp as [Hp Hrest].
  cbn [llm_text_response].
  assert (Hbody : raises_only_readable
            (text_response_body self json_loads p
               (llm_text_response self json_loads rest None session_id
                  correlation_id false)
               user_query session_id correlation_id async_tools)).
  { apply ror_text_response_body; [exact Hp |].
    intros e' He'. exfalso. exact (IH None false e' Hrest He'). }
  destruct (text_response_body self json_loads p _ user_query session_id
              correlation_id async_tools) as [tr [[] | e' | ]];
    simpl; try discriminate.
  pose proof (text_response_handler_stop e') as H.
  rewrite (Hbody e' eq_refl) in H.
  destruct (text_response_handler self e') as [tr' r]. simpl in *. subst r.
  discriminate.
Qed.

(** A nested run under the clauses of the enclosing turn. *)
Lemma nested_run_recovered (passes : list Pass)
    (user_query : option string) (session_id correlation_id : string)
    (async_tools : bool) :
  let nested := llm_text_response self json_loads passes user_query
                  session_id correlation_id async_tools in
  try_except nested (text_response_handler self)
  = (trace nested ++ recovery self nested, recovered nested).
Proof.
  intros nested.
  pose proof (llm_text_response_raises_attribute_error passes user_query
                session_id correlation_id async_tools) as Hraise.
  fold nested in Hraise. unfold recovery, recovered.
  destruct nested as [tr [[] | e | ]]; simpl in *;
    rewrite ?app_nil_r; try reflexivity.
  rewrite (Hraise e eq_refl). reflexivity.
Qed.

(** The synchronous branch with the callback flag on: the nested call
    takes over, under the clauses of the enclosing turn. *)
Lemma after_stream_sync_callback (p : Pass) (continuation : Gen unit)
    (st : Locals) (session_id correlation_id : string)
    (fc : FuncCall) (entry : ToolEntry) (items : dict json)
    (tool_content : string) :
  func_call st = Some fc ->
  dict_get functions (func_name fc) = Some entry ->
  is_sync entry = true ->
  json_loads (func_arguments st) = Some (JObject items) ->
  tool p = inl (tool_content, true) ->
  store_function p = None ->
  let k := try_except continuation (text_response_handler self) in
  try_except
    (after_stream self json_loads p continuation st session_id
       correlation_id false)
    (text_response_handler self)
  = ([ AwaitTool (function entry) (without_aside items);
       StoreFunctionMessage (func_name fc) tool_content ]
     ++ trace k,
     stop k).
Proof.
  intros Hfc Hget Hsync Hjson Htool Hstore k. subst k.
  unfold after_stream, _handle_function_call, tool_arguments.
  rewrite Hfc, Hget, (registry_function_truthy _ _ Hget), Hjson.
  rewrite bind_ret_l, Hsync, Htool, Hstore.
  unfold call_value, call, tell. cbn [bind ret orb].
  destruct continuation as [trc [[] | e | ]]; simpl; try reflexivity.
  destruct (text_response_handler self e) as [trh r].
  cbn [trace stop fst snd]. rewrite app_nil_r. reflexivity.
Qed.

(** The awaited tool raises: the generic clause answers. *)
Lemma after_stream_tool_raises (p : Pass) (continuation : Gen unit)
    (st : Locals) (session_id correlation_id : string)
    (fc : FuncCall) (entry : ToolEntry) (items : dict json) (cls : string) :
  func_call st = Some fc ->
  dict_get functions (func_name fc) = Some entry ->
  is_sync entry = true ->
  json_loads (func_arguments st) = Some (JObject items) ->
  tool p = inr (PyError cls) ->
  try_except
    (after_stream self json_loads p continuation st session_id
       correlation_id false)
    (text_response_handler self)
  = ([ AwaitTool (function entry) (without_aside items);
       Yield (_create_yield_response self (RStr "Error Occurred") "done"
                None) ],
     Returned tt).
Proof.
  intros Hfc Hget Hsync Hjson Htool.
  unfold after_stream, _handle_function_call, tool_arguments.
  rewrite Hfc, Hget, (registry_function_truthy _ _ Hget), Hjson.
  rewrite bind_ret_l, Hsync, Htool. reflexivity.
Qed.

End TextTurnFailures.

(** X3.  The only exception that [llm_text_response] lets escape is the
    [AttributeError] that its first [except] clause raises when it reads
    the code of an error body that is no mapping.  When no external call of
    the passes fails with a status-400 [BadRequestError] of such a body,
    whatever else the calls, the tool and the nested passes do, the
    generator returns, or stays suspended on a call that is not answered. *)
Theorem llm_text_response_raises_only_on_unreadable_body
    (self : LlmClient) (json_loads : string -> option json)
    (passes : list Pass) (user_query : option string)
    (session_id correlation_id : string) (async_tools : bool) :
  let run := llm_text_response self json_loads passes user_query session_id
               correlation_id async_tools in
  (forall e, stop run = Raised e -> e = PyError "AttributeError") /\
  (forallb readable_pass passes = true -> forall e, stop run <> Raised e).
Proof.
  intros run. split.
  - intros e. apply llm_text_response_raises_attribute_error.
  - intros Hp e. apply llm_text_response_readable. exact Hp.
Qed.

Lemma llm_text_response_raises_only_on_unreadable_body_witness :
  forallb readable_pass [scenario_c_first; too_long_pass] = true /\
  stop (llm_text_response demo_self Json.loads
          [scenario_c_first; too_long_pass] (Some "find excel") "sid-1"
          "corr-1" false)
  <> Raised (PyError "AttributeError").
Proof.
  split; [reflexivity |].
  apply (llm_text_response_raises_only_on_unreadable_body demo_self Json.loads
           [scenario_c_first; too_long_pass] (Some "find excel") "sid-1"
           "corr-1" false).
  reflexivity.
Defined.

(** X4.  A [BadRequestError] that is not a content-filter rejection, raised
    by the completion request or by the stream, never gives a final event:
    the turn ends after the events in progress it had already yielded.  It
    returns when the error has another status, or a mapping for body; it
    raises [AttributeError] when the status is 400 and the body is no
    mapping. *)
Theorem other_bad_request_yields_no_final
    (self : LlmClient) (json_loads : string -> option json)
    (p : Pass) (rest : list Pass) (user_query : option string)
    (session_id correlation_id : string) (async_tools : bool)
    (status_code : Z) (body : Body) :
  (str_truthy (or_empty user_query) = true -> store_user p = None) ->
  prepare_prompt p = None ->
  prompt_tokens p = None ->
  (forall m, body = Mapping m -> content_filter status_code m = false) ->
  create p = Some (BadRequestError status_code body) \/
  (create p = None /\
   stop (stream_loop self (chunks p) (stream_end p) initial_locals)
   = Raised (BadRequestError status_code body)) ->
  let run := llm_text_response self json_loads (p :: rest) user_query
               session_id correlation_id async_tools in
  events run = events_before_rejection self p /\
  stop run =
    (if unreadable (BadRequestError status_code body)
     then Raised (PyError "AttributeError") else Returned tt) /\
  count_final (events run) = 0.
Proof.
  intros Hu Hp Ht Hcf Hrej run.
  destruct (stream_loop_yields self (chunks p) (stream_end p) initial_locals)
    as (evs & Htr & Hin).
  assert (Hhandler :
    text_response_handler self (BadRequestError status_code body)
    = ([], if unreadable (BadRequestError status_code body)
           then Raised (PyError "AttributeError") else Returned tt)).
  { destruct body as [m |]; simpl.
    - rewrite (Hcf m eq_refl). reflexivity.
    - destruct (status_code =? 400)%Z; reflexivity. }
  assert (Hrun : run =
    (prologue user_query ++ map Yield (events_before_rejection self p),
     if unreadable (BadRequestError status_code body)
     then Raised (PyError "AttributeError") else Returned tt)).
  { unfold run, events_before_rejection, prologue.
    cbn [llm_text_response]. unfold text_response_body.
    rewrite Hp, Ht. unfold call, logged, tell. cbn [bind ret].
    destruct Hrej as [Hc | [Hc Hs]]; rewrite Hc.
    - destruct (str_truthy (or_empty user_query));
        [rewrite Hu by reflexivity |];
        cbn [bind ret raise try_except]; rewrite Hhandler; reflexivity.
    - unfold events. rewrite Htr, events_of_yields.
      destruct (stream_loop self (chunks p) (stream_end p) initial_locals)
        as [trl [stl | e | ]]; simpl in Hs; inversion Hs; subst e.
      simpl in Htr. subst trl.
      destruct (str_truthy (or_empty user_query));
        [rewrite Hu by reflexivity |];
        cbn [bind ret raise try_except]; rewrite Hhandler;
        cbn [ret app]; rewrite ?app_nil_r; reflexivity. }
  assert (Hbefore : forallb in_progress (events_before_rejection self p) = true).
  { unfold events_before_rejection. destruct (create p); [reflexivity |].
    unfold events. rewrite Htr, events_of_yields. exact Hin. }
  assert (Hev : events run = events_before_rejection self p).
  { rewrite Hrun. unfold events. cbn [trace fst].
    rewrite events_of_app, events_of_prologue, events_of_yields.
    reflexivity. }
  split; [exact Hev |]. split; [rewrite Hrun; reflexivity |].
  rewrite Hev. unfold count_final.
  rewrite (no_final_in_progress _ Hbefore). reflexivity.
Qed.

Lemma other_bad_request_yields_no_final_witness :
  (create too_long_pass = Some context_length_error /\
   create plain_text_pass = Some plain_text_error) /\
  llm_text_response demo_self Json.loads [too_long_pass]
    (Some "summarise all of this") "sid-1" "corr-1" false
  = ([StoreRedis "user" (RStr "summarise all of this");
      PreparePrompt; ChatCreate], Returned tt) /\
  events (llm_text_response demo_self Json.loads [plain_text_pass]
            (Some "summarise all of this") "sid-1" "corr-1" false) = [] /\
  stop (llm_text_response demo_self Json.loads [plain_text_pass]
          (Some "summarise all of this") "sid-1" "corr-1" false)
  = Raised (PyError "AttributeError").
Proof.
  split; [split; reflexivity |].
  split; [reflexivity |].
  destruct (other_bad_request_yields_no_final demo_self Json.loads
              plain_text_pass [] (Some "summarise all of this") "sid-1"
              "corr-1" false 400%Z NotMapping
              (fun _ => eq_refl) eq_refl eq_refl
              (fun m H => match H with end) (or_introl eq_refl))
    as (Hev & Hstop & _).
  split; [rewrite Hev; reflexivity | exact Hstop].
Defined.

(** ** Continuation and tool failure *)

(** X5.  When a registered synchronous tool returns with the callback flag
    on, its content is stored as a function message and the turn goes on
    with a nested [llm_text_response] on the next pass, called without a
    user query and without asynchronous tools.  The events of the turn are
    those of the first loop followed by those of the nested run; when the
    nested run returns or stays suspended, so does the turn; when the
    nested run raises, the generic clause of the turn adds one final event
    with the fixed error text and the turn returns. *)
Theorem callback_continues_with_nested_pass
    (self : LlmClient) (json_loads : string -> option json)
    (p : Pass) (rest : list Pass) (user_query : option string)
    (session_id correlation_id : string)
    (st : Locals) (fc : FuncCall) (entry : ToolEntry) (items : dict json)
    (tool_content : string) :
  streams_to self p user_query st ->
  func_call st = Some fc ->
  dict_get functions (func_name fc) = Some entry ->
  is_sync entry = true ->
  json_loads (func_arguments st) = Some (JObject items) ->
  tool p = inl (tool_content, true) ->
  store_function p = None ->
  let run := llm_text_response self json_loads (p :: rest) user_query
               session_id correlation_id false in
  let nested := llm_text_response self json_loads rest None session_id
                  correlation_id false in
  trace run =
    prologue user_query
    ++ trace (stream_loop self (chunks p) (stream_end p) initial_locals)
    ++ epilogue st
    ++ [ AwaitTool (function entry) (without_aside items);
         StoreFunctionMessage (func_name fc) tool_content ]
    ++ trace nested ++ recovery self nested /\
  events run =
    events (stream_loop self (chunks p) (stream_end p) initial_locals)
    ++ events nested ++ events_of (recovery self nested) /\
  stop run = recovered nested /\
  ((forall e, stop nested <> Raised e) ->
   events run =
     events (stream_loop self (chunks p) (stream_end p) initial_locals)
     ++ events nested /\
   stop run = stop nested).
Proof.
  intros Hs Hfc Hget Hsync Hjson Htool Hstore run nested.
  assert (Hrun : run =
    (prologue user_query
     ++ trace (stream_loop self (chunks p) (stream_end p) initial_locals)
     ++ epilogue st
     ++ [ AwaitTool (function entry) (without_aside items);
          StoreFunctionMessage (func_name fc) tool_content ]
     ++ trace nested ++ recovery self nested,
     recovered nested)).
  { unfold run.
    rewrite (llm_text_response_after_stream self json_loads p rest
               user_query session_id correlation_id false st Hs).
    cbv zeta.
    rewrite (after_stream_sync_callback self json_loads p _ st
               session_id correlation_id fc entry items tool_content
               Hfc Hget Hsync Hjson Htool Hstore).
    cbv zeta.
    rewrite (nested_run_recovered self json_loads rest None session_id
               correlation_id false).
    reflexivity. }
  assert (Hev : events run =
    events (stream_loop self (chunks p) (stream_end p) initial_locals)
    ++ events nested ++ events_of (recovery self nested)).
  { rewrite Hrun. unfold events. cbn [trace fst].
    rewrite !events_of_app, events_of_prologue, events_of_epilogue.
    reflexivity. }
  split; [rewrite Hrun; reflexivity |].
  split; [exact Hev |].
  split; [rewrite Hrun; reflexivity |].
  intros Hnested. rewrite Hev, Hrun. cbn [stop snd].
  unfold recovery, recovered.
  destruct (stop nested) as [[] | e | ] eqn:Hstop;
    cbn [events_of]; rewrite ?app_nil_r; try (split; reflexivity).
  exfalso. apply (Hnested e). reflexivity.
Qed.

Lemma callback_continues_with_nested_pass_witness :
  (streams_to demo_self scenario_c_first (Some "find excel")
     scenario_b_locals /\
   dict_get functions "Find_content"
   = Some {| function := "find_content"; is_sync := true |} /\
   Json.loads (func_arguments scenario_b_locals)
   = Some (JObject [ ("search_word", JString "excel");
                     ("your_response", JString "Sure, let me look") ]) /\
   tool scenario_c_first = inl ("Title: Excel basics", true) /\
   store_function scenario_c_first = None) /\
  map event_summary
    (events (llm_text_response demo_self Json.loads
               [scenario_c_first; scenario_c_second]
               (Some "find excel") "sid-1" "corr-1" false))
  = [ (RStr "I found Excel basics for you.", false);
      (RStr "I found Excel basics for you.", true) ] /\
  map event_summary
    (events (llm_text_response demo_self Json.loads
               [scenario_c_first; plain_text_pass]
               (Some "find excel") "sid-1" "corr-1" false))
  = [ (RStr "Error Occurred", true) ].
Proof.
  assert (Hs : streams_to demo_self scenario_c_first (Some "find excel")
                 scenario_b_locals)
    by (repeat split; intros; reflexivity).
  split; [repeat split; intros; reflexivity |].
  split.
  - destruct (callback_continues_with_nested_pass demo_self Json.loads
                scenario_c_first [scenario_c_second] (Some "find excel")
                "sid-1" "corr-1" scenario_b_locals
                {| id := "call_1"; func_name := "Find_content" |}
                {| function := "find_content"; is_sync := true |}
                [ ("search_word", JString "excel");
                  ("your_response", JString "Sure, let me look") ]
                "Title: Excel basics"
                Hs eq_refl eq_refl eq_refl eq_refl eq_refl eq_refl)
      as (_ & Hev & _).
    rewrite Hev. reflexivity.
  - destruct (callback_continues_with_nested_pass demo_self Json.loads
                scenario_c_first [plain_text_pass] (Some "find excel")
                "sid-1" "corr-1" scenario_b_locals
                {| id := "call_1"; func_name := "Find_content" |}
                {| function := "find_content"; is_sync := true |}
                [ ("search_word", JString "excel");
                  ("your_response", JString "Sure, let me look") ]
                "Title: Excel basics"
                Hs eq_refl eq_refl eq_refl eq_refl eq_refl eq_refl)
      as (_ & Hev & _).
    rewrite Hev. reflexivity.
Defined.

(** X6.  When a registered synchronous tool raises while it is awaited,
    nothing is stored for it and the turn ends normally with exactly one
    final event, whose answer is the fixed error text. *)
Theorem tool_failure_ends_in_error_event
    (self : LlmClient) (json_loads : string -> option json)
    (p : Pass) (rest : list Pass) (user_query : option string)
    (session_id correlation_id : string)
    (st : Locals) (fc : FuncCall) (entry : ToolEntry) (items : dict json)
    (cls : string) :
  streams_to self p user_query st ->
  func_call st = Some fc ->
  dict_get functions (func_name fc) = Some entry ->
  is_sync entry = true ->
  json_loads (func_arguments st) = Some (JObject items) ->
  tool p = inr (PyError cls) ->
  let run := llm_text_response self json_loads (p :: rest) user_query
               session_id correlation_id false in
  let final := _create_yield_response self (RStr "Error Occurred") "done"
                 None in
  trace run =
    prologue user_query
    ++ trace (stream_loop self (chunks p) (stream_end p) initial_locals)
    ++ epilogue st
    ++ [AwaitTool (function entry) (without_aside items); Yield final] /\
  events run =
    events (stream_loop self (chunks p) (stream_end p) initial_locals)
    ++ [final] /\
  stop run = Returned tt /\
  count_final (events run) = 1.
Proof.
  intros Hs Hfc Hget Hsync Hjson Htool run final.
  assert (Hrun : run =
    (prologue user_query
     ++ trace (stream_loop self (chunks p) (stream_end p) initial_locals)
     ++ epilogue st
     ++ [AwaitTool (function entry) (without_aside items); Yield final],
     Returned tt)).
  { unfold run.
    rewrite (llm_text_response_after_stream self json_loads p rest
               user_query session_id correlation_id false st Hs).
    cbv zeta.
    rewrite (after_stream_tool_raises self json_loads p _ st session_id
               correlation_id fc entry items cls Hfc Hget Hsync Hjson Htool).
    reflexivity. }
  destruct (stream_loop_yields self (chunks p) (stream_end p) initial_locals)
    as (evs & Htr & Hin).
  assert (Hev : events run = evs ++ [final]).
  { rewrite Hrun. unfold events. cbn [trace fst].
    rewrite !events_of_app, events_of_prologue, events_of_epilogue, Htr,
      events_of_yields. reflexivity. }
  split; [rewrite Hrun; reflexivity |].
  split.
  { rewrite Hev. unfold events. rewrite Htr, events_of_yields. reflexivity. }
  split; [rewrite Hrun; reflexivity |].
  rewrite Hev. apply count_final_last; [exact Hin | reflexivity].
Qed.

Lemma tool_failure_ends_in_error_event_witness :
  (streams_to demo_self failing_tool_pass (Some "find excel")
     scenario_b_locals /\
   dict_get functions "Find_content"
   = Some {| function := "find_content"; is_sync := true |} /\
   Json.loads (func_arguments scenario_b_locals)
   = Some (JObject [ ("search_word", JString "excel");
                     ("your_response", JString "Sure, let me look") ]) /\
   tool failing_tool_pass = inr (PyError "HTTPStatusError")) /\
  map event_summary
    (events (llm_text_response demo_self Json.loads [failing_tool_pass]
               (Some "find excel") "sid-1" "corr-1" false))
  = [ (RStr "Error Occurred", true) ].
Proof.
  assert (Hs : streams_to demo_self failing_tool_pass (Some "find excel")
                 scenario_b_locals)
    by (repeat split; intros; reflexivity).
  split; [repeat split; intros; reflexivity |].
  destruct (tool_failure_ends_in_error_event demo_self Json.loads
              failing_tool_pass [] (Some "find excel") "sid-1" "corr-1"
              scenario_b_locals
              {| id := "call_1"; func_name := "Find_content" |}
              {| function := "find_content"; is_sync := true |}
              [ ("search_word", JString "excel");
                ("your_response", JString "Sure, let me look") ]
              "HTTPStatusError"
              Hs eq_refl eq_refl eq_refl eq_refl eq_refl)
    as (_ & Hev & _).
  rewrite Hev. reflexivity.
Defined.

(** ** The arguments handed to a tool *)

Lemma dict_get_filter_other (items : dict json) (k : string) :
  String.eqb k "your_response" = false ->
  dict_get (without_aside items) k = dict_get items k.
Proof.
  intros Hk. unfold without_aside.
  induction items as [| [k' v] items IH]; [reflexivity |].
  cbn [filter fst dict_get].
  destruct (String.eqb k' "your_response") eqn:Hk'; cbn [negb dict_get].
  - apply String.eqb_eq in Hk'. subst k'.
    rewrite String.eqb_sym, Hk. exact IH.
  - destruct (String.eqb k' k); [reflexivity | exact IH].
Qed.

Lemma dict_get_filter_aside (items : dict json) :
  dict_get (without_aside items) "your_response" = None.
Proof.
  unfold without_aside.
  induction items as [| [k' v] items IH]; [reflexivity |].
  cbn [filter fst].
  destruct (String.eqb k' "your_response") eqn:Hk'; cbn [negb dict_get];
    [exact IH |].
  rewrite Hk'. exact IH.
Qed.

(** X7.  The arguments that [_handle_function_call] builds for a tool are
    the decoded object without the aside: the key [your_response] is never
    passed on, every other key keeps the value it had, and a document that
    does not decode to an object gives no arguments at all. *)
Theorem tool_arguments_drop_only_the_aside
    (json_loads : string -> option json) (func_arguments : string) :
  match json_loads func_arguments with
  | Some (JObject items) =>
      exists arguments,
        tool_arguments json_loads func_arguments = ret arguments /\
        dict_get arguments "your_response" = None /\
        forall k, String.eqb k "your_response" = false ->
                  dict_get arguments k = dict_get items k
  | _ => exists e, tool_arguments json_loads func_arguments = raise e
  end.
Proof.
  unfold tool_arguments.
  destruct (json_loads func_arguments) as [[| b | n | s | l | items] |];
    try (eexists; reflexivity).
  exists (without_aside items). split; [reflexivity |].
  split; [apply dict_get_filter_aside |].
  intros k Hk. apply dict_get_filter_other. exact Hk.
Qed.

(** ** The consumer and producer loops of the channel *)

Lemma event_generator_non_final (queue : list QueueItem) :
  forallb non_final queue = true -> event_generator queue = queue.
Proof.
  induction queue as [| q queue IH]; simpl; intros H; [reflexivity |].
  apply andb_prop in H as [Hq H].
  destruct q as [| e]; [now rewrite IH |].
  unfold non_final in Hq. simpl in Hq.
  destruct (is_final e); [discriminate | now rewrite IH].
Qed.

(** X8.  The consumer loop of [event_generator] forwards the queue up to
    and including the first message with [is_final]; heartbeats and
    messages in progress before it are forwarded in order, and nothing that
    was queued after it is ever forwarded. *)
Theorem event_generator_stops_at_first_final
    (pre post : list QueueItem) (e : Event) :
  forallb non_final pre = true ->
  is_final e = true ->
  event_generator (pre ++ Message e :: post) = pre ++ [Message e].
Proof.
  intros Hpre He.
  induction pre as [| q pre IH]; simpl.
  - rewrite He. reflexivity.
  - simpl in Hpre. apply andb_prop in Hpre as [Hq Hpre].
    destruct q as [| e']; [now rewrite IH |].
    unfold non_final in Hq. simpl in Hq.
    destruct (is_final e'); [discriminate | now rewrite IH].
Qed.

Lemma event_generator_stops_at_first_final_witness :
  (forallb non_final
     [PingPong;
      Message (_create_yield_response demo_self (RStr "Hel") "in-progress" None)]
   = true /\
   is_final (_create_yield_response demo_self (RStr "Hello") "done" None)
   = true) /\
  map summary
    (event_generator
       ([PingPong;
         Message (_create_yield_response demo_self (RStr "Hel") "in-progress"
                    None)]
        ++ Message (_create_yield_response demo_self (RStr "Hello") "done" None)
        :: [PingPong;
            Message (_create_yield_response demo_self (RStr "late") "done"
                       None)]))
  = [None; Some (RStr "Hel", false); Some (RStr "Hello", true)].
Proof.
  split; [split; reflexivity |].
  rewrite (event_generator_stops_at_first_final
             [PingPong;
              Message (_create_yield_response demo_self (RStr "Hel")
                         "in-progress" None)]
             [PingPong;
              Message (_create_yield_response demo_self (RStr "late") "done"
                         None)]
             (_create_yield_response demo_self (RStr "Hello") "done" None)
             eq_refl eq_refl).
  reflexivity.
Defined.

(** X9.  For any queue, what [event_generator] forwards is a prefix of the
    queue in which only the last item can be final: at most one final
    message reaches the client, and it closes the stream. *)
Theorem event_generator_prefix_single_final (queue : list QueueItem) :
  (exists rest, queue = event_generator queue ++ rest) /\
  forallb non_final (removelast (event_generator queue)) = true /\
  List.length (filter final_item (event_generator queue)) <= 1.
Proof.
  induction queue as [| q queue (( rest & Hrest) & Hlast & Hcount)].
  - simpl. split; [exists []; reflexivity | split; [reflexivity | lia]].
  - destruct q as [| e].
    + cbn [event_generator]. split; [| split].
      * exists rest. simpl. congruence.
      * destruct (event_generator queue) eqn:Hg; [reflexivity |].
        cbn [removelast forallb non_final final_item negb andb].
        exact Hlast.
      * simpl. exact Hcount.
    + cbn [event_generator]. destruct (is_final e) eqn:He.
      * split; [exists queue; reflexivity |].
        split; [reflexivity |]. simpl. rewrite He. simpl. lia.
      * split; [| split].
        -- exists rest. simpl. congruence.
        -- destruct (event_generator queue) eqn:Hg; [reflexivity |].
           cbn [removelast forallb]. unfold non_final at 1.
           cbn [final_item]. rewrite He. exact Hlast.
        -- simpl. rewrite He. exact Hcount.
Qed.




(** X11.  [_enqueue_chat_messages] does not stop by itself after a final
    event: as long as every poll finds the client connected and every turn
    returns, each round runs [llm_text_response] again on the same prompt
    and the queue receives the events of all the rounds, one after the
    other, each stamped with the session and correlation ids. *)
Theorem enqueue_chat_repeats_while_connected
    (self : LlmClient) (json_loads : string -> option json)
    (rounds : list Round) (prompt : option string)
    (correlationId session_id : string) :
  str_truthy (or_empty prompt) = true ->
  Forall (fun r =>
            is_disconnected r = false /\
            stop (llm_text_response self json_loads (passes r) prompt
                    session_id correlationId false) = Returned tt) rounds ->
  _enqueue_chat_messages self json_loads rounds prompt correlationId
    session_id =
  flat_map (fun r =>
              put_all session_id correlationId
                (llm_text_response self json_loads (passes r) prompt
                   session_id correlationId false)) rounds.
Proof.
  intros Hprompt Hall.
  induction Hall as [| r rounds (Hconn & Hstop) _ IH]; [reflexivity |].
  cbn [_enqueue_chat_messages flat_map].
  rewrite Hconn, Hprompt, Hstop, IH. reflexivity.
Qed.

Lemma enqueue_chat_repeats_while_connected_witness :
  (str_truthy (or_empty (Some "hi")) = true /\
   Forall (fun r =>
             is_disconnected r = false /\
             stop (llm_text_response demo_self Json.loads (passes r)
                     (Some "hi") "sid-1" "corr-1" false) = Returned tt)
     [ {| is_disconnected := false; passes := [scenario_a_pass] |};
       {| is_disconnected := false; passes := [scenario_a_pass] |} ]) /\
  map summary
    (_enqueue_chat_messages demo_self Json.loads
       [ {| is_disconnected := false; passes := [scenario_a_pass] |};
         {| is_disconnected := false; passes := [scenario_a_pass] |} ]
       (Some "hi") "corr-1" "sid-1")
  = [ Some (RStr "Hello", false); Some (RStr "Hello there", false);
      Some (RStr "Hello there", true);
      Some (RStr "Hello", false); Some (RStr "Hello there", false);
      Some (RStr "Hello there", true) ].
Proof.
  assert (Hall :
    Forall (fun r =>
              is_disconnected r = false /\
              stop (llm_text_response demo_self Json.loads (passes r)
                      (Some "hi") "sid-1" "corr-1" false) = Returned tt)
      [ {| is_disconnected := false; passes := [scenario_a_pass] |};
        {| is_disconnected := false; passes := [scenario_a_pass] |} ])
    by (repeat constructor).
  split; [split; [reflexivity | exact Hall] |].
  rewrite (enqueue_chat_repeats_while_connected demo_self Json.loads _
             (Some "hi") "corr-1" "sid-1" eq_refl Hall).
  reflexivity.
Defined.

(** ** More on the keepalive task *)

Local Open Scope nat_scope.

(** X12.  Whatever the history of the stop event, also one that is set and
    cleared again, every heartbeat of [send_ping_pong_messages] is put on
    the queue at the end of a sleep, a whole number of intervals after the
    start, and at a time at which the event is found unset. *)
Theorem keepalive_pushes_only_when_unset
    (fuel : nat) (is_set : nat -> bool) (start : nat) :
  Forall (fun t => is_set t = false /\
                   exists k, t = start + Keepalive.interval * S k)
         (fst (Keepalive.send_ping_pong_messages fuel is_set start)).
Proof.
  revert start. induction fuel as [| fuel IH]; intros start; [constructor |].
  cbn [Keepalive.send_ping_pong_messages].
  destruct (is_set start); [constructor |].
  specialize (IH (start + Keepalive.interval)).
  destruct (Keepalive.send_ping_pong_messages fuel is_set
              (start + Keepalive.interval)) as [pings ended].
  cbn [fst] in IH.
  assert (Hshift :
    Forall (fun t => is_set t = false /\
                     exists k, t = start + Keepalive.interval * S k) pings).
  { eapply Forall_impl; [| exact IH].
    intros t (Ht & k & Hk). split; [exact Ht |].
    exists (S k). unfold Keepalive.interval in *. lia. }
  destruct (is_set (start + Keepalive.interval)) eqn:Hnext; cbn [fst];
    [exact Hshift |].
  constructor; [| exact Hshift].
  split; [exact Hnext |]. exists 0. unfold Keepalive.interval. lia.
Qed.

(** X13.  While the stop event stays unset the task never ends: after any
    number of rounds it has put exactly one heartbeat per round on the
    queue, at the end of each sleep, and is still running. *)
Theorem keepalive_runs_while_unset
    (fuel : nat) (is_set : nat -> bool) (start : nat) :
  (forall t, is_set t = false) ->
  Keepalive.send_ping_pong_messages fuel is_set start =
  (map (fun i => start + Keepalive.interval * i) (seq 1 fuel), None).
Proof.
  intros Hunset. revert start.
  induction fuel as [| fuel IH]; intros start; [reflexivity |].
  cbn [Keepalive.send_ping_pong_messages].
  rewrite !Hunset, IH. cbn [seq map].
  rewrite KeepaliveFacts.schedule_shift.
  replace (start + Keepalive.interval * 1) with (start + Keepalive.interval)
    by (unfold Keepalive.interval; lia).
  reflexivity.
Qed.

Lemma keepalive_runs_while_unset_witness :
  (forall t : nat, (fun _ : nat => false) t = false) /\
  Keepalive.send_ping_pong_messages 3 (fun _ => false) 2
  = ([7; 12; 17], None).
Proof.
  split; [reflexivity |].
  rewrite (keepalive_runs_while_unset 3 (fun _ => false) 2
             (fun _ => eq_refl)).
  reflexivity.
Defined.

(** ** The aside pattern *)

Local Open Scope string_scope.
Local Open Scope list_scope.

Lemma span_not_dq_no_dq (s : string) : no_dq (fst (Re.span_not_dq s)) = true.
Proof.
  induction s as [| c r IH]; [reflexivity |].
  cbn [Re.span_not_dq]. destruct (Ascii.eqb c dq) eqn:Hc; [reflexivity |].
  destruct (Re.span_not_dq r) as [g t]. cbn [fst no_dq] in *.
  rewrite Hc, IH. reflexivity.
Qed.

Lemma match_here_group (s g rest : string) :
  Re.match_here s = Some (g, rest) -> g <> EmptyString /\ no_dq g = true.
Proof.
  unfold Re.match_here.
  destruct (strip_prefix Re.key s) as [s1 |]; [| discriminate].
  destruct (Re.skip_spaces s1) as [| c s2]; [discriminate |].
  destruct (Ascii.eqb c dq); [| discriminate].
  pose proof (span_not_dq_no_dq s2) as Hspan.
  destruct (Re.span_not_dq s2) as [[| g0 g'] [| c' s3]]; try discriminate.
  intros H. inversion H; subst. split; [discriminate | exact Hspan].
Qed.

(** X14.  Every text that the aside pattern captures from an argument
    buffer, complete or not, is non-empty and holds no double quote: the
    capture stops at the first double quote after the opening one, also
    when that quote is an escaped one inside the JSON string. *)
Theorem aside_captures_are_quote_free (func_arguments : string) :
  Forall (fun g => g <> EmptyString /\ no_dq g = true)
         (Re.findall func_arguments).
Proof.
  unfold Re.findall. generalize 0%nat as skip.
  induction func_arguments as [| c r IH]; intros skip; [constructor |].
  cbn [Re.findall_from]. destruct skip as [| k]; [| apply IH].
  destruct (Re.match_here (String c r)) as [[g rest] |] eqn:Hm; [| apply IH].
  constructor; [apply (match_here_group _ _ _ Hm) | apply IH].
Qed.

(** ** Message lists *)

Section MessageLists.

Import Messages.

Lemma mem_In (c : string) (cs : list string) : mem c cs = true <-> In c cs.
Proof.
  unfold mem. rewrite existsb_exists. split.
  - intros (x & Hx & Heq). apply String.eqb_eq in Heq. subst. exact Hx.
  - intros H. exists c. split; [exact H | apply String.eqb_refl].
Qed.

(** With both lists well formed, [not_among] is a filter. *)
Lemma not_among_filter (messages others : list Message)
    (cm co : list string) :
  contents messages = Some cm -> contents others = Some co ->
  not_among messages others = Some (filter (unshared co) messages).
Proof.
  intros Hm Ho. revert cm Hm.
  induction messages as [| m rest IH]; intros cm Hm; [reflexivity |].
  cbn [contents] in Hm. cbn [not_among filter]. unfold unshared at 1.
  destruct (dict_get m "content") as [c |]; [| discriminate].
  destruct (contents rest) as [cr |]; [| discriminate].
  rewrite Ho, (IH cr eq_refl).
  destruct (mem c co); reflexivity.
Qed.

Lemma contents_In (messages : list Message) (cs : list string) (m : Message) :
  contents messages = Some cs -> In m messages ->
  exists c, dict_get m "content" = Some c /\ In c cs.
Proof.
  revert cs. induction messages as [| m' rest IH]; intros cs Hc Hin;
    [contradiction |].
  cbn [contents] in Hc.
  destruct (dict_get m' "content") as [c' |] eqn:Hc'; [| discriminate].
  destruct (contents rest) as [cr |]; [| discriminate].
  inversion Hc; subst cs. destruct Hin as [-> | Hin].
  - exists c'. split; [exact Hc' | left; reflexivity].
  - destruct (IH cr eq_refl Hin) as (c & Hget & Hc''). exists c.
    split; [exact Hget | right; exact Hc''].
Qed.

End MessageLists.

(** X15.  When every message of both lists has a content,
    [remove_common_messages] returns the original list filtered to the
    messages whose content no stored message has, and the stored list
    filtered to the messages whose content no original message has: order
    and repetitions are those of each list, and a message is kept exactly
    when its content is missing on the other side. *)
Theorem remove_common_messages_keeps_the_unshared
    (original stored : list Messages.Message) (co cs : list string) :
  Messages.contents original = Some co ->
  Messages.contents stored = Some cs ->
  Messages.remove_common_messages original stored
  = Some (filter (Messages.unshared cs) original,
          filter (Messages.unshared co) stored) /\
  (forall others m,
      Messages.unshared others m = true <->
      exists c, dict_get m "content" = Some c /\ ~ In c others) /\
  (forall m, In m (filter (Messages.unshared cs) original) <->
             In m original /\
             exists c, dict_get m "content" = Some c /\ ~ In c cs) /\
  (forall m, In m (filter (Messages.unshared co) stored) <->
             In m stored /\
             exists c, dict_get m "content" = Some c /\ ~ In c co).
Proof.
  intros Ho Hs. unfold Messages.remove_common_messages.
  rewrite (not_among_filter original stored co cs Ho Hs),
    (not_among_filter stored original cs co Hs Ho).
  assert (Hkeep : forall others m,
      Messages.unshared others m = true <->
      exists c, dict_get m "content" = Some c /\ ~ In c others).
  { intros others m. unfold Messages.unshared. split.
    - destruct (dict_get m "content") as [c |]; [| discriminate].
      intros Hkeep. exists c. split; [reflexivity |]. intros Hc.
      apply mem_In in Hc. rewrite Hc in Hkeep. discriminate.
    - intros (c & Hget & Hnot). rewrite Hget.
      destruct (Messages.mem c others) eqn:Hm; [| reflexivity].
      apply mem_In in Hm. contradiction. }
  split; [reflexivity |]. split; [exact Hkeep |].
  split; intros m; rewrite filter_In, Hkeep; reflexivity.
Qed.

Lemma remove_common_messages_keeps_the_unshared_witness :
  (Messages.contents
     [Messages.message "user" "hi"; Messages.message "assistant" "hello";
      Messages.message "user" "hi"]
   = Some ["hi"; "hello"; "hi"] /\
   Messages.contents
     [Messages.message "assistant" "hello"; Messages.message "user" "old"]
   = Some ["hello"; "old"]) /\
  Messages.remove_common_messages
    [Messages.message "user" "hi"; Messages.message "assistant" "hello";
     Messages.message "user" "hi"]
    [Messages.message "assistant" "hello"; Messages.message "user" "old"]
  = Some ([Messages.message "user" "hi"; Messages.message "user" "hi"],
          [Messages.message "user" "old"]).
Proof.
  split; [split; reflexivity |].
  destruct (remove_common_messages_keeps_the_unshared
              [Messages.message "user" "hi";
               Messages.message "assistant" "hello";
               Messages.message "user" "hi"]
              [Messages.message "assistant" "hello";
               Messages.message "user" "old"]
              ["hi"; "hello"; "hi"] ["hello"; "old"] eq_refl eq_refl)
    as (Hrun & _).
  rewrite Hrun. reflexivity.
Defined.

(** X16.  When the two lists carry the same contents, in any order and
    with any repetition, [remove_common_messages] finds nothing to send and
    nothing to delete; in particular a list compared with itself. *)
Theorem remove_common_messages_same_contents
    (original stored : list Messages.Message) (co cs : list string) :
  Messages.contents original = Some co ->
  Messages.contents stored = Some cs ->
  (forall c, In c co <-> In c cs) ->
  Messages.remove_common_messages original stored = Some ([], []).
Proof.
  intros Ho Hs Hsame. unfold Messages.remove_common_messages.
  rewrite (not_among_filter original stored co cs Ho Hs),
    (not_among_filter stored original cs co Hs Ho).
  assert (Hnone : forall (l : list Messages.Message) (cl other : list string),
    Messages.contents l = Some cl -> (forall c, In c cl -> In c other) ->
    filter (Messages.unshared other) l = []).
  { intros l cl other Hl Hincl.
    assert (Hall : forall m, In m l -> Messages.unshared other m = false).
    { intros m Hin. unfold Messages.unshared.
      destruct (contents_In l cl m Hl Hin) as (c & Hget & Hc).
      rewrite Hget. apply Hincl, mem_In in Hc. rewrite Hc. reflexivity. }
    clear Hl. induction l as [| m l IH]; [reflexivity |].
    cbn [filter]. rewrite (Hall m (or_introl eq_refl)).
    apply IH. intros m' Hm'. apply Hall. right. exact Hm'. }
  rewrite (Hnone original co cs Ho (fun c => proj1 (Hsame c))),
    (Hnone stored cs co Hs (fun c => proj2 (Hsame c))).
  reflexivity.
Qed.

Lemma remove_common_messages_same_contents_witness :
  (Messages.contents
     [Messages.message "user" "hi"; Messages.message "assistant" "hello"]
   = Some ["hi"; "hello"] /\
   Messages.contents
     [Messages.message "assistant" "hello"; Messages.message "user" "hi";
      Messages.message "user" "hi"]
   = Some ["hello"; "hi"; "hi"] /\
   (forall c, In c ["hi"; "hello"] <-> In c ["hello"; "hi"; "hi"])) /\
  Messages.remove_common_messages
    [Messages.message "user" "hi"; Messages.message "assistant" "hello"]
    [Messages.message "assistant" "hello"; Messages.message "user" "hi";
     Messages.message "user" "hi"]
  = Some ([], []).
Proof.
  assert (Hsame : forall c, In c ["hi"; "hello"] <-> In c ["hello"; "hi"; "hi"])
    by (intros c; simpl; tauto).
  split; [split; [reflexivity | split; [reflexivity | exact Hsame]] |].
  apply (remove_common_messages_same_contents
           [Messages.message "user" "hi"; Messages.message "assistant" "hello"]
           [Messages.message "assistant" "hello"; Messages.message "user" "hi";
            Messages.message "user" "hi"]
           ["hi"; "hello"] ["hello"; "hi"; "hi"] eq_refl eq_refl Hsame).
Defined.

(** ** Transcripts *)

Section Transcripts.

Import Transcript.

Lemma collect_users (users : list Utterance) (tail : list (string * string))
    (user_messages : string) :
  forallb from_user users = true ->
  collect (map to_message users ++ tail) user_messages =
  collect tail (user_messages ++ join (map content users)).
Proof.
  revert user_messages.
  induction users as [| u users IH]; intros user_messages Hall.
  - simpl. rewrite string_app_empty_r. reflexivity.
  - simpl in Hall. apply andb_prop in Hall as [Hu Hall].
    unfold from_user in Hu. apply negb_true_iff in Hu.
    cbn [map app]. unfold to_message at 1. rewrite Hu.
    cbn [collect String.eqb Ascii.eqb Bool.eqb].
    rewrite (IH _ Hall). cbn [map join].
    rewrite string_app_assoc. reflexivity.
Qed.

Lemma forallb_rev {A : Type} (f : A -> bool) (l : list A) :
  forallb f (rev l) = forallb f l.
Proof.
  induction l as [| a l IH]; [reflexivity |].
  cbn [rev forallb]. rewrite forallb_app, IH. simpl.
  destruct (f a), (forallb f l); reflexivity.
Qed.

End Transcripts.

(** X17.  [extract_user_message_from_transcript] returns the contents of
    the utterances that follow the last utterance of the agent (all of them
    when the agent has not spoken), joined without separator and taken from
    the last one back to the first; it is empty when the agent spoke last. *)
Theorem extract_user_message_takes_trailing_utterances
    (before users : list Transcript.Utterance) :
  before = [] \/
  (exists earlier agent,
      before = earlier ++ [agent] /\ Transcript.role agent = "agent") ->
  forallb Transcript.from_user users = true ->
  Transcript.extract_user_message_from_transcript (before ++ users)
  = join (rev (map Transcript.content users)).
Proof.
  intros Hbefore Husers.
  unfold Transcript.extract_user_message_from_transcript.
  rewrite map_app, rev_app_distr, <- map_rev.
  rewrite collect_users by (rewrite forallb_rev; exact Husers).
  cbn [append]. rewrite map_rev.
  destruct Hbefore as [-> | (earlier & agent & -> & Hagent)].
  - reflexivity.
  - rewrite map_app, rev_app_distr. cbn [map rev app].
    unfold Transcript.to_message at 1. rewrite Hagent. reflexivity.
Qed.

Lemma extract_user_message_takes_trailing_utterances_witness :
  (([ {| Transcript.role := "user"; Transcript.content := "Hi." |};
      {| Transcript.role := "agent"; Transcript.content := "Hello!" |} ] = [] \/
    exists earlier agent,
      [ {| Transcript.role := "user"; Transcript.content := "Hi." |};
        {| Transcript.role := "agent"; Transcript.content := "Hello!" |} ]
      = earlier ++ [agent] /\ Transcript.role agent = "agent") /\
   forallb Transcript.from_user
     [ {| Transcript.role := "user"; Transcript.content := "I need " |};
       {| Transcript.role := "user"; Transcript.content := "a plan." |} ]
   = true) /\
  Transcript.extract_user_message_from_transcript
    ([ {| Transcript.role := "user"; Transcript.content := "Hi." |};
       {| Transcript.role := "agent"; Transcript.content := "Hello!" |} ]
     ++ [ {| Transcript.role := "user"; Transcript.content := "I need " |};
          {| Transcript.role := "user"; Transcript.content := "a plan." |} ])
  = "a plan.I need ".
Proof.
  assert (Hbefore :
    [ {| Transcript.role := "user"; Transcript.content := "Hi." |};
      {| Transcript.role := "agent"; Transcript.content := "Hello!" |} ] = [] \/
    exists earlier agent,
      [ {| Transcript.role := "user"; Transcript.content := "Hi." |};
        {| Transcript.role := "agent"; Transcript.content := "Hello!" |} ]
      = earlier ++ [agent] /\ Transcript.role agent = "agent").
  { right.
    exists [ {| Transcript.role := "user"; Transcript.content := "Hi." |} ],
           {| Transcript.role := "agent"; Transcript.content := "Hello!" |}.
    split; reflexivity. }
  split; [split; [exact Hbefore | reflexivity] |].
  rewrite (extract_user_message_takes_trailing_utterances _
             [ {| Transcript.role := "user"; Transcript.content := "I need " |};
               {| Transcript.role := "user"; Transcript.content := "a plan." |} ]
             Hbefore eq_refl).
  reflexivity.
Defined.

(** ** Paths into decoded JSON *)

Section Paths.

Import PathLookup.

Lemma get_value_by_path_null (path : list Step) :
  get_value_by_path JNull path = inl JNull.
Proof. destruct path; reflexivity. Qed.

Lemma matching_key_lower (items : dict json) (k1 k2 : string) :
  lower k1 = lower k2 -> matching_key items k1 = matching_key items k2.
Proof.
  intros H. induction items as [| [k v] items IH]; [reflexivity |].
  cbn [matching_key]. rewrite H, IH. reflexivity.
Qed.

End Paths.

(** X18.  Looking a path up in two legs gives what the whole path gives:
    [get_value_by_path] along [first ++ second] is the lookup of [second] in
    the value found along [first], the absent value of a leg that cannot be
    followed staying absent, and an error of the first leg being the error
    of the whole. *)
Theorem get_value_by_path_composes
    (data : json) (first second : list PathLookup.Step) :
  PathLookup.get_value_by_path data (first ++ second) =
  match PathLookup.get_value_by_path data first with
  | inl found => PathLookup.get_value_by_path found second
  | inr e => inr e
  end.
Proof.
  revert data. induction first as [| step first IH]; intros data;
    [reflexivity |].
  cbn [app PathLookup.get_value_by_path].
  destruct data as [| b | n | s | l | items];
    try (symmetry; apply get_value_by_path_null).
  - destruct step as [k | i];
      [symmetry; apply get_value_by_path_null |].
    destruct ((0 <=? i) && (i <? Z.of_nat (List.length l)))%Z;
      [apply IH | symmetry; apply get_value_by_path_null].
  - destruct step as [k | i]; [| reflexivity].
    destruct (PathLookup.matching_key items k) as [found |];
      [| symmetry; apply get_value_by_path_null].
    destruct (dict_get items found); [apply IH | reflexivity].
Qed.

(** X19.  Keys are matched without regard to case: two spellings of a key
    that agree once lowered select the same entry of an object, so the
    lookup of a path does not depend on the case in which its keys are
    written. *)
Theorem get_value_by_path_ignores_key_case
    (data : json) (k1 k2 : string) (rest : list PathLookup.Step) :
  PathLookup.lower k1 = PathLookup.lower k2 ->
  PathLookup.get_value_by_path data (PathLookup.Key k1 :: rest) =
  PathLookup.get_value_by_path data (PathLookup.Key k2 :: rest).
Proof.
  intros H. destruct data as [| b | n | s | l | items]; try reflexivity.
  cbn [PathLookup.get_value_by_path].
  rewrite (matching_key_lower items k1 k2 H). reflexivity.
Qed.

Lemma get_value_by_path_ignores_key_case_witness :
  PathLookup.lower "REFERENCE" = PathLookup.lower "reference" /\
  PathLookup.get_value_by_path PathLookup.search_item
    [PathLookup.Key "REFERENCE"; PathLookup.Key "title"]
  = inl (JString "Excel basics").
Proof.
  split; [reflexivity |].
  rewrite (get_value_by_path_ignores_key_case PathLookup.search_item
             "REFERENCE" "reference" [PathLookup.Key "title"] eq_refl).
  reflexivity.
Defined.

(** ** The begin message *)

Section BeginMessage.

Variable self : LlmClient.

(** The loop of the begin message only yields. *)
Lemma begin_stream_loop_yields (l : list Chunk) (stream_end : option exn)
    (response : string) :
  exists evs,
    trace (begin_stream_loop self l stream_end response) = map Yield evs /\
    forallb in_progress evs = true.
Proof.
  revert response. induction l as [| c l IH]; intros response.
  - exists []. simpl. destruct stream_end; auto.
  - destruct c as [| [d |]]; cbn [begin_stream_loop];
      try (exists []; split; reflexivity).
    destruct (content d) as [c |]; [| apply IH].
    cbn [bind yield tell ret].
    destruct (IH (response ++ c)%string) as (evs & Htr & Hin).
    destruct (begin_stream_loop self l stream_end (response ++ c)%string)
      as [tr r].
    simpl in Htr. subst tr.
    eexists (_ :: evs). simpl. split; [reflexivity | exact Hin].
Qed.

(** The first half yields events in progress only. *)
Lemma begin_message_first_half_events (p : Pass) :
  forallb in_progress (events (begin_message_first_half self p)) = true.
Proof.
  unfold begin_message_first_half, call, call_value, logged, tell.
  destruct (begin_stream_loop_yields (chunks p) (stream_end p) EmptyString)
    as (evs & Htr & Hin).
  destruct (begin_stream_loop self (chunks p) (stream_end p) EmptyString)
    as [trl rl].
  simpl in Htr. subst trl.
  assert (Hevs : forall tail, events_of tail = [] ->
            forallb in_progress
              (events_of (PreparePrompt :: ChatCreate :: map Yield evs ++ tail))
            = true).
  { intros tail Htail. cbn [events_of].
    rewrite events_of_app, events_of_yields, Htail, app_nil_r. exact Hin. }
  destruct (prepare_prompt p), (prompt_tokens p), (create p);
    try reflexivity.
  destruct rl as [response | e | ]; unfold events; cbn [bind ret raise trace fst app];
    try (rewrite <- (app_nil_r (map Yield evs)); apply Hevs; reflexivity).
  destruct (save_chat p); cbn [bind ret raise trace fst app];
    apply Hevs; reflexivity.
Qed.

End BeginMessage.

(** X20.  In [llm_text_begin_message], any failure that an [except]
    clause would answer and that strikes before [save_chat_message] has
    returned (prompt assembly, token count, completion request, stream, an
    empty [choices] list, the message store itself) ends the generator with
    an unbound-local error: the events already yielded are all in progress
    and no final event follows. *)
Theorem begin_message_early_failure_raises
    (self : LlmClient) (p : Pass) (e : exn) :
  stop (begin_message_first_half self p) = Raised e ->
  answered e = true ->
  stop (llm_text_begin_message self p) = Raised (PyError "UnboundLocalError") /\
  events (llm_text_begin_message self p)
  = events (begin_message_first_half self p) /\
  count_final (events (llm_text_begin_message self p)) = 0.
Proof.
  intros Hstop Hans.
  pose proof (begin_message_first_half_events self p) as Hin.
  assert (Hrun : llm_text_begin_message self p =
                 (trace (begin_message_first_half self p),
                  Raised (PyError "UnboundLocalError"))).
  { unfold llm_text_begin_message.
    change (call PreparePrompt (prepare_prompt p);;;
            logged (prompt_tokens p);;;
            call ChatCreate (create p);;;
            (response <- begin_stream_loop self (chunks p) (stream_end p)
                           EmptyString;;
             message_id <- call_value (SaveChatMessage (RStr response))
                             (save_chat p);;
             ret (response, message_id)))%gen
      with (begin_message_first_half self p).
    destruct (begin_message_first_half self p) as [tr [v | e' | ]];
      simpl in Hstop; inversion Hstop; subst e'.
    unfold try_then, begin_message_handler.
    destruct e as [status_code [body |] | cls]; cbn [answered] in Hans.
    - rewrite Hans. cbn [read_local bind raise trace fst].
      rewrite app_nil_r. reflexivity.
    - discriminate.
    - cbn [read_local bind raise trace fst]. rewrite app_nil_r. reflexivity. }
  rewrite Hrun. split; [reflexivity |]. split; [reflexivity |].
  unfold events at 1. cbn [trace fst]. unfold count_final.
  fold (events (begin_message_first_half self p)).
  rewrite (no_final_in_progress _ Hin). reflexivity.
Qed.

Lemma begin_message_early_failure_raises_witness :
  (stop (begin_message_first_half demo_self empty_choices_pass)
   = Raised (PyError "IndexError") /\
   answered (PyError "IndexError") = true) /\
  (stop (llm_text_begin_message demo_self empty_choices_pass)
   = Raised (PyError "UnboundLocalError") /\
   count_final (events (llm_text_begin_message demo_self empty_choices_pass))
   = 0).
Proof.
  split; [split; reflexivity |].
  destruct (begin_message_early_failure_raises demo_self empty_choices_pass
              (PyError "IndexError") eq_refl eq_refl) as (Hstop & _ & Hcount).
  split; [exact Hstop | exact Hcount].
Defined.

(** X21.  In [llm_text_begin_message] the final event is yielded before the
    token count and the Redis write; when the stream and the message store
    succeed and one of these two raises, the generic clause yields a second
    final event carrying the error text and the same message id. *)
Theorem begin_message_late_failure_yields_second_final
    (self : LlmClient) (p : Pass) (response mid cls : string) :
  stop (begin_message_first_half self p) = Returned (response, mid) ->
  response_tokens p = Some (PyError cls) \/
  (response_tokens p = None /\ store_assistant p = Some (PyError cls)) ->
  events (llm_text_begin_message self p) =
    events (begin_message_first_half self p)
    ++ [ _create_yield_response self (RStr response) "done" (Some mid);
         _create_yield_response self (RStr "Error Occurred") "done"
           (Some mid) ] /\
  stop (llm_text_begin_message self p) = Returned tt /\
  count_final (events (llm_text_begin_message self p)) = 2.
Proof.
  intros Hstop Hlate.
  pose proof (begin_message_first_half_events self p) as Hin.
  assert (Hrun : exists tail,
    llm_text_begin_message self p =
    (trace (begin_message_first_half self p)
     ++ Yield (_create_yield_response self (RStr response) "done" (Some mid))
     :: tail
     ++ [Yield (_create_yield_response self (RStr "Error Occurred") "done"
                  (Some mid))],
     Returned tt) /\ events_of tail = []).
  { unfold llm_text_begin_message.
    change (call PreparePrompt (prepare_prompt p);;;
            logged (prompt_tokens p);;;
            call ChatCreate (create p);;;
            (response <- begin_stream_loop self (chunks p) (stream_end p)
                           EmptyString;;
             message_id <- call_value (SaveChatMessage (RStr response))
                             (save_chat p);;
             ret (response, message_id)))%gen
      with (begin_message_first_half self p).
    destruct (begin_message_first_half self p) as [tr [[r m] | e' | ]];
      simpl in Hstop; inversion Hstop; subst r m.
    unfold try_then, logged, call, tell.
    destruct Hlate as [Htok | [Htok Hstore]]; rewrite Htok.
    - exists []. split; reflexivity.
    - rewrite Hstore. eexists [_]. split; reflexivity. }
  destruct Hrun as (tail & Hrun & Htail).
  assert (Hev : events (llm_text_begin_message self p) =
    events (begin_message_first_half self p)
    ++ [ _create_yield_response self (RStr response) "done" (Some mid);
         _create_yield_response self (RStr "Error Occurred") "done"
           (Some mid) ]).
  { rewrite Hrun. unfold events. cbn [trace fst].
    rewrite events_of_app. cbn [events_of].
    rewrite events_of_app, Htail. reflexivity. }
  split; [exact Hev |]. split; [rewrite Hrun; reflexivity |].
  rewrite Hev. unfold count_final.
  rewrite filter_app, length_app, (no_final_in_progress _ Hin).
  reflexivity.
Qed.

Lemma begin_message_late_failure_yields_second_final_witness :
  (stop (begin_message_first_half demo_self redis_down_pass)
   = Returned ("Good morning", "msg-1") /\
   response_tokens redis_down_pass = None /\
   store_assistant redis_down_pass = Some (PyError "ConnectionError")) /\
  map event_summary (events (llm_text_begin_message demo_self redis_down_pass))
  = [ (RStr "Good morning", false); (RStr "Good morning", true);
      (RStr "Error Occurred", true) ].
Proof.
  split; [repeat split; reflexivity |].
  destruct (begin_message_late_failure_yields_second_final demo_self
              redis_down_pass "Good morning" "msg-1" "ConnectionError"
              eq_refl (or_intror (conj eq_refl eq_refl)))
    as (Hev & _).
  rewrite Hev. reflexivity.
Defined.

(** ** The chat history in Redis *)

Section RedisFacts.

Lemma dict_get_set_same {V : Type} (d : dict V) (k : string) (v : V) :
  dict_get (dict_set d k v) k = Some v.
Proof.
  induction d as [| [k' v'] d IH]; cbn [dict_set dict_get].
  - rewrite String.eqb_refl. reflexivity.
  - destruct (String.eqb k' k) eqn:Hk; cbn [dict_get]; rewrite Hk;
      [reflexivity | exact IH].
Qed.

Lemma dict_get_set_other {V : Type} (d : dict V) (k k' : string) (v : V) :
  k' <> k -> dict_get (dict_set d k v) k' = dict_get d k'.
Proof.
  intros Hne. induction d as [| [k0 v0] d IH]; cbn [dict_set dict_get].
  - destruct (String.eqb k k') eqn:Hk; [| reflexivity].
    apply String.eqb_eq in Hk. congruence.
  - destruct (String.eqb k0 k) eqn:Hk; cbn [dict_get].
    + apply String.eqb_eq in Hk. subst k0.
      destruct (String.eqb k k') eqn:Hk'; [| reflexivity].
      apply String.eqb_eq in Hk'. congruence.
    + destruct (String.eqb k0 k'); [reflexivity | exact IH].
Qed.

Variable dumps : json -> string.
Variable loads : string -> option json.
Variable number_truthy : string -> bool.

Lemma get_after_write (store : Redis.Store) (key data : string) (time : N) :
  Redis.get
    (if (time =? 0)%N then Redis.set store key data
     else Redis.expire (Redis.set store key data) key time) key
  = Some data.
Proof.
  unfold Redis.get, Redis.expire, Redis.set.
  destruct (time =? 0)%N; rewrite ?dict_get_set_same; reflexivity.
Qed.

Lemma other_key_after_write (store : Redis.Store) (key key' data : string)
    (time : N) :
  key' <> key ->
  dict_get
    (if (time =? 0)%N then Redis.set store key data
     else Redis.expire (Redis.set store key data) key time) key'
  = dict_get store key'.
Proof.
  intros Hne. unfold Redis.expire, Redis.set.
  destruct (time =? 0)%N; rewrite ?dict_get_set_same;
    rewrite ?dict_get_set_other by exact Hne; reflexivity.
Qed.

(** What [store_chat] writes when the key holds a list or nothing truthy. *)
Lemma store_chat_writes (store : Redis.Store) (messages : list json)
    (conversation_id : string) (expire_time : N) (previous : json) :
  Redis.retrieve_chat loads store conversation_id = inl previous ->
  Redis.truthy number_truthy previous = false \/
  (exists l, previous = JArray l) ->
  Redis.store_chat dumps loads number_truthy store messages conversation_id
    expire_time =
  inl (let store' :=
         Redis.set store conversation_id
           (dumps (JArray (Redis.history previous ++ messages))) in
       if (expire_time =? 0)%N then store'
       else Redis.expire store' conversation_id expire_time).
Proof.
  intros Hprev Hshape. unfold Redis.store_chat. rewrite Hprev.
  destruct Hshape as [Hfalsy | (l & ->)].
  - rewrite Hfalsy.
    assert (Hh : Redis.history previous = []).
    { destruct previous as [| b | n | s | [| x l] | items];
        try reflexivity. discriminate. }
    rewrite Hh. reflexivity.
  - cbn [Redis.truthy Redis.history]. destruct l; reflexivity.
Qed.

Lemma retrieve_after_write (store : Redis.Store) (key : string)
    (expire_time : N) (v : json) :
  Redis.round_trips dumps loads v ->
  Redis.retrieve_chat loads
    (if (expire_time =? 0)%N then Redis.set store key (dumps v)
     else Redis.expire (Redis.set store key (dumps v)) key expire_time) key
  = inl v.
Proof.
  intros (Htext & Hback). unfold Redis.retrieve_chat.
  rewrite get_after_write, Htext, Hback. reflexivity.
Qed.

End RedisFacts.

(** X22.  Storing messages and reading the history back: when the key of
    the conversation holds a list (or nothing, or an empty value) and the
    extended list survives the trip through its JSON text, [store_chat]
    succeeds and [retrieve_chat] then returns the former history followed
    by the new messages, in order; a time to live other than zero is set
    anew on the key. *)
Theorem store_chat_appends_to_history
    (dumps : json -> string) (loads : string -> option json)
    (number_truthy : string -> bool)
    (store : Redis.Store) (messages : list json) (conversation_id : string)
    (expire_time : N) (previous : json) :
  Redis.retrieve_chat loads store conversation_id = inl previous ->
  Redis.truthy number_truthy previous = false \/
  (exists l, previous = JArray l) ->
  Redis.round_trips dumps loads
    (JArray (Redis.history previous ++ messages)) ->
  exists store',
    Redis.store_chat dumps loads number_truthy store messages
      conversation_id expire_time = inl store' /\
    Redis.retrieve_chat loads store' conversation_id
    = inl (JArray (Redis.history previous ++ messages)) /\
    (expire_time <> 0%N ->
     exists entry, dict_get store' conversation_id = Some entry /\
                   Redis.ttl entry = Some expire_time).
Proof.
  intros Hprev Hshape Htrip.
  eexists. split;
    [apply (store_chat_writes dumps loads number_truthy store messages
              conversation_id expire_time previous Hprev Hshape) |].
  cbv zeta. split; [apply retrieve_after_write; exact Htrip |].
  intros Hne. apply N.eqb_neq in Hne. rewrite Hne.
  unfold Redis.expire, Redis.set. rewrite dict_get_set_same.
  eexists. split; [apply dict_get_set_same | reflexivity].
Qed.

Lemma store_chat_appends_to_history_witness :
  (Redis.retrieve_chat Json.loads Redis.sample_store "conv-1"
   = inl (JArray [Redis.chat_message "user" "hi"]) /\
   (exists l, JArray [Redis.chat_message "user" "hi"] = JArray l) /\
   Redis.round_trips JsonText.dumps Json.loads
     (JArray (Redis.history (JArray [Redis.chat_message "user" "hi"])
              ++ [Redis.chat_message "assistant" "hello"]))) /\
  exists store',
    Redis.store_chat JsonText.dumps Json.loads (fun _ => true)
      Redis.sample_store [Redis.chat_message "assistant" "hello"] "conv-1"
      Redis.twelve_hours = inl store' /\
    Redis.retrieve_chat Json.loads store' "conv-1"
    = inl (JArray (Redis.history (JArray [Redis.chat_message "user" "hi"])
                   ++ [Redis.chat_message "assistant" "hello"])) /\
    (Redis.twelve_hours <> 0%N ->
     exists entry, dict_get store' "conv-1" = Some entry /\
                   Redis.ttl entry = Some Redis.twelve_hours).
Proof.
  assert (Htrip :
    Redis.round_trips JsonText.dumps Json.loads
      (JArray (Redis.history (JArray [Redis.chat_message "user" "hi"])
               ++ [Redis.chat_message "assistant" "hello"])))
    by (split; vm_compute; reflexivity).
  split.
  - split; [vm_compute; reflexivity |].
    split; [eexists; reflexivity | exact Htrip].
  - apply (store_chat_appends_to_history JsonText.dumps Json.loads
             (fun _ => true) Redis.sample_store
             [Redis.chat_message "assistant" "hello"] "conv-1"
             Redis.twelve_hours (JArray [Redis.chat_message "user" "hi"])).
    + vm_compute. reflexivity.
    + right. eexists. reflexivity.
    + exact Htrip.
Defined.

(** X23.  [store_chat] touches the key of its conversation only: whenever
    it succeeds, every other key of the store keeps its value and its time
    to live. *)
Theorem store_chat_leaves_other_keys
    (dumps : json -> string) (loads : string -> option json)
    (number_truthy : string -> bool)
    (store store' : Redis.Store) (messages : list json)
    (conversation_id key : string) (expire_time : N) :
  Redis.store_chat dumps loads number_truthy store messages conversation_id
    expire_time = inl store' ->
  key <> conversation_id ->
  dict_get store' key = dict_get store key.
Proof.
  unfold Redis.store_chat. intros Hrun Hne.
  destruct (Redis.retrieve_chat loads store conversation_id)
    as [chat_data | e]; [| discriminate].
  destruct (if Redis.truthy number_truthy chat_data
            then match chat_data with
                 | JArray l => inl (JArray (l ++ messages))
                 | _ => inr (PyError "AttributeError")
                 end
            else inl (JArray messages)) as [chat_data' | e];
    [| discriminate].
  cbv zeta in Hrun. inversion Hrun; subst store'.
  apply other_key_after_write. exact Hne.
Qed.

Lemma store_chat_leaves_other_keys_witness :
  (exists store',
      Redis.store_chat JsonText.dumps Json.loads (fun _ => true)
        Redis.sample_store [Redis.chat_message "assistant" "hello"] "conv-1"
        Redis.twelve_hours = inl store' /\
      dict_get store' "session_data_sid-1"
      = dict_get Redis.sample_store "session_data_sid-1") /\
  "session_data_sid-1" <> "conv-1".
Proof.
  assert (Hne : "session_data_sid-1" <> "conv-1") by discriminate.
  split; [| exact Hne].
  eexists. split; [vm_compute; reflexivity |].
  apply (store_chat_leaves_other_keys JsonText.dumps Json.loads
           (fun _ => true) Redis.sample_store _
           [Redis.chat_message "assistant" "hello"] "conv-1"
           "session_data_sid-1" Redis.twelve_hours);
    [vm_compute; reflexivity | exact Hne].
Defined.

(** X24.  Two successive [store_chat] on a conversation leave the history
    that one [store_chat] of the two message lists together leaves: the
    former history, then the first messages, then the second. *)
Theorem store_chat_twice_appends_both
    (dumps : json -> string) (loads : string -> option json)
    (number_truthy : string -> bool)
    (store : Redis.Store) (first second : list json)
    (conversation_id : string) (expire_time : N) (previous : json) :
  Redis.retrieve_chat loads store conversation_id = inl previous ->
  Redis.truthy number_truthy previous = false \/
  (exists l, previous = JArray l) ->
  Redis.round_trips dumps loads (JArray (Redis.history previous ++ first)) ->
  Redis.round_trips dumps loads
    (JArray (Redis.history previous ++ first ++ second)) ->
  exists store1 store2 store12,
    Redis.store_chat dumps loads number_truthy store first conversation_id
      expire_time = inl store1 /\
    Redis.store_chat dumps loads number_truthy store1 second conversation_id
      expire_time = inl store2 /\
    Redis.store_chat dumps loads number_truthy store (first ++ second)
      conversation_id expire_time = inl store12 /\
    Redis.retrieve_chat loads store2 conversation_id
    = inl (JArray (Redis.history previous ++ first ++ second)) /\
    Redis.retrieve_chat loads store12 conversation_id
    = Redis.retrieve_chat loads store2 conversation_id.
Proof.
  intros Hprev Hshape Htrip1 Htrip2.
  pose proof (store_chat_writes dumps loads number_truthy store first
                conversation_id expire_time previous Hprev Hshape) as Hrun1.
  cbv zeta in Hrun1.
  pose proof (retrieve_after_write dumps loads store conversation_id
                expire_time _ Htrip1) as Hread1.
  pose proof (store_chat_writes dumps loads number_truthy _ second
                conversation_id expire_time _ Hread1
                (or_intror (ex_intro _ _ eq_refl))) as Hrun2.
  cbv zeta in Hrun2. cbn [Redis.history] in Hrun2.
  rewrite <- app_assoc in Hrun2.
  pose proof (store_chat_writes dumps loads number_truthy store
                (first ++ second) conversation_id expire_time previous
                Hprev Hshape) as Hrun12.
  cbv zeta in Hrun12.
  eexists. eexists. eexists.
  split; [exact Hrun1 |]. split; [exact Hrun2 |]. split; [exact Hrun12 |].
  rewrite !(retrieve_after_write dumps loads _ conversation_id expire_time
              _ Htrip2).
  split; reflexivity.
Qed.

Lemma store_chat_twice_appends_both_witness :
  (Redis.retrieve_chat Json.loads Redis.sample_store "conv-2"
   = inl (JObject []) /\
   Redis.truthy (fun _ => true) (JObject []) = false /\
   Redis.round_trips JsonText.dumps Json.loads
     (JArray (Redis.history (JObject [])
              ++ [Redis.chat_message "user" "hi"])) /\
   Redis.round_trips JsonText.dumps Json.loads
     (JArray (Redis.history (JObject [])
              ++ [Redis.chat_message "user" "hi"]
              ++ [Redis.chat_message "assistant" "hello"]))) /\
  exists store1 store2 store12,
    Redis.store_chat JsonText.dumps Json.loads (fun _ => true)
      Redis.sample_store [Redis.chat_message "user" "hi"] "conv-2"
      Redis.twelve_hours = inl store1 /\
    Redis.store_chat JsonText.dumps Json.loads (fun _ => true) store1
      [Redis.chat_message "assistant" "hello"] "conv-2" Redis.twelve_hours
    = inl store2 /\
    Redis.store_chat JsonText.dumps Json.loads (fun _ => true)
      Redis.sample_store
      ([Redis.chat_message "user" "hi"]
       ++ [Redis.chat_message "assistant" "hello"]) "conv-2"
      Redis.twelve_hours = inl store12 /\
    Redis.retrieve_chat Json.loads store2 "conv-2"
    = inl (JArray (Redis.history (JObject [])
                   ++ [Redis.chat_message "user" "hi"]
                   ++ [Redis.chat_message "assistant" "hello"])) /\
    Redis.retrieve_chat Json.loads store12 "conv-2"
    = Redis.retrieve_chat Json.loads store2 "conv-2".
Proof.
  assert (Htrip1 :
    Redis.round_trips JsonText.dumps Json.loads
      (JArray (Redis.history (JObject [])
               ++ [Redis.chat_message "user" "hi"])))
    by (split; vm_compute; reflexivity).
  assert (Htrip2 :
    Redis.round_trips JsonText.dumps Json.loads
      (JArray (Redis.history (JObject [])
               ++ [Redis.chat_message "user" "hi"]
               ++ [Redis.chat_message "assistant" "hello"])))
    by (split; vm_compute; reflexivity).
  split.
  - split; [vm_compute; reflexivity |].
    split; [reflexivity |]. split; [exact Htrip1 | exact Htrip2].
  - apply (store_chat_twice_appends_both JsonText.dumps Json.loads
             (fun _ => true) Redis.sample_store
             [Redis.chat_message "user" "hi"]
             [Redis.chat_message "assistant" "hello"] "conv-2"
             Redis.twelve_hours (JObject [])).
    + vm_compute. reflexivity.
    + left. reflexivity.
    + exact Htrip1.
    + exact Htrip2.
Defined.

(** ** Structured answers: the retry loop and the fenced document *)

Lemma strip_prefix_sound (p s r : string) :
  strip_prefix p s = Some r -> s = (p ++ r)%string.
Proof.
  revert s. induction p as [| a p IH]; intros s H.
  - cbn in H. injection H as ->. reflexivity.
  - destruct s as [| b s]; cbn in H; [discriminate |].
    destruct (Ascii.eqb a b) eqn:E; [| discriminate].
    apply Ascii.eqb_eq in E. subst b.
    cbn. f_equal. apply IH. exact H.
Qed.

Lemma strip_prefix_extend (p s r t : string) :
  strip_prefix p s = Some r ->
  strip_prefix p (s ++ t)%string = Some (r ++ t)%string.
Proof.
  revert s. induction p as [| a p IH]; intros s H.
  - cbn in H. injection H as ->. reflexivity.
  - destruct s as [| b s]; cbn in H; [discriminate |].
    cbn. destruct (Ascii.eqb a b); [| discriminate].
    apply IH. exact H.
Qed.

Lemma find_sound (needle hay before after : string) :
  Parsers.find needle hay = Some (before, after) ->
  hay = (before ++ needle ++ after)%string.
Proof.
  revert before after.
  induction hay as [| c r IH]; intros before after H.
  - cbn in H. destruct (strip_prefix needle EmptyString) as [x |] eqn:E;
      [| discriminate].
    injection H as <- <-. cbn. apply strip_prefix_sound. exact E.
  - cbn [Parsers.find] in H.
    destruct (strip_prefix needle (String c r)) as [x |] eqn:E.
    + injection H as <- <-. cbn. apply strip_prefix_sound. exact E.
    + destruct (Parsers.find needle r) as [[b a] |] eqn:F; [| discriminate].
      injection H as <- <-. cbn. f_equal. apply IH. reflexivity.
Qed.

Lemma find_first (needle hay before after : string) :
  needle <> EmptyString ->
  Parsers.find needle hay = Some (before, after) ->
  Parsers.find needle before = None.
Proof.
  intros Hne. revert before after.
  assert (Hempty : Parsers.find needle EmptyString = None).
  { destruct needle; [contradiction Hne; reflexivity | reflexivity]. }
  induction hay as [| c r IH]; intros before after H.
  - rewrite Hempty in H. discriminate.
  - cbn [Parsers.find] in H.
    destruct (strip_prefix needle (String c r)) as [x |] eqn:E.
    + injection H as <- <-. exact Hempty.
    + destruct (Parsers.find needle r) as [[b a] |] eqn:F; [| discriminate].
      injection H as <- <-.
      cbn [Parsers.find].
      destruct (strip_prefix needle (String c b)) as [y |] eqn:E'.
      * apply find_sound in F. subst r.
        apply (strip_prefix_extend _ _ _ (needle ++ a)%string) in E'.
        cbn in E'. cbn in E. rewrite E' in E. discriminate.
      * rewrite (IH _ _ eq_refl). reflexivity.
Qed.

(** X25. The structured-answer helpers ([coach_prompt_suggestion] and its
    siblings) return the document of the first request, among at most
    four, whose answer holds a fenced json block that decodes, and ask the
    model service no further: when the requests before request [i] all
    fail (the service raised, no fenced block, or a block that does not
    decode) and request [i] succeeds, the result is its document after
    exactly [i + 1] requests. *)
Theorem retry_returns_first_parsed_answer
    (json_loads : string -> option json) (answers : nat -> string + exn)
    (i : nat) (parsed_content : json) :
  (i < 4)%nat ->
  (forall j, (j < i)%nat ->
     exists e, Parsers.attempt json_loads (answers j) = inr e) ->
  Parsers.attempt json_loads (answers i) = inl parsed_content ->
  Parsers.coach_prompt_suggestion json_loads answers
  = (inl parsed_content, S i).
Proof.
  intros Hi Hfail Hok.
  unfold Parsers.coach_prompt_suggestion. cbn [Nat.add seq].
  assert (Hstep : forall j rest, (j < i)%nat ->
            Parsers.retry json_loads answers (j :: rest)
            = (let '(r, calls) := Parsers.retry json_loads answers rest in
               (r, S calls))).
  { intros j rest Hj. cbn [Parsers.retry].
    destruct (Hfail j Hj) as [e ->].
    replace (j =? 3)%nat with false; [reflexivity |].
    symmetry. apply Nat.eqb_neq. lia. }
  assert (Hhit : forall rest,
            Parsers.retry json_loads answers (i :: rest)
            = (inl parsed_content, 1%nat)).
  { intros rest. cbn [Parsers.retry]. rewrite Hok. reflexivity. }
  destruct i as [| [| [| [| i]]]]; [| | | | lia].
  - rewrite Hhit. reflexivity.
  - rewrite Hstep by lia. rewrite Hhit. reflexivity.
  - rewrite !Hstep by lia. rewrite Hhit. reflexivity.
  - rewrite !Hstep by lia. rewrite Hhit. reflexivity.
Qed.

Lemma retry_returns_first_parsed_answer_witness :
  Parsers.coach_prompt_suggestion Json.loads Parsers.flaky_answers
  = (inl (JObject [("tone", JString "warm")]), 3%nat).
Proof.
  apply (retry_returns_first_parsed_answer Json.loads Parsers.flaky_answers
           2 (JObject [("tone", JString "warm")])).
  - lia.
  - intros j Hj. exists (PyError "APITimeoutError").
    destruct j as [| [| j]]; [reflexivity | reflexivity | lia].
  - vm_compute. reflexivity.
Defined.

(** X26. When all four requests fail, the helper raises the exception of
    the fourth one, after exactly four requests: the first three failures
    are only printed. *)
Theorem retry_raises_the_fourth_failure
    (json_loads : string -> option json) (answers : nat -> string + exn)
    (last : exn) :
  (forall j, (j < 3)%nat ->
     exists e, Parsers.attempt json_loads (answers j) = inr e) ->
  Parsers.attempt json_loads (answers 3%nat) = inr last ->
  Parsers.coach_prompt_suggestion json_loads answers = (inr last, 4%nat).
Proof.
  intros Hfail Hlast.
  unfold Parsers.coach_prompt_suggestion. cbn [Nat.add seq].
  cbn [Parsers.retry].
  destruct (Hfail 0%nat ltac:(lia)) as [e0 ->].
  destruct (Hfail 1%nat ltac:(lia)) as [e1 ->].
  destruct (Hfail 2%nat ltac:(lia)) as [e2 ->].
  rewrite Hlast. reflexivity.
Qed.

Lemma retry_raises_the_fourth_failure_witness :
  Parsers.coach_prompt_suggestion Json.loads Parsers.prose_answers
  = (inr (PyError "RateLimitError"), 4%nat).
Proof.
  apply (retry_raises_the_fourth_failure Json.loads Parsers.prose_answers
           (PyError "RateLimitError")).
  - intros j Hj. exists (PyError "IndexError").
    destruct j as [| [| [| j]]];
      [reflexivity | reflexivity | reflexivity | lia].
  - reflexivity.
Defined.

(** X27. The text handed to the decoder is what stands between the first
    fence tagged json and the next fence after it: the answer splits
    around it, no tagged fence starts in the text before it, and it holds
    no fence itself. *)
Theorem fenced_json_is_between_fences (content body : string) :
  Parsers.fenced_json content = Some body ->
  exists before rest,
    content
    = (before ++ (Parsers.fence ++ "json") ++ body ++ Parsers.fence ++ rest)%string
    /\ Parsers.find (Parsers.fence ++ "json")%string before = None
    /\ Parsers.find Parsers.fence body = None.
Proof.
  unfold Parsers.fenced_json. intros H.
  destruct (Parsers.find (Parsers.fence ++ "json")%string content)
    as [[before after] |] eqn:Fo; [| discriminate].
  destruct (Parsers.find Parsers.fence after) as [[b rest] |] eqn:Fc;
    [| discriminate].
  injection H as ->.
  exists before, rest. split; [| split].
  - apply find_sound in Fo. apply find_sound in Fc. subst after.
    exact Fo.
  - apply (find_first (Parsers.fence ++ "json")%string content before after);
      [discriminate | exact Fo].
  - apply (find_first Parsers.fence after body rest);
      [discriminate | exact Fc].
Qed.

Lemma fenced_json_is_between_fences_witness :
  Parsers.fenced_json "Two: ```json{}``` and ```json[]``` done" = Some "{}"
  /\ exists before rest,
       "Two: ```json{}``` and ```json[]``` done"
       = (before ++ (Parsers.fence ++ "json") ++ "{}" ++ Parsers.fence ++ rest)%string
       /\ Parsers.find (Parsers.fence ++ "json")%string before = None
       /\ Parsers.find Parsers.fence "{}" = None.
Proof.
  split.
  - reflexivity.
  - exact (fenced_json_is_between_fences
             "Two: ```json{}``` and ```json[]``` done" "{}" eq_refl).
Defined.

(** ** Fire-and-forget dispatch with arguments that do not bind *)

Section UnboundArguments.

Variable self : LlmClient.
Variable json_loads : string -> option json.

(** The call of the handler raises before any task exists, and the generic
    clause answers. *)
Lemma after_stream_unbound (p : Pass) (continuation : Gen unit)
    (st : Locals) (session_id correlation_id : string) (async_tools : bool)
    (fc : FuncCall) (entry : ToolEntry) (items : dict json) :
  func_call st = Some fc ->
  dict_get functions (func_name fc) = Some entry ->
  async_tools || negb (is_sync entry) = true ->
  json_loads (func_arguments st) = Some (JObject items) ->
  binds (parameters (function entry)) (without_aside items) = false ->
  try_except
    (after_stream self json_loads p continuation st session_id
       correlation_id async_tools)
    (text_response_handler self)
  = ([ Yield (_create_yield_response self (RStr "Error Occurred") "done"
                None) ],
     Returned tt).
Proof.
  intros Hfc Hget Hmode Hjson Hbinds.
  unfold after_stream, _handle_function_call, tool_arguments.
  rewrite Hfc, Hget, (registry_function_truthy _ _ Hget), Hjson.
  rewrite bind_ret_l, Hmode.
  unfold without_aside in Hbinds. rewrite Hbinds. reflexivity.
Qed.

End UnboundArguments.

(** X28.  When a registered tool is dispatched fire-and-forget and the
    decoded arguments minus the aside do not bind to the parameters of its
    handler (a parameter without default is missing, a key names no
    parameter, or a key repeats [session_id] or [correlation_id]), no task
    is created and nothing is awaited: the turn ends normally with exactly
    one final event, whose answer is the fixed error text. *)
Theorem unbound_arguments_end_in_error_event
    (self : LlmClient) (json_loads : string -> option json)
    (p : Pass) (rest : list Pass) (user_query : option string)
    (session_id correlation_id : string) (async_tools : bool)
    (st : Locals) (fc : FuncCall) (entry : ToolEntry) (items : dict json) :
  streams_to self p user_query st ->
  func_call st = Some fc ->
  dict_get functions (func_name fc) = Some entry ->
  async_tools || negb (is_sync entry) = true ->
  json_loads (func_arguments st) = Some (JObject items) ->
  binds (parameters (function entry)) (without_aside items) = false ->
  let run := llm_text_response self json_loads (p :: rest) user_query
               session_id correlation_id async_tools in
  let final := _create_yield_response self (RStr "Error Occurred") "done"
                 None in
  trace run =
    prologue user_query
    ++ trace (stream_loop self (chunks p) (stream_end p) initial_locals)
    ++ epilogue st ++ [Yield final] /\
  existsb is_create_task (trace run) = false /\
  existsb is_await_tool (trace run) = false /\
  events run =
    events (stream_loop self (chunks p) (stream_end p) initial_locals)
    ++ [final] /\
  stop run = Returned tt /\
  count_final (events run) = 1.
Proof.
  intros Hs Hfc Hget Hmode Hjson Hbinds run final.
  assert (Hrun : run =
    (prologue user_query
     ++ trace (stream_loop self (chunks p) (stream_end p) initial_locals)
     ++ epilogue st ++ [Yield final],
     Returned tt)).
  { unfold run.
    rewrite (llm_text_response_after_stream self json_loads p rest
               user_query session_id correlation_id async_tools st Hs).
    cbv zeta.
    rewrite (after_stream_unbound self json_loads p _ st session_id
               correlation_id async_tools fc entry items Hfc Hget Hmode Hjson
               Hbinds).
    reflexivity. }
  destruct (stream_loop_yields self (chunks p) (stream_end p) initial_locals)
    as (evs & Htr & Hin).
  assert (Hev : events run = evs ++ [final]).
  { rewrite Hrun. unfold events. cbn [trace fst].
    rewrite !events_of_app, events_of_prologue, events_of_epilogue, Htr,
      events_of_yields. reflexivity. }
  split; [rewrite Hrun; reflexivity |].
  split.
  { rewrite Hrun. cbn [trace fst].
    rewrite !existsb_app, no_task_in_prologue, no_task_in_epilogue, Htr,
      no_task_in_yields. reflexivity. }
  split.
  { rewrite Hrun. cbn [trace fst].
    rewrite !existsb_app, no_await_in_prologue, no_await_in_epilogue, Htr,
      no_await_in_yields. reflexivity. }
  split.
  { rewrite Hev. unfold events. rewrite Htr, events_of_yields. reflexivity. }
  split; [rewrite Hrun; reflexivity |].
  rewrite Hev. apply count_final_last; [exact Hin | reflexivity].
Qed.

Lemma unbound_arguments_end_in_error_event_witness :
  (streams_to demo_self plan_pass (Some "plan my month") plan_locals /\
   dict_get functions "Prepare_Plan"
   = Some {| function := "prepare_plan"; is_sync := false |} /\
   Json.loads (func_arguments plan_locals)
   = Some (JObject [ ("plan_title", JString "Excel in 30 days");
                     ("plan_duration", JNumber "30");
                     ("your_response", JString "On it, building your plan.") ]) /\
   binds (parameters "prepare_plan")
     (without_aside
        [ ("plan_title", JString "Excel in 30 days");
          ("plan_duration", JNumber "30");
          ("your_response", JString "On it, building your plan.") ])
   = false) /\
  map event_summary
    (events (llm_text_response demo_self Json.loads [plan_pass]
               (Some "plan my month") "sid-1" "corr-1" false))
  = [ (RStr "Error Occurred", true) ] /\
  existsb is_create_task
    (trace (llm_text_response demo_self Json.loads [plan_pass]
              (Some "plan my month") "sid-1" "corr-1" false))
  = false.
Proof.
  assert (Hs : streams_to demo_self plan_pass (Some "plan my month")
                 plan_locals)
    by (repeat split; intros; reflexivity).
  split; [repeat split; intros; reflexivity |].
  destruct (unbound_arguments_end_in_error_event demo_self Json.loads
              plan_pass [] (Some "plan my month") "sid-1" "corr-1" false
              plan_locals
              {| id := "call_1"; func_name := "Prepare_Plan" |}
              {| function := "prepare_plan"; is_sync := false |}
              [ ("plan_title", JString "Excel in 30 days");
                ("plan_duration", JNumber "30");
                ("your_response", JString "On it, building your plan.") ]
              Hs eq_refl eq_refl eq_refl eq_refl eq_refl)
    as (_ & Htask & _ & Hev & _).
  split; [rewrite Hev; reflexivity | exact Htask].
Defined.
